(** * Streaming-subscription manager of [CapitalComAPI] (src/CapitalA.py)

    A shallow embedding of the WebSocket part of the client: the
    subscription registry ([_ws_subscriptions], an insertion-ordered
    Python dict), the inbound router ([_ws_on_message]), the open and
    close handlers, the reconnect loop ([_ws_run]) and the public
    subscribe / unsubscribe / stop-all operations.

    Conventions.
    - The object's attributes are the fields of the record [api];
      every method is a function from [api] to [api] (paired with a
      result where the method returns or raises).
    - External effects (frames written, sleeps, callbacks invoked,
      [logger] calls, connections made and closed) are appended to the
      field [trace], oldest first.
    - What the environment decides (replies of the login endpoint,
      what a connection attempt does, inbound frames, [str()] of a
      decoded JSON value that is not a string) is an explicit
      argument. *)

From Stdlib Require Import ZArith List String Ascii Bool Lia DecimalString.
Import ListNotations.
Open Scope string_scope.
Open Scope Z_scope.

(** ** Python dictionaries

    A [dict] keeps its keys in insertion order; assigning to a key
    that is present replaces the value in place, assigning to a new
    key appends it. *)
Module PyDict.
Section Dict.
Context {V : Type}.

Definition dict := list (string * V).

Definition keys (d : dict) : list string := map fst d.
Definition values (d : dict) : list V := map snd d.

(** [d.get(k)] *)
Fixpoint get (k : string) (d : dict) : option V :=
  match d with
  | [] => None
  | (k', v) :: r => if String.eqb k k' then Some v else get k r
  end.

(** [k in d] *)
Definition contains (k : string) (d : dict) : bool :=
  match get k d with Some _ => true | None => false end.

(** [d[k] = v] *)
Fixpoint set (k : string) (v : V) (d : dict) : dict :=
  match d with
  | [] => [(k, v)]
  | (k', v') :: r =>
      if String.eqb k k' then (k, v) :: r else (k', v') :: set k v r
  end.

(** [d.pop(k, None)]: the removed value, if any, and what is left. *)
Fixpoint pop (k : string) (d : dict) : option V * dict :=
  match d with
  | [] => (None, [])
  | (k', v) :: r =>
      if String.eqb k k' then (Some v, r)
      else let (o, r') := pop k r in (o, (k', v) :: r')
  end.

(** [bool(d)] *)
Definition nonempty (d : dict) : bool :=
  match d with [] => false | _ :: _ => true end.
End Dict.
Arguments dict V : clear implicits.
End PyDict.

Abbreviation dict := PyDict.dict.

(** ** Decoded JSON

    The result of [json.loads], and the argument of [json.dumps].
    Numbers are integers here. *)
#[warnings="-register-all"]
Inductive json : Type :=
| JNull
| JBool (b : bool)
| JNum (n : Z)
| JStr (s : string)
| JArr (items : list json)
| JObj (fields : dict json).

(** Python truth value of a decoded value. *)
Definition truthy (v : json) : bool :=
  match v with
  | JNull => false
  | JBool b => b
  | JNum n => negb (n =? 0)
  | JStr s => negb (String.eqb s "")
  | JArr l => match l with [] => false | _ => true end
  | JObj o => PyDict.nonempty o
  end.

(** [v == s] for a string literal [s]. *)
Definition eq_str (v : json) (s : string) : bool :=
  match v with JStr s' => String.eqb s' s | _ => false end.

(** Truth value of an [Optional[...]] result such as [d.get(k)]. *)
Definition truthy_opt (o : option json) : bool :=
  match o with Some v => truthy v | None => false end.

(** Truth value of an [Optional[str]] attribute. *)
Definition str_truthy (o : option string) : bool :=
  match o with Some s => negb (String.eqb s "") | None => false end.

Definition json_of_opt_str (o : option string) : json :=
  match o with Some s => JStr s | None => JNull end.

(** [str(n)] for an integer. *)
Definition str_of_Z (n : Z) : string := NilZero.string_of_int (Z.to_int n).

(** ** Enumerations *)
Inductive WebSocketStatus := DISCONNECTED | CONNECTING | CONNECTED | STOPPING.

Inductive WebsocketDataType := MARKET | OHLC.

Inductive OhlcBarType := CLASSIC | HEIKIN_ASHI.

Inductive HistoricalPriceResolution :=
| MINUTE | MINUTE_5 | MINUTE_10 | MINUTE_15 | MINUTE_30
| HOUR | HOUR_2 | HOUR_3 | HOUR_4 | DAY | WEEK | MONTH.

Definition status_eqb (a b : WebSocketStatus) : bool :=
  match a, b with
  | DISCONNECTED, DISCONNECTED | CONNECTING, CONNECTING
  | CONNECTED, CONNECTED | STOPPING, STOPPING => true
  | _, _ => false
  end.

(** The [.value] of each enumeration member. *)
Definition data_type_value (d : WebsocketDataType) : string :=
  match d with MARKET => "MARKET" | OHLC => "OHLC" end.

Definition bar_type_value (b : OhlcBarType) : string :=
  match b with CLASSIC => "classic" | HEIKIN_ASHI => "heikin-ashi" end.

Definition resolution_value (r : HistoricalPriceResolution) : string :=
  match r with
  | MINUTE => "MINUTE" | MINUTE_5 => "MINUTE_5" | MINUTE_10 => "MINUTE_10"
  | MINUTE_15 => "MINUTE_15" | MINUTE_30 => "MINUTE_30"
  | HOUR => "HOUR" | HOUR_2 => "HOUR_2" | HOUR_3 => "HOUR_3"
  | HOUR_4 => "HOUR_4" | DAY => "DAY" | WEEK => "WEEK" | MONTH => "MONTH"
  end.

(** ** Registry records

    The value stored under a stream key: the dict literal built by
    [subscribe_to_epic_data].  A callback is identified by a number;
    whether it raises when called is a property of the callback.  What
    a callback does to the client object while the router is calling it
    is outside the model. *)
Record callback := Callback { cb_id : nat; cb_raises : bool }.

Record sub_info := SubInfo {
  sub_callback : option callback;
  sub_epic : string;
  sub_data_type : WebsocketDataType;
  sub_resolution : option HistoricalPriceResolution;
  sub_bar_type : option OhlcBarType;
  sub_active : bool
}.

(** ** Effects

    One constructor of [log_msg] per [logger] call the model can
    reach, with the values the message is formatted from. *)
Inductive log_level := DEBUG | INFO | WARNING | ERROR.

Inductive log_msg :=
(* _update_auth_tokens, login *)
| LogCstUpdated | LogXstUpdated | LogCurrentTokens
| LogLoginAttempt | LogLoginResponse | LogLoginMissingTokens
| LogLoginSuccessful | LogLoginAccountSet (acc : string)
| LogLoginNoAccount | LogLoginHttpError | LogLoginRequestException
(* _get_ws_url *)
| LogWsTokensMissingRelogin
(* _ws_on_message *)
| LogReceived | LogServerError (code : json) | LogAuthFailureStop
| LogControlResponse | LogOhlcMissingResolution (epic : json)
| LogCallbackError (key : string)
| LogNoSubscriptionForKey (key : string) (known : list string)
| LogPong | LogPingUnexpectedStatus
| LogNoHandler (destination : option json)
| LogUnprocessed | LogNonJson | LogGeneralError
(* _ws_on_error, _ws_on_close *)
| LogLowLevelError | LogClosed | LogWaitPingJoin
| LogClosedWhileStopping
(* _ws_on_open *)
| LogOpened | LogOpenedWithoutTokens | LogNothingToResubscribe
| LogProcessingExisting (count : nat)
| LogCannotResubscribeOhlc (epic : string)
| LogResubscribing (key : string) | LogResubscribeFailed (key : string)
| LogSkipInactive (key : string)
(* _ws_run *)
| LogConnecting | LogApiErrorStop | LogWsException | LogUnexpectedError
| LogStopEventSet
| LogReconnectIn (attempt max_attempts delay : Z)
| LogStopDuringDelay | LogMaxAttempts (max_attempts : Z)
| LogEnsureClosed | LogRunFinished
(* _start_websocket_thread, _stop_websocket_thread *)
| LogThreadAlreadyRunning | LogTokensNotAvailable | LogThreadStarted
| LogAlreadyStopped | LogStopping | LogActivelyClosing
| LogWaitMainJoin | LogMainJoined | LogWaitPingJoin5 | LogPingJoined
| LogStopped
(* subscribe_to_epic_data *)
| LogCannotSubscribeNoLogin (epic : string)
| LogAlreadySubscribed (key : string) | LogQueued (key : string)
| LogThreadNotStarted (key : string)
| LogSendingSubscribe (key : string) | LogSubscribeSendFailed (key : string)
| LogConnectingQueued (key : string)
| LogStatusQueued (st : WebSocketStatus) (key : string)
(* unsubscribe_from_epic_data *)
| LogLocallyRemoved (key : string)
| LogSendingUnsubscribe (key : string)
| LogUnsubscribeSendFailed (key : string)
| LogUnsubscribedLocally (key : string)
| LogNoSubscriptionToUnsubscribe (key : string)
| LogNoneRemainingStop
(* stop_all_websocket_subscriptions *)
| LogStopAll | LogNoLocalSubscriptions | LogCleared (count : nat)
| LogSendingUnsubscribeAll (count : nat)
| LogOhlcGenericUnsubscribe (epic : string)
| LogSentUnsubscribe (key : string) | LogUnsubscribeAllFailed (key : string)
| LogNoneActive | LogNotSent (count : nat) | LogAllProcessed.

Inductive event :=
| EvLog (lvl : log_level) (m : log_msg)
| EvConnect (url : string)          (* WebSocketApp(url, ...).run_forever(...) *)
| EvSend (msg : json)               (* send(json.dumps(msg)) that succeeded *)
| EvClose                           (* WebSocketApp.close() *)
| EvSleep (secs : Z)                (* time.sleep(secs) *)
| EvCallback (cb : callback) (payload : json)
| EvThreadStart (name : string)     (* Thread(...).start() *)
| EvJoin (name : string) (timeout : Z)
| EvLoginPost.                      (* session.post(".../session", ...) *)

(** ** The client object *)

(** What [is_alive()] answers for a thread object. *)
Inductive thread := Alive | Finished.

(** The [WebSocketApp] held in [ws_connection]: created and not yet
    connected, connected, or [close()] has been called on it. *)
Inductive sock := SockPending | SockOpen | SockClosed.

Record api := Api {
  cst : option string;
  x_security_token : option string;
  active_account_id : option string;
  ws_thread : option thread;
  ws_connection : option sock;
  _ws_subscriptions : dict sub_info;
  _ws_stop_event : bool;
  _ws_reconnect_attempts : Z;
  _ws_status : WebSocketStatus;
  _ws_ping_thread : option thread;
  _ws_ping_stop_event : bool;
  clock : Z;                 (* what [int(time.time())] reads *)
  trace : list event
}.

Definition _ws_max_reconnect_attempts : Z := 10.
Definition _ws_initial_reconnect_delay : Z := 5.
Definition _ws_max_reconnect_delay : Z := 60.
Definition ws_base_url : string :=
  "wss://api-streaming-capital.backend-capital.com/connect".

(** [__init__], for the attributes above. *)
Definition init (now : Z) : api :=
  {| cst := None; x_security_token := None; active_account_id := None;
     ws_thread := None; ws_connection := None; _ws_subscriptions := [];
     _ws_stop_event := false; _ws_reconnect_attempts := 0;
     _ws_status := DISCONNECTED; _ws_ping_thread := None;
     _ws_ping_stop_event := false; clock := now; trace := [] |}.

(** The [ws_status] property. *)
Definition ws_status (self : api) : WebSocketStatus := _ws_status self.

(** Attribute assignment. *)
Definition set_cst v (s : api) : api :=
  match s with
  | Api _ x acc th conn subs stop att st pth pstop clk tr =>
      Api v x acc th conn subs stop att st pth pstop clk tr
  end.
Definition set_x_security_token v (s : api) : api :=
  match s with
  | Api c _ acc th conn subs stop att st pth pstop clk tr =>
      Api c v acc th conn subs stop att st pth pstop clk tr
  end.
Definition set_active_account_id v (s : api) : api :=
  match s with
  | Api c x _ th conn subs stop att st pth pstop clk tr =>
      Api c x v th conn subs stop att st pth pstop clk tr
  end.
Definition set_ws_thread v (s : api) : api :=
  match s with
  | Api c x acc _ conn subs stop att st pth pstop clk tr =>
      Api c x acc v conn subs stop att st pth pstop clk tr
  end.
Definition set_ws_connection v (s : api) : api :=
  match s with
  | Api c x acc th _ subs stop att st pth pstop clk tr =>
      Api c x acc th v subs stop att st pth pstop clk tr
  end.
Definition set_subscriptions v (s : api) : api :=
  match s with
  | Api c x acc th conn _ stop att st pth pstop clk tr =>
      Api c x acc th conn v stop att st pth pstop clk tr
  end.
Definition set_stop_event v (s : api) : api :=
  match s with
  | Api c x acc th conn subs _ att st pth pstop clk tr =>
      Api c x acc th conn subs v att st pth pstop clk tr
  end.
Definition set_reconnect_attempts v (s : api) : api :=
  match s with
  | Api c x acc th conn subs stop _ st pth pstop clk tr =>
      Api c x acc th conn subs stop v st pth pstop clk tr
  end.
Definition set_status v (s : api) : api :=
  match s with
  | Api c x acc th conn subs stop att _ pth pstop clk tr =>
      Api c x acc th conn subs stop att v pth pstop clk tr
  end.
Definition set_ping_thread v (s : api) : api :=
  match s with
  | Api c x acc th conn subs stop att st _ pstop clk tr =>
      Api c x acc th conn subs stop att st v pstop clk tr
  end.
Definition set_ping_stop_event v (s : api) : api :=
  match s with
  | Api c x acc th conn subs stop att st pth _ clk tr =>
      Api c x acc th conn subs stop att st pth v clk tr
  end.
Definition set_clock v (s : api) : api :=
  match s with
  | Api c x acc th conn subs stop att st pth pstop _ tr =>
      Api c x acc th conn subs stop att st pth pstop v tr
  end.
Definition set_trace v (s : api) : api :=
  match s with
  | Api c x acc th conn subs stop att st pth pstop clk _ =>
      Api c x acc th conn subs stop att st pth pstop clk v
  end.

(** Appending to the record of effects. *)
Definition emit (e : event) (s : api) : api := set_trace (trace s ++ [e]) s.
Definition log (lvl : log_level) (m : log_msg) (s : api) : api :=
  emit (EvLog lvl m) s.

(** [not self.cst or not self.x_security_token] *)
Definition tokens_missing (s : api) : bool :=
  negb (str_truthy (cst s)) || negb (str_truthy (x_security_token s)).

(** [is_alive()] of an optional thread attribute, guarded by its truth
    value: [t and t.is_alive()]. *)
Definition alive (t : option thread) : bool :=
  match t with Some Alive => true | _ => false end.

(** [bool(self.ws_connection)] *)
Definition has_connection (s : api) : bool :=
  match ws_connection s with Some _ => true | None => false end.

(** [WebSocketApp.send]: writes the frame when the socket is open and
    raises otherwise.  The boolean tells whether the call returned. *)
Definition send (msg : json) (s : api) : bool * api :=
  match ws_connection s with
  | Some SockOpen => (true, emit (EvSend msg) s)
  | _ => (false, s)
  end.

(** [self.ws_connection.close()]; the call is taken to return. *)
Definition close (s : api) : api :=
  set_ws_connection (Some SockClosed) (emit EvClose s).

(** [time.sleep(secs)] *)
Definition sleep (secs : Z) (s : api) : api :=
  set_clock (clock s + secs) (emit (EvSleep secs) s).

(** [t.join(timeout)].  The thread joined has had its stop event set
    and is taken to end within the timeout, and the caller is taken not
    to be that thread (for which [join] raises [RuntimeError]); the
    branches that log that a thread is still alive after the join are
    therefore not modelled.  After each join the code drops the thread
    handle whatever the outcome, so that only the message logged
    depends on this. *)
Definition join (name : string) (timeout : Z) (t : option thread)
  : option thread :=
  match t with Some _ => Some Finished | None => None end.

(** ** The credential provider, as far as the streaming side uses it *)

(** What the login endpoint does: the request fails, or a response comes
    back with (possibly absent) token headers, a status that
    [raise_for_status] accepts or not, and a body.  [response.json()]
    raises for the body ([BodyUndecodable]), or gives a truthy value
    that is not an object, so that [data.get] raises [AttributeError]
    ([BodyNotObject]), or gives an object with or without a truthy
    [currentAccountId]; a falsy value of any type ([None], [[]], [0])
    is taken like an object without one, [data.get] not being
    evaluated then. *)
Inductive login_body :=
| BodyUndecodable
| BodyNotObject
| BodyObject (account : option string).

Inductive login_response :=
| LoginRequestFails
| LoginResponse (hdr_cst hdr_xst : option string) (status_ok : bool)
                (body : login_body).

Definition opt_str_eqb (a b : option string) : bool :=
  match a, b with
  | Some x, Some y => String.eqb x y
  | None, None => true
  | _, _ => false
  end.

Definition _update_auth_tokens (new_cst new_xst : option string) (s : api)
  : api :=
  let upd_c := str_truthy new_cst && negb (opt_str_eqb new_cst (cst s)) in
  let s1 := if upd_c then log INFO LogCstUpdated (set_cst new_cst s) else s in
  let upd_x :=
    str_truthy new_xst && negb (opt_str_eqb new_xst (x_security_token s1)) in
  let s2 :=
    if upd_x then log INFO LogXstUpdated (set_x_security_token new_xst s1)
    else s1 in
  if upd_c || upd_x then log DEBUG LogCurrentTokens s2 else s2.

Definition clear_tokens (s : api) : api :=
  set_x_security_token None (set_cst None s).

(** How a call of [login] ends: it returns a boolean, or the
    [AttributeError] of [data.get], which none of its [except] clauses
    names, leaves it. *)
Inductive login_result := Returns (ok : bool) | RaisesAttributeError.

(** [login].  The request is sent without token headers.  The
    exception [response.json()] raises is a
    [requests.exceptions.RequestException], so the second [except]
    clause takes it. *)
Definition login (r : login_response) (s : api) : login_result * api :=
  let s := log INFO LogLoginAttempt s in
  let s := emit EvLoginPost s in
  match r with
  | LoginRequestFails =>
      (Returns false, clear_tokens (log ERROR LogLoginRequestException s))
  | LoginResponse hc hx status_ok body =>
      let s := log DEBUG LogLoginResponse (log DEBUG LogLoginResponse s) in
      let s := _update_auth_tokens hc hx s in
      if negb status_ok then
        (Returns false, clear_tokens (log ERROR LogLoginHttpError s))
      else if tokens_missing s then
        (Returns false, log ERROR LogLoginMissingTokens s)
      else
        let s := log INFO LogLoginSuccessful s in
        match body with
        | BodyUndecodable =>
            (Returns false,
             clear_tokens (log ERROR LogLoginRequestException s))
        | BodyNotObject => (RaisesAttributeError, s)
        | BodyObject (Some acc) =>
            if negb (String.eqb acc "") then
              (Returns true, log INFO (LogLoginAccountSet acc)
                               (set_active_account_id (Some acc) s))
            else (Returns true, log WARNING LogLoginNoAccount s)
        | BodyObject None => (Returns true, log WARNING LogLoginNoAccount s)
        end
  end.

(** [str()] of an [Optional[str]] inside an f-string. *)
Definition fmt_opt_str (o : option string) : string :=
  match o with Some s => s | None => "None" end.

(** The URL [_get_ws_url] returns. *)
Definition ws_url (s : api) : string :=
  ws_base_url ++ "?cst=" ++ fmt_opt_str (cst s)
    ++ "&x-security-token=" ++ fmt_opt_str (x_security_token s).

(** [_get_ws_url] returns the URL, raises [CapitalComAPIError] when
    the login it tried returned [False], or lets the [AttributeError]
    of that login through. *)
Inductive url_result :=
| Url (url : string)
| UrlApiError
| UrlAttributeError.

Definition _get_ws_url (r : login_response) (s : api) : url_result * api :=
  if tokens_missing s then
    let s := log WARNING LogWsTokensMissingRelogin s in
    let (res, s) := login r s in
    match res with
    | Returns true => (Url (ws_url s), s)
    | Returns false => (UrlApiError, s)
    | RaisesAttributeError => (UrlAttributeError, s)
    end
  else (Url (ws_url s), s).

(** ** Stream keys and control frames *)

(** The dict literal of a control frame, as given to [json.dumps]. *)
Definition control_msg (destination correlation_id : string) (s : api)
    (payload : json) : json :=
  JObj [("destination", JStr destination);
        ("correlationId", JStr correlation_id);
        ("cst", json_of_opt_str (cst s));
        ("securityToken", json_of_opt_str (x_security_token s));
        ("payload", payload)].

Definition now_str (s : api) : string := str_of_Z (clock s).

(** ** Handlers of the connection *)

Section Handlers.

(** [str()] of a decoded value that is not a string, as an f-string
    formats it. *)
Variable py_repr : json -> string.

Definition py_str (v : json) : string :=
  match v with JStr s => s | _ => py_repr v end.

Definition opt_eq_str (o : option json) (s : string) : bool :=
  match o with Some v => eq_str v s | None => false end.

(** ["epic" in payload]: [None] stands for the [TypeError] of a value
    that is not a container. *)
Definition py_in (k : string) (v : json) : option bool :=
  match v with
  | JObj o => Some (PyDict.contains k o)
  | JStr s => Some (match String.index 0 k s with Some _ => true | None => false end)
  | JArr l => Some (existsb (fun x => eq_str x k) l)
  | _ => None
  end.

(** [payload["epic"]]: only a dict can be indexed by a string. *)
Definition py_getitem (k : string) (v : json) : option json :=
  match v with JObj o => PyDict.get k o | _ => None end.

(** [v.get(k)] on a decoded value: the outer [None] stands for the
    [AttributeError] of a value that is not a dict. *)
Definition py_get (k : string) (v : json) : option (option json) :=
  match v with JObj o => Some (PyDict.get k o) | _ => None end.

(** How a block of the handler ends: by an exception, by [return], or
    by falling through to the next statement. *)
Inductive flow := Raised | Returned (s : api) | Continue.

(** The error-frame block. *)
Definition on_error_frame (m : dict json) (s : api) : flow :=
  if truthy_opt (PyDict.get "errorCode" m) then
    let s := log ERROR (LogServerError
                          (match PyDict.get "errorCode" m with
                           | Some c => c | None => JNull end)) s in
    if opt_eq_str (PyDict.get "errorCode" m)
         "exceptions.security.authentication-failure" then
      let s := log ERROR LogAuthFailureStop s in
      let s := set_stop_event true s in
      Returned (if has_connection s then close s else s)
    else Returned s
  else Continue.

(** The control-acknowledgment block. *)
Definition on_control_ack (m : dict json) (s : api) : flow :=
  if PyDict.contains "status" m && opt_eq_str (PyDict.get "status" m) "OK"
     && PyDict.contains "correlationId" m && PyDict.contains "payload" m then
    match PyDict.get "payload" m with
    | Some p =>
        match py_get "subscriptions" p with
        | None => Raised
        | Some subs =>
            match subs with
            | Some (JObj ((_, first) :: _)) =>
                if eq_str first "PROCESSED"
                then Returned (log INFO LogControlResponse s)
                else Continue
            | _ => Continue
            end
        end
    | None => Raised
    end
  else Continue.

(** The key the router derives from a data frame, with the warning it
    logs when an OHLC frame has no resolution. *)
Definition router_key (server_destination : option json) (epic : json)
    (payload : dict json) (s : api) : option string * api :=
  if opt_eq_str server_destination "quote" then
    (Some ("/market/" ++ py_str epic), s)
  else if opt_eq_str server_destination "ohlc.event" then
    let resolution := PyDict.get "resolution" payload in
    let bar_type :=
      match PyDict.get "type" payload with
      | Some t => t
      | None => JStr (bar_type_value CLASSIC)
      end in
    match resolution with
    | Some r =>
        if truthy r then
          (Some ("/ohlc/" ++ py_str epic ++ "/" ++ py_str r ++ "/"
                   ++ py_str bar_type), s)
        else (None, log WARNING (LogOhlcMissingResolution epic) s)
    | None => (None, log WARNING (LogOhlcMissingResolution epic) s)
    end
  else (None, s).

(** Lookup and dispatch for a derived key. *)
Definition dispatch (key : string) (payload : json) (s : api) : api :=
  match PyDict.get key (_ws_subscriptions s) with
  | Some info =>
      match sub_active info, sub_callback info with
      | true, Some cb =>
          let s := emit (EvCallback cb payload) s in
          if cb_raises cb then log ERROR (LogCallbackError key) s else s
      | _, _ => s
      end
  | None =>
      log DEBUG (LogNoSubscriptionForKey key
                   (PyDict.keys (_ws_subscriptions s))) s
  end.

(** The [elif]/[else] arms taken when no key was derived. *)
Definition on_other_destination (m : dict json)
    (server_destination : option json) (s : api) : api :=
  if opt_eq_str server_destination "ping" then
    if opt_eq_str (PyDict.get "status" m) "OK" then log INFO LogPong s
    else log WARNING LogPingUnexpectedStatus s
  else log DEBUG (LogNoHandler server_destination) s.

(** [bool(stream_destination_key_for_lookup)] *)
Definition key_truthy (key : option string) : bool :=
  match key with Some k => negb (String.eqb k "") | None => false end.

(** The data-frame block. *)
Definition on_data_frame (m : dict json) (s : api) : flow :=
  let server_destination := PyDict.get "destination" m in
  match PyDict.get "payload" m with
  | Some payload =>
      if truthy payload then
        match py_in "epic" payload with
        | None => Raised
        | Some false => Continue
        | Some true =>
            match payload, py_getitem "epic" payload with
            | JObj fields, Some epic =>
                let (key, s) := router_key server_destination epic fields s in
                match key with
                | Some k =>
                    if key_truthy key then Returned (dispatch k payload s)
                    else Returned (on_other_destination m server_destination s)
                | None =>
                    Returned (on_other_destination m server_destination s)
                end
            | _, _ => Raised
            end
        end
      else Continue
  | None => Continue
  end.

(** [_ws_on_message]; the argument is [json.loads(message_str)], or
    [None] when the text does not decode. *)
Definition _ws_on_message (decoded : option json) (s : api) : api :=
  match decoded with
  | None => log WARNING LogNonJson s
  | Some message =>
      let s := log DEBUG LogReceived s in
      match message with
      | JObj m =>
          match on_error_frame m s with
          | Returned s' => s'
          | Raised => log ERROR LogGeneralError s
          | Continue =>
              match on_control_ack m s with
              | Returned s' => s'
              | Raised => log ERROR LogGeneralError s
              | Continue =>
                  match on_data_frame m s with
                  | Returned s' => s'
                  | Raised => log ERROR LogGeneralError s
                  | Continue => log DEBUG LogUnprocessed s
                  end
              end
          end
      | _ => log ERROR LogGeneralError s
      end
  end.

Definition _ws_on_error (s : api) : api := log ERROR LogLowLevelError s.

Definition _ws_on_close (s : api) : api :=
  let s := log WARNING LogClosed s in
  let s := set_ws_connection None s in
  let s := set_ping_stop_event true s in
  let s :=
    if alive (_ws_ping_thread s) then
      let s := log DEBUG LogWaitPingJoin s in
      let s := emit (EvJoin "CapitalComAppPingThread" 3) s in
      set_ping_thread (join "CapitalComAppPingThread" 3 (_ws_ping_thread s)) s
    else s in
  let s := set_ping_thread None s in
  if negb (status_eqb (_ws_status s) STOPPING) then set_status DISCONNECTED s
  else log INFO LogClosedWhileStopping (set_status DISCONNECTED s).

(** The frame [_ws_on_open] builds for one registry record, when the
    record's fields allow it. *)
Definition reopen_msg (info : sub_info) (s : api) : option json :=
  let epic := sub_epic info in
  let data_type := sub_data_type info in
  let correlation_id :=
    "reopen-" ++ epic ++ "-" ++ data_type_value data_type ++ "-" ++ now_str s in
  match data_type with
  | MARKET =>
      Some (control_msg "marketData.subscribe" correlation_id s
              (JObj [("epics", JArr [JStr epic])]))
  | OHLC =>
      match sub_resolution info, sub_bar_type info with
      | Some resolution, Some bar_type =>
          Some (control_msg "OHLCMarketData.subscribe" correlation_id s
                  (JObj [("epics", JArr [JStr epic]);
                         ("resolutions",
                          JArr [JStr (resolution_value resolution)]);
                         ("type", JStr (bar_type_value bar_type))]))
      | _, _ => None
      end
  end.

(** One iteration of the resubscription loop. *)
Definition resubscribe_one (s : api) (item : string * sub_info) : api :=
  let (stream_dest, info) := item in
  if sub_active info then
    match reopen_msg info s with
    | None => log ERROR (LogCannotResubscribeOhlc (sub_epic info)) s
    | Some msg =>
        let s := log INFO (LogResubscribing stream_dest) s in
        let (sent, s) := send msg s in
        if sent then s else log ERROR (LogResubscribeFailed stream_dest) s
    end
  else log DEBUG (LogSkipInactive stream_dest) s.

Definition _ws_on_open (s : api) : api :=
  let s := log INFO LogOpened s in
  let s := set_status CONNECTED s in
  let s := set_reconnect_attempts 0 s in
  if tokens_missing s then
    let s := log ERROR LogOpenedWithoutTokens s in
    let s := set_stop_event true s in
    if has_connection s then close s else s
  else
    let s := set_ping_stop_event false s in
    let s := set_ping_thread (Some Alive) s in
    let s := emit (EvThreadStart "CapitalComAppPingThread") s in
    let subscriptions_to_resubscribe := _ws_subscriptions s in
    match subscriptions_to_resubscribe with
    | [] => log INFO LogNothingToResubscribe s
    | _ :: _ =>
        let s := log INFO (LogProcessingExisting
                             (List.length subscriptions_to_resubscribe)) s in
        fold_left resubscribe_one subscriptions_to_resubscribe s
    end.

(** ** The transport, as [run_forever] drives the handlers

    What one call of [run_forever] meets: an exception raised to the
    caller, a connection that never opens (error and close handlers
    run), or a connection that opens, delivers frames and low-level
    errors in order, and then is closed by the peer or stays up.
    Delivery stops as soon as a handler has closed the connection. *)
Inductive inbound := Message (decoded : option json) | TransportError.

Inductive transport :=
| RaisesWebSocketException
| RaisesException
| NeverOpens
| Opens (frames : list inbound) (peer_closes : bool).

Inductive raised := WebSocketException | OtherException.

Inductive rf_result :=
| RfReturned (s : api)
| RfRaised (e : raised) (s : api)
| RfStaysOpen (s : api).

Fixpoint deliver (frames : list inbound) (s : api) : api :=
  match frames with
  | [] => s
  | f :: rest =>
      match ws_connection s with
      | Some SockOpen =>
          deliver rest
            (match f with
             | Message d => _ws_on_message d s
             | TransportError => _ws_on_error s
             end)
      | _ => s
      end
  end.

Definition run_forever (t : transport) (s : api) : rf_result :=
  match t with
  | RaisesWebSocketException => RfRaised WebSocketException s
  | RaisesException => RfRaised OtherException s
  | NeverOpens => RfReturned (_ws_on_close (_ws_on_error s))
  | Opens frames peer_closes =>
      let s := set_ws_connection (Some SockOpen) s in
      let s := _ws_on_open s in
      let s := deliver frames s in
      match ws_connection s with
      | Some SockOpen =>
          if peer_closes then RfReturned (_ws_on_close s) else RfStaysOpen s
      | _ => RfReturned (_ws_on_close s)
      end
  end.

(** ** The reconnect loop *)

(** What the environment does during one iteration of the loop of
    [_ws_run]: the reply to a re-login (used only when the tokens are
    missing), the transport, and, when another thread sets the stop
    event during the backoff wait, the number of whole one-unit sleeps
    completed before it does. *)
Record attempt := Attempt {
  a_login : login_response;
  a_transport : transport;
  a_stop_after : option nat
}.

(** The inner wait loop, [while slept_time < delay and not stop]. *)
Fixpoint backoff_wait (fuel : nat) (slept_time delay : Z)
    (stop_after : option nat) (s : api) : api :=
  match fuel with
  | O => s
  | S fuel =>
      if (slept_time <? delay) && negb (_ws_stop_event s) then
        let s := sleep 1 s in
        match stop_after with
        | Some O =>
            backoff_wait fuel (slept_time + 1) delay None
              (set_stop_event true s)
        | Some (S k) => backoff_wait fuel (slept_time + 1) delay (Some k) s
        | None => backoff_wait fuel (slept_time + 1) delay None s
        end
      else s
  end.

(** [min(initial * 2 ** attempts, max_delay)] *)
Definition reconnect_delay (attempts : Z) : Z :=
  Z.min (_ws_initial_reconnect_delay * 2 ^ attempts) _ws_max_reconnect_delay.

(** The loop body after the [try] statement.  The boolean tells whether
    the loop goes round again. *)
Definition reconnect_phase (stop_after : option nat) (s : api) : bool * api :=
  if _ws_stop_event s then (false, log INFO LogStopEventSet s)
  else if _ws_reconnect_attempts s <? _ws_max_reconnect_attempts then
    let delay := reconnect_delay (_ws_reconnect_attempts s) in
    let s := log INFO (LogReconnectIn (_ws_reconnect_attempts s + 1)
                         _ws_max_reconnect_attempts delay) s in
    let s := set_status CONNECTING s in
    let s := backoff_wait (Z.to_nat delay) 0 delay stop_after s in
    if _ws_stop_event s then (false, log INFO LogStopDuringDelay s)
    else (true, set_reconnect_attempts (_ws_reconnect_attempts s + 1) s)
  else
    (false, set_stop_event true
              (log ERROR (LogMaxAttempts _ws_max_reconnect_attempts) s)).

(** The loop either leaves ([Exited]) or is still inside [run_forever]
    or at the loop head when the described environment ends
    ([Running]). *)
Inductive run_result := Exited (s : api) | Running (s : api).

(** How the [try] statement of the loop body ends: by the [break] of
    the [CapitalComAPIError] clause, inside [run_forever] with the
    connection up, or at its end (normally or through one of the other
    [except] clauses). *)
Inductive try_result :=
| TryBreak (s : api)
| TryStaysOpen (s : api)
| TryDone (s : api).

Definition connect_phase (a : attempt) (s : api) : try_result :=
  let (url, s) := _get_ws_url (a_login a) s in
  match url with
  | UrlApiError => TryBreak (set_stop_event true (log ERROR LogApiErrorStop s))
  | UrlAttributeError => TryDone (log ERROR LogUnexpectedError s)
  | Url url =>
      let s := log INFO LogConnecting s in
      let s := set_status CONNECTING s in
      let s := set_ws_connection (Some SockPending) s in
      let s := emit (EvConnect url) s in
      match run_forever (a_transport a) s with
      | RfStaysOpen s => TryStaysOpen s
      | RfRaised WebSocketException s => TryDone (log ERROR LogWsException s)
      | RfRaised OtherException s => TryDone (log ERROR LogUnexpectedError s)
      | RfReturned s => TryDone s
      end
  end.

Fixpoint run_loop (env : list attempt) (s : api) : run_result :=
  if _ws_stop_event s then Exited s
  else
    match env with
    | [] => Running s
    | a :: env =>
        match connect_phase a s with
        | TryBreak s => Exited s
        | TryStaysOpen s => Running s
        | TryDone s =>
            let (again, s) := reconnect_phase (a_stop_after a) s in
            if again then run_loop env s else Exited s
        end
    end.

(** The statements after the loop; at their end the thread function
    returns, so the thread object stops being alive. *)
Definition run_exit (s : api) : api :=
  let s :=
    if has_connection s then close (log DEBUG LogEnsureClosed s) else s in
  let s := set_ws_connection None s in
  let s := set_ping_stop_event true s in
  let s :=
    if alive (_ws_ping_thread s) then
      let s := emit (EvJoin "CapitalComAppPingThread" 3) s in
      set_ping_thread (join "CapitalComAppPingThread" 3 (_ws_ping_thread s)) s
    else s in
  let s := set_ping_thread None s in
  let s :=
    if negb (status_eqb (_ws_status s) STOPPING)
    then set_status DISCONNECTED s else s in
  let s := log INFO LogRunFinished s in
  set_ws_thread (match ws_thread s with
                 | Some _ => Some Finished
                 | None => None
                 end) s.

Definition _ws_run (env : list attempt) (s : api) : run_result :=
  let s := set_status CONNECTING s in
  match run_loop env s with
  | Exited s => Exited (run_exit s)
  | Running s => Running s
  end.

End Handlers.

(** ** Starting and stopping the supervisor thread *)

Definition _start_websocket_thread (s : api) : bool * api :=
  let running := alive (ws_thread s) in
  let s := if running then log INFO LogThreadAlreadyRunning s else s in
  if running && status_eqb (ws_status s) CONNECTED then (true, s)
  else
    let s := if tokens_missing s then log INFO LogTokensNotAvailable s else s in
    let s := set_stop_event false s in
    let s := set_ping_stop_event false s in
    let s := set_reconnect_attempts 0 s in
    let s := set_status CONNECTING s in
    let s := set_ws_thread (Some Alive) s in
    let s := emit (EvThreadStart "CapitalComWSThread") s in
    (true, log INFO LogThreadStarted s).

Definition _stop_websocket_thread (s : api) : api :=
  if status_eqb (_ws_status s) DISCONNECTED && negb (alive (ws_thread s)) then
    let s := log INFO LogAlreadyStopped s in
    let s :=
      if alive (_ws_ping_thread s) then
        let s := set_ping_stop_event true s in
        let s := emit (EvJoin "CapitalComAppPingThread" 3) s in
        set_ping_thread (join "CapitalComAppPingThread" 3 (_ws_ping_thread s)) s
      else s in
    set_ping_thread None s
  else
    let s := log INFO LogStopping s in
    let s := set_status STOPPING s in
    let s := set_stop_event true s in
    let s := set_ping_stop_event true s in
    let s :=
      if has_connection s then close (log DEBUG LogActivelyClosing s) else s in
    let s :=
      if alive (ws_thread s) then
        let s := log DEBUG LogWaitMainJoin s in
        let s := emit (EvJoin "CapitalComWSThread" 15) s in
        let s := set_ws_thread (join "CapitalComWSThread" 15 (ws_thread s)) s in
        log INFO LogMainJoined s
      else s in
    let s :=
      if alive (_ws_ping_thread s) then
        let s := log DEBUG LogWaitPingJoin5 s in
        let s := emit (EvJoin "CapitalComAppPingThread" 5) s in
        let s :=
          set_ping_thread
            (join "CapitalComAppPingThread" 5 (_ws_ping_thread s)) s in
        log INFO LogPingJoined s
      else s in
    let s := set_ws_thread None s in
    let s := set_ws_connection None s in
    let s := set_ping_thread None s in
    let s := set_status DISCONNECTED s in
    log INFO LogStopped s.

(** ** Subscribe, unsubscribe, stop all *)

(** How a public call ends. *)
Inductive outcome := Return | RaiseValueError.

(** Stream key, control destination and payload, as the [if]/[elif]
    chain at the head of [subscribe_to_epic_data] assigns them; [None]
    stands for the [ValueError] of an OHLC call without resolution.
    The final [else] of the chain has no counterpart: the enumeration
    has no third member. *)
Definition subscribe_target (epic : string) (data_type : WebsocketDataType)
    (resolution : option HistoricalPriceResolution) (bar_type : OhlcBarType)
  : option (string * string * json) :=
  match data_type with
  | MARKET =>
      Some ("/market/" ++ epic, "marketData.subscribe",
            JObj [("epics", JArr [JStr epic])])
  | OHLC =>
      match resolution with
      | None => None
      | Some r =>
          Some ("/ohlc/" ++ epic ++ "/" ++ resolution_value r ++ "/"
                  ++ bar_type_value bar_type,
                "OHLCMarketData.subscribe",
                JObj [("epics", JArr [JStr epic]);
                      ("resolutions", JArr [JStr (resolution_value r)]);
                      ("type", JStr (bar_type_value bar_type))])
      end
  end.

(** The same chain at the head of [unsubscribe_from_epic_data]. *)
Definition unsubscribe_target (epic : string) (data_type : WebsocketDataType)
    (resolution : option HistoricalPriceResolution) (bar_type : OhlcBarType)
  : option (string * string * json) :=
  match data_type with
  | MARKET =>
      Some ("/market/" ++ epic, "marketData.unsubscribe",
            JObj [("epics", JArr [JStr epic])])
  | OHLC =>
      match resolution with
      | None => None
      | Some r =>
          Some ("/ohlc/" ++ epic ++ "/" ++ resolution_value r ++ "/"
                  ++ bar_type_value bar_type,
                "OHLCMarketData.unsubscribe",
                JObj [("epics", JArr [JStr epic]);
                      ("resolutions", JArr [JStr (resolution_value r)]);
                      ("types", JArr [JStr (bar_type_value bar_type)])])
      end
  end.

(** The correlation identifier of an immediate subscribe or unsubscribe
    frame. *)
Definition facade_correlation_id (prefix epic : string)
    (data_type : WebsocketDataType)
    (resolution : option HistoricalPriceResolution) (bar_type : OhlcBarType)
    (s : api) : string :=
  prefix ++ "-" ++ epic ++ "-" ++ data_type_value data_type ++ "-"
    ++ (match resolution with Some r => resolution_value r | None => "" end)
    ++ "-"
    ++ (match data_type with OHLC => bar_type_value bar_type | MARKET => "" end)
    ++ "-" ++ now_str s.

Definition subscribe_to_epic_data (epic : string)
    (data_type : WebsocketDataType) (callback : option callback)
    (resolution : option HistoricalPriceResolution) (bar_type : OhlcBarType)
    (s : api) : outcome * api :=
  if tokens_missing s then
    (Return, log ERROR (LogCannotSubscribeNoLogin epic) s)
  else
    match subscribe_target epic data_type resolution bar_type with
    | None => (RaiseValueError, s)
    | Some (stream_destination_key, control_destination_api, payload_data) =>
        let s :=
          match PyDict.get stream_destination_key (_ws_subscriptions s) with
          | Some old =>
              if sub_active old
              then log WARNING (LogAlreadySubscribed stream_destination_key) s
              else s
          | None => s
          end in
        let s :=
          set_subscriptions
            (PyDict.set stream_destination_key
               {| sub_callback := callback; sub_epic := epic;
                  sub_data_type := data_type; sub_resolution := resolution;
                  sub_bar_type := Some bar_type; sub_active := true |}
               (_ws_subscriptions s)) s in
        let s := log INFO (LogQueued stream_destination_key) s in
        let (started, s) := _start_websocket_thread s in
        if negb started then
          (Return, log ERROR (LogThreadNotStarted stream_destination_key) s)
        else if status_eqb (ws_status s) CONNECTED && has_connection s then
          let correlation_id :=
            facade_correlation_id "sub" epic data_type resolution bar_type s in
          let subscribe_msg :=
            control_msg control_destination_api correlation_id s payload_data in
          let s := log INFO (LogSendingSubscribe stream_destination_key) s in
          let (sent, s) := send subscribe_msg s in
          (Return,
           if sent then s
           else log ERROR (LogSubscribeSendFailed stream_destination_key) s)
        else if status_eqb (ws_status s) CONNECTING then
          (Return, log INFO (LogConnectingQueued stream_destination_key) s)
        else
          (Return,
           log WARNING (LogStatusQueued (ws_status s) stream_destination_key) s)
    end.

Definition unsubscribe_from_epic_data (epic : string)
    (data_type : WebsocketDataType)
    (resolution : option HistoricalPriceResolution) (bar_type : OhlcBarType)
    (s : api) : outcome * api :=
  match unsubscribe_target epic data_type resolution bar_type with
  | None => (RaiseValueError, s)
  | Some (stream_destination_key, control_destination_api,
          unsubscribe_payload) =>
      let (sub_info_popped, rest) :=
        PyDict.pop stream_destination_key (_ws_subscriptions s) in
      let s := set_subscriptions rest s in
      let s :=
        match sub_info_popped with
        | Some _ =>
            let s := log INFO (LogLocallyRemoved stream_destination_key) s in
            if status_eqb (ws_status s) CONNECTED && has_connection s
               && str_truthy (cst s) && str_truthy (x_security_token s) then
              let correlation_id :=
                facade_correlation_id "unsub" epic data_type resolution
                  bar_type s in
              let unsubscribe_msg :=
                control_msg control_destination_api correlation_id s
                  unsubscribe_payload in
              let s :=
                log INFO (LogSendingUnsubscribe stream_destination_key) s in
              let (sent, s) := send unsubscribe_msg s in
              if sent then s
              else log ERROR (LogUnsubscribeSendFailed stream_destination_key) s
            else log INFO (LogUnsubscribedLocally stream_destination_key) s
        | None =>
            log WARNING (LogNoSubscriptionToUnsubscribe stream_destination_key) s
        end in
      let no_active_subscriptions :=
        negb (PyDict.nonempty (_ws_subscriptions s)) in
      if no_active_subscriptions
         && negb (status_eqb (ws_status s) DISCONNECTED)
         && negb (status_eqb (ws_status s) STOPPING) then
        (Return, _stop_websocket_thread (log INFO LogNoneRemainingStop s))
      else (Return, s)
  end.

(** One captured record of [stop_all_websocket_subscriptions]; the
    fields are those of the dict appended to
    [destinations_to_unsubscribe_server]. *)
Definition stop_all_msg (info : sub_info) (s : api) : json * api :=
  let epic := sub_epic info in
  let data_type := sub_data_type info in
  let plain := [("epics", JArr [JStr epic])] in
  let '(control_dest_api, unsubscribe_payload, s) :=
    match data_type with
    | MARKET => ("marketData.unsubscribe", plain, s)
    | OHLC =>
        match sub_resolution info, sub_bar_type info with
        | Some resolution, Some bar_type =>
            ("OHLCMarketData.unsubscribe",
             (plain ++ [("resolutions",
                         JArr [JStr (resolution_value resolution)]);
                        ("types", JArr [JStr (bar_type_value bar_type)])])%list,
             s)
        | _, _ =>
            ("OHLCMarketData.unsubscribe", plain,
             log WARNING (LogOhlcGenericUnsubscribe epic) s)
        end
    end in
  (control_msg control_dest_api
     ("unsub-all-" ++ epic ++ "-" ++ data_type_value data_type ++ "-"
        ++ now_str s) s (JObj unsubscribe_payload), s).

Definition stop_all_one (s : api) (item : string * sub_info) : api :=
  let (stream_dest, info) := item in
  let (unsubscribe_msg, s) := stop_all_msg info s in
  let (sent, s) := send unsubscribe_msg s in
  if sent then log DEBUG (LogSentUnsubscribe stream_dest) s
  else log WARNING (LogUnsubscribeAllFailed stream_dest) s.

Definition stop_all_websocket_subscriptions (s : api) : api :=
  let s := log INFO LogStopAll s in
  let destinations_to_unsubscribe_server := _ws_subscriptions s in
  let s :=
    match _ws_subscriptions s with
    | [] => log INFO LogNoLocalSubscriptions s
    | _ :: _ =>
        log DEBUG (LogCleared (List.length destinations_to_unsubscribe_server))
          (set_subscriptions [] s)
    end in
  let s :=
    if status_eqb (ws_status s) CONNECTED && has_connection s
       && str_truthy (cst s) && str_truthy (x_security_token s) then
      match destinations_to_unsubscribe_server with
      | _ :: _ =>
          let s :=
            log INFO (LogSendingUnsubscribeAll
                        (List.length destinations_to_unsubscribe_server)) s in
          fold_left stop_all_one destinations_to_unsubscribe_server s
      | [] => log INFO LogNoneActive s
      end
    else
      match destinations_to_unsubscribe_server with
      | _ :: _ =>
          log INFO (LogNotSent
                      (List.length destinations_to_unsubscribe_server)) s
      | [] => s
      end in
  let s := _stop_websocket_thread s in
  log INFO LogAllProcessed s.

(** * Reading the model

    Observations on the record of effects, the statements of the
    specification that the theorems compare the code with, and the
    states used as examples. *)

Open Scope list_scope.

(** ** Reading the record of effects *)

(** The frames written, in order. *)
Definition sent_frames (t : list event) : list json :=
  flat_map (fun e => match e with EvSend m => [m] | _ => [] end) t.

(** The callbacks invoked, with their argument. *)
Definition callbacks (t : list event) : list (callback * json) :=
  flat_map (fun e => match e with EvCallback c p => [(c, p)] | _ => [] end) t.

(** The log entries. *)
Definition logged (t : list event) : list (log_level * log_msg) :=
  flat_map (fun e => match e with EvLog l m => [(l, m)] | _ => [] end) t.

(** Connection attempts and sleeps, in order. *)
Definition is_timing (e : event) : bool :=
  match e with EvConnect _ | EvSleep _ => true | _ => false end.

Definition schedule (t : list event) : list event := filter is_timing t.

(** ** The canonical stream key, as the specification writes it

    [MARKET]: ["/market/" + symbol];
    [OHLC]: ["/ohlc/" + symbol + "/" + resolution + "/" + barShape],
    defined only when a resolution is given. *)
Definition canonical_key (symbol : string) (kind : WebsocketDataType)
    (resolution : option HistoricalPriceResolution) (barShape : OhlcBarType)
  : option string :=
  match kind with
  | MARKET => Some ("/market/" ++ symbol)%string
  | OHLC =>
      match resolution with
      | Some r =>
          Some ("/ohlc/" ++ symbol ++ "/" ++ resolution_value r ++ "/"
                  ++ bar_type_value barShape)%string
      | None => None
      end
  end.


(** The inbound data frame that corresponds to a subscription: the
    destination tag of the kind, and a payload object carrying the
    symbol and, for OHLC, the resolution and bar shape. *)
Definition corresponding_frame (kind : WebsocketDataType) (symbol : string)
    (resolution : option HistoricalPriceResolution) (barShape : OhlcBarType)
    (m fields : dict json) : Prop :=
  PyDict.get "payload" m = Some (JObj fields) /\
  PyDict.get "epic" fields = Some (JStr symbol) /\
  match kind with
  | MARKET => PyDict.get "destination" m = Some (JStr "quote")
  | OHLC =>
      PyDict.get "destination" m = Some (JStr "ohlc.event") /\
      PyDict.get "resolution" fields =
        option_map (fun r => JStr (resolution_value r)) resolution /\
      PyDict.get "type" fields = Some (JStr (bar_type_value barShape))
  end.


(** Registry, tokens, clock, attempt counter and the schedule of
    connection attempts and sleeps are the same in both states. *)
Definition stable (s s' : api) : Prop :=
  _ws_subscriptions s' = _ws_subscriptions s /\
  cst s' = cst s /\ x_security_token s' = x_security_token s /\
  clock s' = clock s /\
  _ws_reconnect_attempts s' = _ws_reconnect_attempts s /\
  schedule (trace s') = schedule (trace s).

(** A handler keeps connection and stop event as they are, or sets the
    stop event and closes the connection. *)
Definition handler_ok (s s' : api) : Prop :=
  stable s s' /\
  ((ws_connection s' = ws_connection s /\ _ws_stop_event s' = _ws_stop_event s)
   \/ (_ws_stop_event s' = true /\ ws_connection s' <> Some SockOpen)).


(** The subscribe control frame the specification derives from a
    registry record: destination and payload.
    [MARKET]: [marketData.subscribe] with [payload.epics = [symbol]];
    [OHLC]: [OHLCMarketData.subscribe] with [resolutions = [resolution]]
    and [type = barShape]; none when resolution or bar shape is
    missing. *)
Definition claimed_frame (r : sub_info) : option (json * json) :=
  match sub_data_type r with
  | MARKET =>
      Some (JStr "marketData.subscribe",
            JObj [("epics", JArr [JStr (sub_epic r)])])
  | OHLC =>
      match sub_resolution r, sub_bar_type r with
      | Some resolution, Some barShape =>
          Some (JStr "OHLCMarketData.subscribe",
                JObj [("epics", JArr [JStr (sub_epic r)]);
                      ("resolutions", JArr [JStr (resolution_value resolution)]);
                      ("type", JStr (bar_type_value barShape))])
      | _, _ => None
      end
  end.

(** Destination and payload of a written frame. *)
Definition destination_and_payload (msg : json) : option (json * json) :=
  match msg with
  | JObj o =>
      match PyDict.get "destination" o, PyDict.get "payload" o with
      | Some d, Some p => Some (d, p)
      | _, _ => None
      end
  | _ => None
  end.

(** The epics for which the open handler logged that it cannot
    resubscribe. *)
Definition resubscribe_defects (t : list event) : list string :=
  flat_map (fun e => match e with
                     | EvLog ERROR (LogCannotResubscribeOhlc epic) => [epic]
                     | _ => []
                     end) t.

(** The stream keys the open handler skipped as inactive. *)
Definition skipped_inactive (t : list event) : list string :=
  flat_map (fun e => match e with
                     | EvLog DEBUG (LogSkipInactive k) => [k]
                     | _ => []
                     end) t.

Definition is_active (item : string * sub_info) : bool := sub_active (snd item).

(** The events of one iteration of the resubscription loop. *)
Definition resubscribe_events (s : api) (item : string * sub_info)
  : list event :=
  let (stream_dest, info) := item in
  if sub_active info then
    match reopen_msg info s with
    | None => [EvLog ERROR (LogCannotResubscribeOhlc (sub_epic info))]
    | Some msg =>
        EvLog INFO (LogResubscribing stream_dest)
        :: match ws_connection s with
           | Some SockOpen => [EvSend msg]
           | _ => [EvLog ERROR (LogResubscribeFailed stream_dest)]
           end
    end
  else [EvLog DEBUG (LogSkipInactive stream_dest)].

(** The events of the open handler when both tokens are present. *)
Definition open_events (s : api) : list event :=
  [EvLog INFO LogOpened; EvThreadStart "CapitalComAppPingThread"]
  ++ match _ws_subscriptions s with
     | [] => [EvLog INFO LogNothingToResubscribe]
     | l => EvLog INFO (LogProcessingExisting (List.length l))
            :: flat_map (resubscribe_events s) l
     end.

(** The frames the specification expects for a list of records, one per
    record whose fields allow it, and the records it leaves out. *)
Definition claimed_frames (l : list (string * sub_info))
  : list (option (json * json)) :=
  flat_map (fun item => match claimed_frame (snd item) with
                        | Some f => [Some f]
                        | None => []
                        end) l.

Definition lacks_ohlc_field (item : string * sub_info) : bool :=
  match claimed_frame (snd item) with Some _ => false | None => true end.

(** ** The reconnect schedule, as the specification writes it

    The delay before the n-th reconnect attempt, n = 1..10, and the
    resulting order of connection attempts and one-unit sleeps: a first
    attempt, then ten times a wait followed by an attempt. *)
Definition claimed_delay (n : Z) : Z := Z.min (5 * 2 ^ (n - 1)) 60.

Definition claimed_schedule (url : string) : list event :=
  EvConnect url
  :: flat_map (fun n => repeat (EvSleep 1) (Z.to_nat (claimed_delay n))
                        ++ [EvConnect url])
       [1; 2; 3; 4; 5; 6; 7; 8; 9; 10].

(** An iteration of the loop that fails without being interrupted: the
    transport raises or never opens, and nobody sets the stop event
    during the wait. *)
Definition fails (a : attempt) : bool :=
  match a_transport a, a_stop_after a with
  | Opens _ _, _ => false
  | _, Some _ => false
  | _, None => true
  end.

(** [n] uninterrupted one-unit sleeps. *)
Definition sleeps (n : nat) (s : api) : api :=
  set_clock (clock s + Z.of_nat n)
    (set_trace (trace s ++ repeat (EvSleep 1) n) s).

(** The schedule of the loop from attempt counter [k] when [n] retries
    remain. *)
Fixpoint retry_plan (url : string) (n : nat) (k : Z) : list event :=
  match n with
  | O => [EvConnect url]
  | S n =>
      EvConnect url
      :: repeat (EvSleep 1) (Z.to_nat (reconnect_delay k))
      ++ retry_plan url n (k + 1)
  end.

(** The state a result of the loop carries. *)
Definition state_of_run (r : run_result) : api :=
  match r with Exited s | Running s => s end.

Definition state_of_try (r : try_result) : api :=
  match r with TryBreak s | TryStaysOpen s | TryDone s => s end.

(** An inbound frame that carries the authentication-failure code. *)
Definition auth_failure_frame (f : inbound) : Prop :=
  exists m,
    f = Message (Some (JObj m)) /\
    PyDict.get "errorCode" m =
      Some (JStr "exceptions.security.authentication-failure").

(** What a failed, uninterrupted connection attempt leaves: tokens, stop
    event and attempt counter as they were, one more connection attempt
    in the schedule, and a status other than [STOPPING]. *)
Definition attempt_made (s s1 : api) : Prop :=
  cst s1 = cst s /\ x_security_token s1 = x_security_token s /\
  _ws_stop_event s1 = _ws_stop_event s /\
  _ws_reconnect_attempts s1 = _ws_reconnect_attempts s /\
  schedule (trace s1) = schedule (trace s) ++ [EvConnect (ws_url s)] /\
  _ws_status s1 <> STOPPING.

(** ** Histories of the client object

    One step is one of the modelled methods or handlers, run on the
    current object, or a REST call that sets or clears the session
    tokens.  The run loop appears both as a whole and by its two
    phases, so that calls from other threads can fall between them. *)
Inductive step (py_repr : json -> string) (s : api) : api -> Prop :=
| step_tokens c x :
    step py_repr s (set_x_security_token x (set_cst c s))
| step_login r :
    step py_repr s (snd (login r s))
| step_subscribe epic data_type cb resolution bar_type :
    step py_repr s
      (snd (subscribe_to_epic_data epic data_type cb resolution bar_type s))
| step_unsubscribe epic data_type resolution bar_type :
    step py_repr s
      (snd (unsubscribe_from_epic_data epic data_type resolution bar_type s))
| step_stop_all :
    step py_repr s (stop_all_websocket_subscriptions s)
| step_start :
    step py_repr s (snd (_start_websocket_thread s))
| step_stop :
    step py_repr s (_stop_websocket_thread s)
| step_on_open :
    step py_repr s (_ws_on_open s)
| step_on_message decoded :
    step py_repr s (_ws_on_message py_repr decoded s)
| step_on_error :
    step py_repr s (_ws_on_error s)
| step_on_close :
    step py_repr s (_ws_on_close s)
| step_connect a :
    step py_repr s (state_of_try (connect_phase py_repr a s))
| step_reconnect stop_after :
    step py_repr s (snd (reconnect_phase stop_after s))
| step_run env :
    step py_repr s (state_of_run (_ws_run py_repr env s)).

Inductive reachable (py_repr : json -> string) : api -> Prop :=
| reachable_init now : reachable py_repr (init now)
| reachable_step s s' :
    reachable py_repr s -> step py_repr s s' -> reachable py_repr s'.

(** Every record of a registry has its active flag set. *)
Definition all_active (d : dict sub_info) : Prop :=
  Forall (fun item => sub_active (snd item) = true) d.

(** ** Example states

    A client that has logged in, subscribed to one market stream and
    whose supervisor thread then meets a connection that opens and is
    closed by the peer.  The close handler has run and the loop has not
    yet reached its next statement when the user's thread calls
    unsubscribe; the loop then waits, reconnects, and the connection
    stays up with an empty registry. *)
Module Scenario.

(** Stand-in for [str()] on values that are not strings; the frames
    below carry strings wherever the router formats a value. *)
Definition py_repr (v : json) : string := "".

Definition cb : callback := Callback 1 false.

Definition logged_in : api :=
  set_x_security_token (Some "XST") (set_cst (Some "CST") (init 0)).

Definition url : string := ws_url logged_in.

Definition subscribed : api :=
  snd (subscribe_to_epic_data "BTCUSD" MARKET (Some cb) None CLASSIC logged_in).

Definition opens_then_drops : attempt :=
  Attempt LoginRequestFails (Opens [] true) None.

Definition opens_and_stays : attempt :=
  Attempt LoginRequestFails (Opens [] false) None.

Definition never_opens : attempt := Attempt LoginRequestFails NeverOpens None.

(** After the first connection was closed by the peer. *)
Definition dropped : api :=
  state_of_try (connect_phase py_repr opens_then_drops subscribed).

(** The user unsubscribes the only record at that moment. *)
Definition unsubscribed : api :=
  snd (unsubscribe_from_epic_data "BTCUSD" MARKET None CLASSIC dropped).

(** The loop goes on: backoff wait, then a connection that stays up. *)
Definition waited : api := snd (reconnect_phase None unsubscribed).

Definition idle_connected : api :=
  state_of_try (connect_phase py_repr opens_and_stays waited).

(** A client with one MARKET and one OHLC subscription on a connection
    that has just opened. *)
Definition two_streams : api :=
  set_ws_connection (Some SockOpen)
    (snd (subscribe_to_epic_data "EURUSD" OHLC (Some cb) (Some MINUTE_5)
            CLASSIC subscribed)).

(** Inbound frames. *)
Definition ohlc_frame_without_type : dict json :=
  [("destination", JStr "ohlc.event");
   ("payload", JObj [("epic", JStr "EURUSD"); ("resolution", JStr "MINUTE_5")])].

Definition ohlc_frame : dict json :=
  [("destination", JStr "ohlc.event");
   ("payload", JObj [("epic", JStr "EURUSD"); ("resolution", JStr "MINUTE_5");
                     ("type", JStr "classic")])].

Definition ohlc_frame_without_resolution : dict json :=
  [("destination", JStr "ohlc.event");
   ("payload", JObj [("epic", JStr "EURUSD"); ("type", JStr "classic")])].

Definition auth_failure : dict json :=
  [("errorCode", JStr "exceptions.security.authentication-failure");
   ("errorMessage", JStr "invalid session")].

Definition rejected : attempt :=
  Attempt LoginRequestFails (Opens [Message (Some (JObj auth_failure))] false)
    None.

End Scenario.

(** * Further observations and statements *)

(** The threads started, by name, in order. *)
Definition threads_started (t : list event) : list string :=
  flat_map (fun e => match e with EvThreadStart n => [n] | _ => [] end) t.

(** The socket is there and open, and the status is [CONNECTED]. *)
Definition can_write (s : api) : bool :=
  status_eqb (ws_status s) CONNECTED
  && match ws_connection s with Some SockOpen => true | _ => false end.

(** The client is connected and can write, and its supervisor thread is
    alive. *)
Definition connected (s : api) : bool :=
  alive (ws_thread s) && can_write s.

(** The decoded frame carries the authentication-failure code. *)
Definition carries_auth_failure (d : option json) : bool :=
  match d with
  | Some (JObj m) =>
      opt_eq_str (PyDict.get "errorCode" m)
        "exceptions.security.authentication-failure"
  | _ => false
  end.

(** An inbound item other than a frame with that code. *)
Definition benign (f : inbound) : Prop :=
  match f with
  | Message d => carries_auth_failure d = false
  | TransportError => True
  end.

(** The handler [run_forever] calls for one inbound item. *)
Definition handle (py_repr : json -> string) (s : api) (f : inbound) : api :=
  match f with
  | Message d => _ws_on_message py_repr d s
  | TransportError => _ws_on_error s
  end.

(** Only the record of effects differs: [s'] is [s] with the events [t]
    appended. *)
Definition extends_trace (s : api) (t : list event) (s' : api) : Prop :=
  s' = set_trace (trace s ++ t) s.

(** Events that neither write to the socket, nor wait, nor connect, nor
    start or join a thread. *)
Definition quiet (t : list event) : Prop :=
  Forall (fun e => match e with
                   | EvLog _ _ | EvCallback _ _ => True
                   | _ => False
                   end) t.

(** The number of login requests made, [POST session] without token
    headers. *)
Definition login_posts (t : list event) : nat :=
  List.length
    (filter (fun e => match e with EvLoginPost => true | _ => false end) t).

(** * The keepalive thread and the REST side

    The remaining methods log messages and make HTTP requests that the
    record of effects of the streaming side has no constructor for.
    They run on a [client]: the object as modelled so far, and a
    journal of the further log entries and of the HTTP requests sent.
    The order between the journal and the record of effects of the
    object is not kept. *)

(** What [_request] returns: [response.text] (for [ping]), [None], or
    the decoded body. *)
Inductive result := RText (text : string) | RNone | RJson (v : json).

(** The exceptions that are raised or handled. *)
Inductive exn :=
| RequestException
| HTTPError (status_code : Z)
| CapitalComAPIError (status_code : option Z)
| ValueError
| AttributeError.

(** The further [logger] calls, with the values that matter. *)
Inductive note :=
(* _ws_application_ping_run *)
| NotePingThreadStarted (interval : Z) | NoteSendingPing
| NotePingNotSent | NotePingTokensMissing | NotePingSkipped
| NotePingThreadStopped
(* _request *)
| NoteTokensMissingRelogin (endpoint : string)
| NoteRequest (method endpoint : string)
| NoteResponse (status_code : Z)
| NoteUnauthorizedRetry (endpoint : string)
| NoteRetryRequest (endpoint : string)
| NoteRetryResponse (status_code : Z)
| NoteDecodeFailed (endpoint : string)
| NoteHttpError
| NoteRequestException
(* logout *)
| NoteNotLoggedIn | NoteStoppingLocal | NoteLoggingOut | NoteLogoutOk
| NoteLogoutFailed | NoteStoppingLogout | NoteSessionCleared
(* ping_server *)
| NotePinging | NotePong | NotePingUnexpected (response : result)
| NotePingFailed
(* switch_account *)
| NoteSwitching (account_id : string) | NoteSwitched (account_id : string)
| NoteSwitchStopsStreams | NoteSwitchNotConfirmed (account_id : string)
| NoteSwitchError (account_id : string)
(* get_transaction_history, get_closed_trades *)
| NoteFetchingHistory | NoteFetchingClosedTrades
(* get_historical_prices *)
| NoteFetchingPrices (epic resolution : string) | NoteDefaultMax
(* get_market_details *)
| NoteFetchingMarket (epic : string) | NoteEmptyEpics
| NoteFetchingMarkets (epics : string) | NoteFetchingAllMarkets
(* set_account_preferences *)
| NoteNoPreferences | NoteSettingPreferences | NotePreferencesSent
| NotePreferencesFailed
(* open_trade, close_trade *)
| NoteOpeningTrade (direction epic : string) | NoteClosingTrade (deal_id : string).

(** A journal entry: a log entry, or a request given to
    [self.session.request] with its query parameters, JSON body and,
    when they were added, the two token headers. *)
Inductive entry :=
| Logged (lvl : log_level) (n : note)
| Requested (method endpoint : string) (params data : option (dict json))
            (auth : option (option string * option string)).

Record client := Client { core : api; journal : list entry }.

Definition set_core (s : api) (c : client) : client :=
  match c with Client _ j => Client s j end.

Definition record (e : entry) (c : client) : client :=
  match c with Client s j => Client s (j ++ [e])%list end.

(** The requests sent, in order. *)
Definition requests (j : list entry) : list entry :=
  filter (fun e => match e with Requested _ _ _ _ _ => true | _ => false end) j.

(** The notes logged, in order. *)
Definition notes (j : list entry) : list note :=
  flat_map (fun e => match e with Logged _ n => [n] | _ => [] end) j.

(** ** The keepalive thread *)

Definition APP_PING_INTERVAL_SECONDS : Z := 9 * 60.

Definition ping_msg (s : api) : json :=
  JObj [("destination", JStr "ping");
        ("correlationId", JStr ("app-ping-" ++ now_str s));
        ("cst", json_of_opt_str (cst s));
        ("securityToken", json_of_opt_str (x_security_token s))].

(** The body of the loop of [_ws_application_ping_run], after the wait
    has timed out. *)
Definition ping_tick (c : client) : client :=
  let s := core c in
  if status_eqb (ws_status s) CONNECTED && has_connection s then
    if str_truthy (cst s) && str_truthy (x_security_token s) then
      let c := record (Logged INFO NoteSendingPing) c in
      let (sent, s) := send (ping_msg s) s in
      let c := set_core s c in
      if sent then c else record (Logged WARNING NotePingNotSent) c
    else record (Logged WARNING NotePingTokensMissing) c
  else record (Logged DEBUG NotePingSkipped) c.

(** The thread is left ([Stopped]) or still in its loop when the
    described waits are used up ([Ticking]). *)
Inductive ping_result := Stopped (c : client) | Ticking (c : client).

(** The loop.  Each element of [races] is one wait that times out; it
    tells whether another thread sets the stop event between the end of
    the wait and the test that follows it.  A wait that finds the event
    set ends the loop at once. *)
Fixpoint ping_loop (races : list bool) (c : client) : ping_result :=
  if _ws_ping_stop_event (core c) then Stopped c
  else
    match races with
    | [] => Ticking c
    | race :: races =>
        let s := core c in
        let c := set_core (set_clock (clock s + APP_PING_INTERVAL_SECONDS) s) c in
        if race then
          Stopped (set_core (set_ping_stop_event true (core c)) c)
        else ping_loop races (ping_tick c)
    end.

Definition _ws_application_ping_run (races : list bool) (c : client)
  : ping_result :=
  let c :=
    record (Logged INFO (NotePingThreadStarted APP_PING_INTERVAL_SECONDS)) c in
  match ping_loop races c with
  | Stopped c => Stopped (record (Logged INFO NotePingThreadStopped) c)
  | Ticking c => Ticking c
  end.

Definition client_of_ping (r : ping_result) : client :=
  match r with Stopped c | Ticking c => c end.

(** ** Methods that can raise

    A method takes the client and gives back the client with either the
    value returned or the exception raised. *)
Definition M (A : Type) : Type := client -> (exn + A) * client.

Definition ret {A} (a : A) : M A := fun c => (inr a, c).

Definition raise {A} (e : exn) : M A := fun c => (inl e, c).

Definition bind {A B} (m : M A) (f : A -> M B) : M B :=
  fun c =>
    match m c with
    | (inl e, c) => (inl e, c)
    | (inr a, c) => f a c
    end.

(** [try: m except ...: h] *)
Definition catch {A} (m : M A) (h : exn -> M A) : M A :=
  fun c =>
    match m c with
    | (inl e, c) => h e c
    | (inr a, c) => (inr a, c)
    end.

(** [try: m finally: f] *)
Definition finally {A} (m : M A) (f : client -> client) : M A :=
  fun c => let (r, c) := m c in (r, f c).

Declare Scope method_scope.
Delimit Scope method_scope with method.
Notation "x <- m ;; k" := (bind m (fun x => k))
  (at level 61, m at next level, right associativity) : method_scope.
Notation "m ;; k" := (bind m (fun _ => k))
  (at level 61, right associativity) : method_scope.

Definition logs (lvl : log_level) (n : note) : M unit :=
  fun c => (inr tt, record (Logged lvl n) c).

(** Reading and running on the object itself. *)
Definition reads {A} (f : api -> A) : M A := fun c => (inr (f (core c)), c).

Definition on_object (f : api -> api) : M unit :=
  fun c => (inr tt, set_core (f (core c)) c).

Definition calls {A} (f : api -> A * api) : M A :=
  fun c => let (a, s) := f (core c) in (inr a, set_core s c).

(** [self.login()] inside a method: what it returns, or its
    [AttributeError]. *)
Definition calls_login (r : login_response) : M bool :=
  fun c =>
    let (res, s) := login r (core c) in
    match res with
    | Returns ok => (inr ok, set_core s c)
    | RaisesAttributeError => (inl AttributeError, set_core s c)
    end.

(** ** [_request] *)

(** What the server does with one request: the request fails below
    HTTP, or a response arrives with its status, token headers, text
    and the value [response.json()] gives ([None] when the body does
    not decode).  [response.content] is empty exactly when the text
    is. *)
Inductive http_reply :=
| RequestFails
| Response (status_code : Z) (hdr_cst hdr_xst : option string)
           (text : string) (body : option json).

(** What the server does during one call of [_request]: its replies to
    the login made when a token is missing, to the request, to the
    login made after a 401, and to the request sent again. *)
Record exchange := Exchange {
  x_relogin : login_response;
  x_reply : http_reply;
  x_retry_login : login_response;
  x_retry_reply : http_reply
}.

(** [response.raise_for_status()] raises for statuses 400 to 599. *)
Definition is_error_status (status_code : Z) : bool :=
  (400 <=? status_code) && (status_code <? 600).

(** The response as the rest of [_request] reads it. *)
Record response := Resp {
  status_code : Z;
  headers : option string * option string;
  text : string;
  json_body : option json
}.

(** [self.session.request(...)] *)
Definition session_request (reply : http_reply) (method endpoint : string)
    (params data : option (dict json))
    (auth : option (option string * option string)) : M response :=
  fun c =>
    let c := record (Requested method endpoint params data auth) c in
    match reply with
    | RequestFails => (inl RequestException, c)
    | Response status hc hx text body =>
        (inr (Resp status (hc, hx) text body), c)
    end.

Definition auth_headers (add_auth_headers : bool) (s : api)
  : option (option string * option string) :=
  if add_auth_headers then Some (cst s, x_security_token s) else None.

Definition update_tokens_from (r : response) : M unit :=
  on_object (_update_auth_tokens (fst (headers r)) (snd (headers r))).

Open Scope method_scope.

(** The check before the request, when the token headers are to be
    added. *)
Definition ensure_tokens (x : exchange) (endpoint : string)
    (is_login_retry : bool) : M unit :=
  missing <- reads tokens_missing ;;
  if missing then
    if is_login_retry then raise (CapitalComAPIError None)
    else
      logs WARNING (NoteTokensMissingRelogin endpoint) ;;
      ok <- calls_login (x_relogin x) ;;
      if negb ok then raise (CapitalComAPIError None) else ret tt
  else ret tt.

(** The branch taken on a 401: log in again and repeat the request. *)
Definition retry_after_login (x : exchange) (method endpoint : string)
    (params data : option (dict json)) (first : response) : M response :=
  logs WARNING (NoteUnauthorizedRetry endpoint) ;;
  ok <- calls_login (x_retry_login x) ;;
  if ok then
    auth <- reads (auth_headers true) ;;
    response <- session_request (x_retry_reply x) method endpoint params data
                  auth ;;
    logs DEBUG (NoteRetryRequest endpoint) ;;
    logs DEBUG (NoteRetryResponse (status_code response)) ;;
    update_tokens_from response ;;
    ret response
  else raise (CapitalComAPIError (Some (status_code first))).

(** From [response.raise_for_status()] to the end of the [try] block. *)
Definition response_value (endpoint : string) (r : response) : M result :=
  (if is_error_status (status_code r) then raise (HTTPError (status_code r))
   else ret tt) ;;
  if String.eqb endpoint "ping" && (status_code r =? 200) then
    ret (RText (text r))
  else if status_code r =? 204 then ret RNone
  else if negb (String.eqb (text r) "") then
    match json_body r with
    | Some v => ret (RJson v)
    | None =>
        logs ERROR (NoteDecodeFailed endpoint) ;;
        raise (CapitalComAPIError (Some (status_code r)))
    end
  else ret RNone.

(** The two [except] clauses.  The response of an [HTTPError] has a
    status from 400 to 599 and is therefore falsy, so that
    [e.response.status_code if e.response else None] is [None] (and
    ['N/A'] in the message logged). *)
Definition request_failed (e : exn) : M result :=
  match e with
  | HTTPError _ =>
      logs ERROR NoteHttpError ;;
      raise (CapitalComAPIError None)
  | RequestException =>
      logs ERROR NoteRequestException ;;
      raise (CapitalComAPIError None)
  | e => raise e
  end.

(** The [try] block. *)
Definition attempt_request (x : exchange) (method endpoint : string)
    (params data : option (dict json))
    (add_auth_headers is_login_retry : bool) : M result :=
  auth <- reads (auth_headers add_auth_headers) ;;
  response <- session_request (x_reply x) method endpoint params data auth ;;
  logs DEBUG (NoteRequest method endpoint) ;;
  logs DEBUG (NoteResponse (status_code response)) ;;
  (if add_auth_headers || String.eqb endpoint "session"
   then update_tokens_from response else ret tt) ;;
  response <-
    (if (status_code response =? 401) && add_auth_headers
        && negb is_login_retry
     then retry_after_login x method endpoint params data response
     else ret response) ;;
  response_value endpoint response.

Definition _request (x : exchange) (method endpoint : string)
    (params data : option (dict json))
    (add_auth_headers is_login_retry : bool) : M result :=
  (if add_auth_headers then ensure_tokens x endpoint is_login_retry
   else ret tt) ;;
  catch
    (attempt_request x method endpoint params data add_auth_headers
       is_login_retry)
    request_failed.

Close Scope method_scope.

(** ** Session methods *)

Open Scope method_scope.

(** [x == "..."] for what [_request] returned. *)
Definition result_eq_str (r : result) (s : string) : bool :=
  match r with
  | RText t => String.eqb t s
  | RJson v => eq_str v s
  | RNone => false
  end.

(** Truth value of what [_request] returned. *)
Definition result_truthy (r : result) : bool :=
  match r with
  | RText t => negb (String.eqb t "")
  | RJson v => truthy v
  | RNone => false
  end.

(** [r.get(k)] on what [_request] returned; only a dict has [get]. *)
Definition result_get (k : string) (r : result) : M (option json) :=
  match r with
  | RJson (JObj o) => ret (PyDict.get k o)
  | _ => raise AttributeError
  end.

(** The two lines [if self.ws_thread and self.ws_thread.is_alive(): ...
    self.stop_all_websocket_subscriptions()] of [logout]. *)
Definition stop_streams_if_alive (n : note) : M unit :=
  running <- reads (fun s => alive (ws_thread s)) ;;
  if running then
    logs INFO n ;; on_object stop_all_websocket_subscriptions
  else ret tt.

Definition clear_session (s : api) : api :=
  set_active_account_id None (set_x_security_token None (set_cst None s)).

Definition run_unit (m : M unit) (c : client) : client := snd (m c).

Definition logout (x : exchange) : M bool :=
  missing <- reads tokens_missing ;;
  if missing then
    logs INFO NoteNotLoggedIn ;;
    stop_streams_if_alive NoteStoppingLocal ;;
    on_object clear_session ;;
    ret true
  else
    logs INFO NoteLoggingOut ;;
    finally
      (catch
         (_request x "DELETE" "session" None None true false ;;
          logs INFO NoteLogoutOk)
         (fun e =>
            match e with
            | CapitalComAPIError _ => logs ERROR NoteLogoutFailed
            | e => raise e
            end))
      (run_unit (stop_streams_if_alive NoteStoppingLogout ;;
                 on_object clear_session ;;
                 logs INFO NoteSessionCleared)) ;;
    ret true.

Definition ping_server (x : exchange) : M bool :=
  logs INFO NotePinging ;;
  catch
    (response_text <- _request x "GET" "ping" None None false false ;;
     if result_eq_str response_text "pong" then
       logs INFO NotePong ;; ret true
     else
       logs WARNING (NotePingUnexpected response_text) ;; ret false)
    (fun e =>
       match e with
       | CapitalComAPIError _ => logs ERROR NotePingFailed ;; ret false
       | e => raise e
       end).

Definition switch_account (x_put x_get : exchange) (account_id : string)
  : M bool :=
  logs INFO (NoteSwitching account_id) ;;
  catch
    (_request x_put "PUT" "session" None
       (Some [("accountId", JStr account_id)]) true false ;;
     session_details <- _request x_get "GET" "session" None None true false ;;
     confirmed <-
       (if result_truthy session_details then
          a <- result_get "accountId" session_details ;;
          ret (opt_eq_str a account_id)
        else ret false) ;;
     if confirmed then
       on_object (set_active_account_id (Some account_id)) ;;
       logs INFO (NoteSwitched account_id) ;;
       subscribed <- reads (fun s => PyDict.nonempty (_ws_subscriptions s)) ;;
       (if subscribed then
          logs WARNING NoteSwitchStopsStreams ;;
          on_object stop_all_websocket_subscriptions
        else ret tt) ;;
       ret true
     else
       logs ERROR (NoteSwitchNotConfirmed account_id) ;; ret false)
    (fun e =>
       match e with
       | CapitalComAPIError _ =>
           logs ERROR (NoteSwitchError account_id) ;; ret false
       | e => raise e
       end).

(** ** Queries *)

(** [if v: params[k] = v] for an optional string. *)
Definition set_if_truthy (k : string) (v : option string) (d : dict json)
  : dict json :=
  match v with
  | Some s => if negb (String.eqb s "") then PyDict.set k (JStr s) d else d
  | None => d
  end.

(** [data.get(k, []) if data else []] *)
Definition list_under (k : string) (data : result) : M json :=
  if result_truthy data then
    v <- result_get k data ;;
    ret (match v with Some v => v | None => JArr [] end)
  else ret (JArr []).

Definition transaction_params (transaction_type from_date to_date : option string)
    (detailed : bool) (last_period_seconds : option Z) : dict json :=
  let params := [] in
  let params := set_if_truthy "type" transaction_type params in
  let params := set_if_truthy "from" from_date params in
  let params := set_if_truthy "to" to_date params in
  let params :=
    match last_period_seconds with
    | Some n => PyDict.set "lastPeriod" (JNum n) params
    | None => params
    end in
  if detailed then PyDict.set "detailed" (JBool detailed) params else params.

Definition get_transaction_history (x : exchange)
    (transaction_type from_date to_date : option string) (detailed : bool)
    (last_period_seconds : option Z) : M json :=
  logs INFO NoteFetchingHistory ;;
  data <- _request x "GET" "history/transactions"
            (Some (transaction_params transaction_type from_date to_date
                     detailed last_period_seconds))
            None true false ;;
  list_under "transactions" data.

Definition get_closed_trades (x : exchange) (from_date to_date : option string)
    (last_period_seconds : option Z) : M json :=
  logs INFO NoteFetchingClosedTrades ;;
  get_transaction_history x (Some "TRADE") from_date to_date true
    last_period_seconds.

(** The query parameters of [get_historical_prices], with the debug
    entry its last branch logs. *)
Definition price_params (resolution : HistoricalPriceResolution)
    (num_points : option Z) (start_date end_date : option string)
  : dict json * bool :=
  let params := [("resolution", JStr (resolution_value resolution))] in
  let params :=
    match num_points with
    | Some n => PyDict.set "max" (JNum n) params
    | None => params
    end in
  let params := set_if_truthy "from" start_date params in
  let params := set_if_truthy "to" end_date params in
  let s := str_truthy start_date in
  let e := str_truthy end_date in
  match num_points with
  | None =>
      if negb (s && e) then
        if s && negb e then (PyDict.set "max" (JNum 100) params, false)
        else if e && negb s then (PyDict.set "max" (JNum 100) params, false)
        else if negb s && negb e then
          (PyDict.set "max" (JNum 100) params, true)
        else (params, false)
      else (params, false)
  | Some _ => (params, false)
  end.

Definition get_historical_prices (x : exchange) (epic : string)
    (resolution : HistoricalPriceResolution) (num_points : option Z)
    (start_date end_date : option string) : M result :=
  logs INFO (NoteFetchingPrices epic (resolution_value resolution)) ;;
  let (params, defaulted) :=
    price_params resolution num_points start_date end_date in
  (if defaulted then logs DEBUG NoteDefaultMax else ret tt) ;;
  _request x "GET" ("prices/" ++ epic) (Some params) None true false.

(** Truth value of an optional list. *)
Definition list_truthy {A} (l : option (list A)) : bool :=
  match l with Some (_ :: _) => true | _ => false end.

Definition get_market_details (x : exchange) (epic : option string)
    (epics : option (list string)) : M result :=
  if str_truthy epic && list_truthy epics then raise ValueError
  else
    match epic, epics with
    | Some e, _ =>
        if negb (String.eqb e "") then
          logs INFO (NoteFetchingMarket e) ;;
          _request x "GET" ("markets/" ++ e) None None true false
        else if list_truthy epics then
          if negb (list_truthy epics) then
            logs WARNING NoteEmptyEpics ;;
            _request x "GET" "markets" None None true false
          else
            let joined :=
              String.concat "," (match epics with Some l => l | None => [] end) in
            logs INFO (NoteFetchingMarkets joined) ;;
            _request x "GET" "markets" (Some [("epics", JStr joined)]) None
              true false
        else
          logs INFO NoteFetchingAllMarkets ;;
          _request x "GET" "markets" None None true false
    | None, _ =>
        if list_truthy epics then
          if negb (list_truthy epics) then
            logs WARNING NoteEmptyEpics ;;
            _request x "GET" "markets" None None true false
          else
            let joined :=
              String.concat "," (match epics with Some l => l | None => [] end) in
            logs INFO (NoteFetchingMarkets joined) ;;
            _request x "GET" "markets" (Some [("epics", JStr joined)]) None
              true false
        else
          logs INFO NoteFetchingAllMarkets ;;
          _request x "GET" "markets" None None true false
    end.

(** ** Preferences *)

Definition preferences_payload (hedging_enabled : option bool)
    (leverages : option (dict Z)) : dict json :=
  let payload := [] in
  let payload :=
    match hedging_enabled with
    | Some b => PyDict.set "hedgingMode" (JBool b) payload
    | None => payload
    end in
  match leverages with
  | Some l =>
      PyDict.set "leverages" (JObj (map (fun kv => (fst kv, JNum (snd kv))) l))
        payload
  | None => payload
  end.

Definition set_account_preferences (x : exchange)
    (hedging_enabled : option bool) (leverages : option (dict Z)) : M bool :=
  let payload := preferences_payload hedging_enabled leverages in
  if negb (PyDict.nonempty payload) then
    logs WARNING NoteNoPreferences ;; ret false
  else
    logs INFO NoteSettingPreferences ;;
    catch
      (_request x "PUT" "account/preferences" None (Some payload) true false ;;
       logs INFO NotePreferencesSent ;;
       ret true)
      (fun e =>
         match e with
         | CapitalComAPIError _ => logs ERROR NotePreferencesFailed ;; ret false
         | e => raise e
         end).

Close Scope method_scope.

(** ** Statements about the keepalive thread and the REST side *)

(** The ping frame written at time [t]. *)
Definition ping_at (s : api) (t : Z) : json := ping_msg (set_clock t s).

(** The object apart from its clock and its record of effects. *)
Definition timeless (s : api) : api := set_trace [] (set_clock 0 s).

(** The streaming side of the object: everything but the session
    tokens, the account and the record of effects. *)
Definition streaming_side (s : api) : api := set_trace [] (clear_session s).

(** A request that carried both tokens, non-empty. *)
Definition authenticated (method endpoint : string)
    (params data : option (dict json)) (e : entry) : Prop :=
  exists c x,
    e = Requested method endpoint params data (Some (c, x)) /\
    str_truthy c = true /\ str_truthy x = true.

(** The reply whose status and body decide what [_request] returns:
    the reply to the repeated request when the first status is 401 and
    the call adds the token headers, the first reply otherwise. *)
Definition deciding_reply (x : exchange) (add_auth_headers : bool)
  : http_reply :=
  match x_reply x with
  | Response status_code _ _ _ _ =>
      if (status_code =? 401) && add_auth_headers then x_retry_reply x
      else x_reply x
  | RequestFails => RequestFails
  end.

(** What [_request] returns for a response that is not an error. *)
Definition value_of (endpoint : string) (status_code : Z) (text : string)
    (body : option json) : option result :=
  if String.eqb endpoint "ping" && (status_code =? 200) then Some (RText text)
  else if status_code =? 204 then Some RNone
  else if negb (String.eqb text "") then option_map RJson body
  else Some RNone.

(** Whether the reply to [GET ping] counts as a pong. *)
Definition pong (reply : http_reply) : bool :=
  match reply with
  | Response status_code _ _ text body =>
      negb (is_error_status status_code)
      && match value_of "ping" status_code text body with
         | Some v => result_eq_str v "pong"
         | None => false
         end
  | RequestFails => false
  end.

(** Endpoint and query parameters [get_market_details] asks for. *)
Definition market_query (epic : option string) (epics : option (list string))
  : string * option (dict json) :=
  if str_truthy epic then
    (("markets/" ++ match epic with Some e => e | None => "" end)%string, None)
  else
    match epics with
    | Some (e :: l) =>
        ("markets"%string,
         Some [("epics"%string, JStr (String.concat "," (e :: l)))])
    | _ => ("markets"%string, None)
    end.

(** A reply to the login request on which [login] raises
    [AttributeError] once both tokens are there: an accepted status and
    a body that decodes to a truthy value that is not an object. *)
Definition body_not_object (r : login_response) : bool :=
  match r with
  | LoginResponse _ _ true BodyNotObject => true
  | _ => false
  end.

(** The reply has status 401. *)
Definition unauthorized (reply : http_reply) : bool :=
  match reply with
  | Response status_code _ _ _ _ => status_code =? 401
  | RequestFails => false
  end.

(** The exceptions a call of [_request] that adds the token headers
    lets out: [CapitalComAPIError], or the [AttributeError] of a login
    made inside the call, before the request when a token is missing
    or after a reply with status 401. *)
Definition request_raises (x : exchange) (missing : bool) (e : exn) : Prop :=
  (exists status_code, e = CapitalComAPIError status_code) \/
  (e = AttributeError /\
   (missing = true /\ body_not_object (x_relogin x) = true \/
    unauthorized (x_reply x) = true /\
    body_not_object (x_retry_login x) = true)).

(** The most logins such a call makes. *)
Definition logins_bound (x : exchange) (missing : bool) : nat :=
  ((if missing then 1 else 0) + (if unauthorized (x_reply x) then 1 else 0))%nat.

(** ** Orders

    Prices and sizes are floats, of which the methods only take [str()]
    and test against [None]; the float type and its [str()] are
    parameters here, and so is [str.upper]. *)

Inductive TradeDirection := BUY | SELL.

Definition direction_value (d : TradeDirection) : string :=
  match d with BUY => "BUY" | SELL => "SELL" end.

Section Orders.

Variable float : Type.
Variable str_of_float : float -> string.
Variable upper : string -> string.

(** [if v is not None: payload[k] = str(v)] *)
Definition set_if_given (k : string) (v : option float) (d : dict json)
  : dict json :=
  match v with
  | Some f => PyDict.set k (JStr (str_of_float f)) d
  | None => d
  end.

Definition open_payload (epic : string) (direction : TradeDirection)
    (size : float) (guaranteed_stop : bool)
    (stop_level stop_distance profit_level profit_distance : option float)
    (trailing_stop : bool) (trailing_stop_distance : option float)
    (force_open : bool) : dict json :=
  let payload :=
    [("epic", JStr epic);
     ("direction", JStr (direction_value direction));
     ("size", JStr (str_of_float size));
     ("guaranteedStop", JBool guaranteed_stop);
     ("trailingStop", JBool trailing_stop);
     ("forceOpen", JBool force_open)] in
  let payload := set_if_given "stopLevel" stop_level payload in
  let payload := set_if_given "stopDistance" stop_distance payload in
  let payload := set_if_given "profitLevel" profit_level payload in
  let payload := set_if_given "profitDistance" profit_distance payload in
  if trailing_stop then
    set_if_given "trailingStopDistance" trailing_stop_distance payload
  else payload.

Definition open_trade (x : exchange) (epic : string)
    (direction : TradeDirection) (size : float) (guaranteed_stop : bool)
    (stop_level stop_distance profit_level profit_distance : option float)
    (trailing_stop : bool) (trailing_stop_distance : option float)
    (force_open : bool) : M result :=
  bind (logs INFO (NoteOpeningTrade (direction_value direction) epic))
    (fun _ =>
       _request x "POST" "positions" None
         (Some (open_payload epic direction size guaranteed_stop stop_level
                  stop_distance profit_level profit_distance trailing_stop
                  trailing_stop_distance force_open))
         true false).

(** The payload of [close_trade]; [None] stands for the [ValueError] of
    an order type other than [MARKET] without a level. *)
Definition close_payload (deal_id : string)
    (direction : option TradeDirection) (size : option float)
    (order_type : string) (level : option float) (time_in_force : string)
  : option (dict json) :=
  let payload := [("dealId", JStr deal_id)] in
  let payload :=
    match direction with
    | Some d => PyDict.set "direction" (JStr (direction_value d)) payload
    | None => payload
    end in
  let payload := set_if_given "size" size payload in
  if negb (String.eqb (upper order_type) "MARKET") then
    let payload := PyDict.set "orderType" (JStr (upper order_type)) payload in
    match level with
    | None => None
    | Some l =>
        let payload := PyDict.set "level" (JStr (str_of_float l)) payload in
        Some (PyDict.set "timeInForce" (JStr time_in_force) payload)
    end
  else Some payload.

Definition close_trade (x : exchange) (deal_id : string)
    (direction : option TradeDirection) (size : option float)
    (order_type : string) (level : option float) (time_in_force : string)
  : M result :=
  bind (logs INFO (NoteClosingTrade deal_id))
    (fun _ =>
       match close_payload deal_id direction size order_type level
               time_in_force with
       | None => raise ValueError
       | Some payload =>
           _request x "DELETE" "positions" None (Some payload) true false
       end).

End Orders.
(** * Properties *)

(** ** Dictionaries *)
Module PyDictFacts.
Section Facts.
Context {V : Type}.
Implicit Types (d : dict V) (k : string) (v : V).

Lemma get_set_eq k v d : PyDict.get k (PyDict.set k v d) = Some v.
Proof.
  induction d as [|[k' v'] r IH]; simpl.
  - now rewrite String.eqb_refl.
  - destruct (String.eqb k k') eqn:E; simpl; rewrite ?String.eqb_refl, ?E; auto.
Qed.

Lemma get_set_ne k k' v d :
  k' <> k -> PyDict.get k' (PyDict.set k v d) = PyDict.get k' d.
Proof.
  intros Hne. induction d as [|[k0 v0] r IH]; simpl.
  - destruct (String.eqb_spec k' k); congruence.
  - destruct (String.eqb_spec k k0); simpl.
    + subst k0. destruct (String.eqb_spec k' k); congruence.
    + destruct (String.eqb_spec k' k0); auto.
Qed.

Lemma pop_absent k d :
  PyDict.get k d = None -> PyDict.pop k d = (None, d).
Proof.
  induction d as [|[k' v'] r IH]; simpl; auto.
  destruct (String.eqb k k'); [discriminate|].
  intros H. now rewrite (IH H).
Qed.

(** Every value of [set] is the new one or an old one; every value
    left by [pop] is an old one. *)
Lemma Forall_set (P : V -> Prop) k v d :
  P v -> Forall (fun kv => P (snd kv)) d ->
  Forall (fun kv => P (snd kv)) (PyDict.set k v d).
Proof.
  intros Hv. induction 1 as [|[k' v'] r Hh Ht IH]; simpl.
  - constructor; auto.
  - destruct (String.eqb k k'); constructor; auto.
Qed.

Lemma Forall_pop (P : V -> Prop) k d :
  Forall (fun kv => P (snd kv)) d ->
  Forall (fun kv => P (snd kv)) (snd (PyDict.pop k d)).
Proof.
  induction 1 as [|[k' v'] r Hh Ht IH]; simpl; auto.
  destruct (String.eqb k k'); simpl; auto.
  destruct (PyDict.pop k r); simpl in *; constructor; auto.
Qed.

Lemma get_Forall (P : V -> Prop) k d v :
  Forall (fun kv => P (snd kv)) d -> PyDict.get k d = Some v -> P v.
Proof.
  induction 1 as [|[k' v'] r Hh Ht IH]; simpl; [discriminate|].
  destruct (String.eqb k k'); auto. intros [= <-]. exact Hh.
Qed.
End Facts.
End PyDictFacts.

Lemma sent_frames_app a b : sent_frames (a ++ b) = sent_frames a ++ sent_frames b.
Proof. apply flat_map_app. Qed.

Lemma callbacks_app a b : callbacks (a ++ b) = callbacks a ++ callbacks b.
Proof. apply flat_map_app. Qed.

Lemma logged_app a b : logged (a ++ b) = logged a ++ logged b.
Proof. apply flat_map_app. Qed.

Lemma schedule_app a b : schedule (a ++ b) = schedule a ++ schedule b.
Proof. apply filter_app. Qed.

(** ** Proof automation *)

#[local] Arguments String.append : simpl never.
#[local] Arguments str_of_Z : simpl never.
#[local] Arguments reconnect_delay : simpl never.

(** Case analysis on the innermost scrutinee of the goal. *)
Ltac break_match :=
  match goal with
  | |- context [match ?x with _ => _ end] =>
      lazymatch x with
      | context [match _ with _ => _ end] => fail
      | _ => destruct x eqn:?
      end
  end.

Ltac break_all := repeat (break_match; cbn).

(** Unfolding attribute assignments and effects down to the record. *)
Ltac unfold_api :=
  unfold log, emit, close, sleep, set_cst, set_x_security_token,
    set_active_account_id, set_ws_thread, set_ws_connection,
    set_subscriptions, set_stop_event, set_reconnect_attempts, set_status,
    set_ping_thread, set_ping_stop_event, set_clock, set_trace;
  cbn.

(** Reading a trace that has grown by a few explicit events. *)
Ltac read_trace :=
  cbn;
  repeat rewrite ?callbacks_app, ?sent_frames_app, ?schedule_app, ?logged_app;
  cbn; rewrite ?app_nil_r.

(** ** Subscribe *)

Lemma subscribe_registry epic data_type cb resolution bar_type s key :
  tokens_missing s = false ->
  canonical_key epic data_type resolution bar_type = Some key ->
  fst (subscribe_to_epic_data epic data_type cb resolution bar_type s) = Return /\
  _ws_subscriptions
    (snd (subscribe_to_epic_data epic data_type cb resolution bar_type s)) =
  PyDict.set key (SubInfo cb epic data_type resolution (Some bar_type) true)
    (_ws_subscriptions s).
Proof.
  intros Ht Hk. unfold subscribe_to_epic_data. rewrite Ht.
  destruct s as [c x acc th conn subs stop att st pth pstop clk tr].
  destruct data_type, resolution; simpl in Hk; try discriminate;
    injection Hk as <-.
  all: unfold subscribe_target, _start_websocket_thread, send, ws_status,
         has_connection; cbn; break_all; auto.
Qed.

(** C5 (as amended): when both session tokens are present, a call to
    subscribe raises [ValueError] for an OHLC request without
    resolution (leaving the object untouched) and otherwise returns
    after storing, under the canonical key, a record made of its
    arguments with the active flag set, every other key keeping its
    record; when a token is missing the call only logs an error: it
    neither validates nor touches the registry. *)
Theorem subscribe_validates_and_upserts_when_logged_in :
  forall epic data_type cb resolution bar_type s,
    let r := subscribe_to_epic_data epic data_type cb resolution bar_type s in
    if tokens_missing s then
      r = (Return, log ERROR (LogCannotSubscribeNoLogin epic) s)
    else
      match canonical_key epic data_type resolution bar_type with
      | None =>
          data_type = OHLC /\ resolution = None /\ r = (RaiseValueError, s)
      | Some key =>
          fst r = Return /\
          PyDict.get key (_ws_subscriptions (snd r)) =
            Some (SubInfo cb epic data_type resolution (Some bar_type) true) /\
          forall k, k <> key ->
            PyDict.get k (_ws_subscriptions (snd r)) =
            PyDict.get k (_ws_subscriptions s)
      end.
Proof.
  intros epic data_type cb resolution bar_type s r.
  destruct (tokens_missing s) eqn:Ht.
  - subst r. unfold subscribe_to_epic_data. now rewrite Ht.
  - destruct (canonical_key epic data_type resolution bar_type) as [key|] eqn:Hk.
    + destruct (subscribe_registry epic data_type cb resolution bar_type s key Ht Hk)
        as [Hr Hreg].
      subst r. rewrite Hreg. split; [exact Hr|]. split.
      * apply PyDictFacts.get_set_eq.
      * intros k Hne. now apply PyDictFacts.get_set_ne.
    + destruct data_type, resolution; simpl in Hk; try discriminate.
      subst r. unfold subscribe_to_epic_data. rewrite Ht. auto.
Qed.

(** C5 (counterexample): on a freshly constructed client, which holds no
    session tokens, an OHLC subscribe without resolution returns
    normally instead of raising, and a MARKET subscribe leaves the
    registry empty. *)
Lemma subscribe_without_tokens_neither_validates_nor_upserts :
  fst (subscribe_to_epic_data "EURUSD" OHLC (Some (Callback 1 false)) None
         CLASSIC (init 0)) = Return /\
  PyDict.get "/market/BTCUSD"
    (_ws_subscriptions
       (snd (subscribe_to_epic_data "BTCUSD" MARKET (Some (Callback 1 false))
               None CLASSIC (init 0)))) = None.
Proof. split; reflexivity. Qed.

(** ** Unsubscribe *)

(** C9: an OHLC unsubscribe without resolution raises [ValueError]
    before the registry is read, and hands the object back exactly as it
    was: registry, status, stop event, thread, connection and recorded
    effects (no log entry, no frame) are unchanged. *)
Theorem unsubscribe_ohlc_without_resolution_raises :
  forall epic bar_type s,
    let r := unsubscribe_from_epic_data epic OHLC None bar_type s in
    r = (RaiseValueError, s) /\
    _ws_subscriptions (snd r) = _ws_subscriptions s /\
    ws_status (snd r) = ws_status s /\
    _ws_stop_event (snd r) = _ws_stop_event s /\
    ws_thread (snd r) = ws_thread s /\
    ws_connection (snd r) = ws_connection s /\
    trace (snd r) = trace s.
Proof.
  intros epic bar_type s r.
  assert (Hr : r = (RaiseValueError, s)).
  { subst r. unfold unsubscribe_from_epic_data, unsubscribe_target.
    reflexivity. }
  rewrite Hr. cbn [snd]. repeat split.
Qed.



(** ** The router *)

Section RouterFacts.
Variable py_repr : json -> string.

Lemma resolution_value_truthy r : truthy (JStr (resolution_value r)) = true.
Proof. now destruct r. Qed.

Lemma get_some_nonempty {V} k (d : dict V) v :
  PyDict.get k d = Some v -> PyDict.nonempty d = true.
Proof. destruct d; [discriminate | reflexivity]. Qed.

(** A frame whose payload is an object with an [epic] entry reaches the
    key derivation. *)
Lemma on_data_frame_with_epic m fields epic s :
  PyDict.get "payload" m = Some (JObj fields) ->
  PyDict.get "epic" fields = Some epic ->
  on_data_frame py_repr m s =
  let dest := PyDict.get "destination" m in
  let (key, s1) := router_key py_repr dest epic fields s in
  match key with
  | Some k =>
      if key_truthy key then Returned (dispatch k (JObj fields) s1)
      else Returned (on_other_destination m dest s1)
  | None => Returned (on_other_destination m dest s1)
  end.
Proof.
  intros Hp He. unfold on_data_frame. rewrite Hp.
  cbn [truthy py_in py_getitem]. rewrite (get_some_nonempty _ _ _ He).
  unfold PyDict.contains. rewrite He. reflexivity.
Qed.

End RouterFacts.

(** C4: the stream key under which subscribe stores a record is the key
    the router derives from the corresponding inbound frame, and it has
    the canonical form: the router looks that very key up. *)
Theorem subscribe_key_is_router_key :
  forall py_repr symbol kind resolution barShape key dest payload_data
         m fields s,
    subscribe_target symbol kind resolution barShape =
      Some (key, dest, payload_data) ->
    corresponding_frame kind symbol resolution barShape m fields ->
    router_key py_repr (PyDict.get "destination" m) (JStr symbol) fields s =
      (Some key, s) /\
    on_data_frame py_repr m s = Returned (dispatch key (JObj fields) s) /\
    canonical_key symbol kind resolution barShape = Some key.
Proof.
  intros py_repr symbol kind resolution barShape key dest payload_data
         m fields s Ht (Hp & He & Hd).
  assert (Hkey :
    router_key py_repr (PyDict.get "destination" m) (JStr symbol) fields s =
      (Some key, s)).
  { destruct kind.
    - injection Ht as <- _ _. rewrite Hd. reflexivity.
    - destruct resolution as [r|]; [|discriminate].
      injection Ht as <- _ _. destruct Hd as (Hd & Hr & Hb).
      unfold router_key. rewrite Hd, Hr, Hb. cbn [opt_eq_str eq_str option_map].
      cbn [String.eqb Ascii.eqb Bool.eqb].
      rewrite resolution_value_truthy. reflexivity. }
  split; [exact Hkey|]. split.
  - rewrite (on_data_frame_with_epic py_repr m fields (JStr symbol) s Hp He).
    cbn zeta. rewrite Hkey.
    destruct kind; [|destruct resolution; [|discriminate]];
      injection Ht as <- _ _; reflexivity.
  - destruct kind; [|destruct resolution; [|discriminate]];
      injection Ht as <- _ _; reflexivity.
Qed.

(** No block of the router but [dispatch] invokes a callback. *)
Lemma on_error_frame_callbacks m s s' :
  on_error_frame m s = Returned s' -> callbacks (trace s') = callbacks (trace s).
Proof.
  unfold on_error_frame, has_connection. destruct s; cbn.
  break_all; intros [= <-]; now read_trace.
Qed.

Lemma on_control_ack_callbacks m s s' :
  on_control_ack m s = Returned s' -> callbacks (trace s') = callbacks (trace s).
Proof.
  unfold on_control_ack. destruct s; cbn.
  break_all; intros [= <-]; now read_trace.
Qed.

(** C6 (as amended): for an inbound OHLC data frame the key is built
    from the resolution field alone being required, a missing bar-shape
    field standing for ["classic"]; when the resolution is missing (or
    empty) no callback is invoked, and a frame that is neither an error
    frame nor a control acknowledgment is dropped with a logged warning,
    the object being otherwise unchanged. *)
Theorem ohlc_frame_needs_resolution_only :
  forall py_repr m fields epic s,
    PyDict.get "destination" m = Some (JStr "ohlc.event") ->
    PyDict.get "payload" m = Some (JObj fields) ->
    PyDict.get "epic" fields = Some epic ->
    (truthy_opt (PyDict.get "resolution" fields) = false ->
     callbacks (trace (_ws_on_message py_repr (Some (JObj m)) s)) =
       callbacks (trace s) /\
     (truthy_opt (PyDict.get "errorCode" m) = false ->
      PyDict.contains "status" m = false ->
      _ws_on_message py_repr (Some (JObj m)) s =
        log DEBUG (LogNoHandler (Some (JStr "ohlc.event")))
          (log WARNING (LogOhlcMissingResolution epic)
             (log DEBUG LogReceived s)))) /\
    (forall r,
        PyDict.get "resolution" fields = Some r -> truthy r = true ->
        PyDict.get "type" fields = None ->
        router_key py_repr (Some (JStr "ohlc.event")) epic fields s =
          (Some ("/ohlc/" ++ py_str py_repr epic ++ "/" ++ py_str py_repr r
                   ++ "/" ++ "classic")%string, s)).
Proof.
  intros py_repr m fields epic s Hd Hp He. split.
  - intros Hr.
    assert (Hdata : forall s0,
      on_data_frame py_repr m s0 =
      Returned (log DEBUG (LogNoHandler (Some (JStr "ohlc.event")))
                  (log WARNING (LogOhlcMissingResolution epic) s0))).
    { intros s0.
      rewrite (on_data_frame_with_epic py_repr m fields epic s0 Hp He).
      rewrite Hd. unfold router_key. cbn [opt_eq_str eq_str].
      cbn [String.eqb Ascii.eqb Bool.eqb].
      destruct (PyDict.get "resolution" fields) as [r|]; cbn in Hr.
      - rewrite Hr. reflexivity.
      - reflexivity. }
    split.
    + destruct s as [c x acc th conn subs stop att st pth pstop clk tr].
      unfold _ws_on_message.
      destruct (on_error_frame m _) eqn:E1.
      * now read_trace.
      * rewrite (on_error_frame_callbacks _ _ _ E1). now read_trace.
      * destruct (on_control_ack m _) eqn:E2.
        -- now read_trace.
        -- rewrite (on_control_ack_callbacks _ _ _ E2). now read_trace.
        -- rewrite Hdata. now read_trace.
    + intros Herr Hst. unfold _ws_on_message, on_error_frame, on_control_ack.
      rewrite Herr, Hst. cbn [andb]. now rewrite Hdata.
  - intros r Hr Ht Hb. unfold router_key. cbn [opt_eq_str eq_str].
    cbn [String.eqb Ascii.eqb Bool.eqb]. rewrite Hr, Ht, Hb. reflexivity.
Qed.

(** ** What the handlers leave alone *)

Ltac solve_stable :=
  unfold stable; cbn;
  repeat rewrite ?schedule_app; cbn; rewrite ?app_nil_r;
  repeat split.

Ltac solve_handler_ok :=
  unfold handler_ok; split;
  [ solve_stable
  | cbn; first [ left; split; reflexivity
               | right; split; [reflexivity | discriminate] ] ].

Section HandlerFacts.
Variable py_repr : json -> string.

Lemma on_message_ok d s : handler_ok s (_ws_on_message py_repr d s).
Proof.
  unfold _ws_on_message, on_error_frame, on_control_ack, on_data_frame,
    router_key, dispatch, on_other_destination, key_truthy, has_connection,
    py_in, py_get, py_getitem.
  destruct s; cbn. break_all; solve_handler_ok.
Qed.
End HandlerFacts.

(** ** The open handler *)

Lemma resubscribe_events_set_trace t s item :
  resubscribe_events (set_trace t s) item = resubscribe_events s item.
Proof. now destruct s. Qed.

Lemma resubscribe_one_effect s item :
  resubscribe_one s item = set_trace (trace s ++ resubscribe_events s item) s.
Proof.
  destruct item as [k info]. unfold resubscribe_one, resubscribe_events, send.
  destruct s; cbn. break_all; unfold_api; rewrite <- ?app_assoc; reflexivity.
Qed.

Lemma resubscribe_loop_effect l : forall s,
  fold_left resubscribe_one l s =
  set_trace (trace s ++ flat_map (resubscribe_events s) l) s.
Proof.
  induction l as [|item l IH]; intros s; cbn [fold_left flat_map].
  - rewrite app_nil_r. now destruct s.
  - rewrite resubscribe_one_effect, IH.
    rewrite (flat_map_ext _ _ (resubscribe_events_set_trace _ s)).
    destruct s. unfold_api. now rewrite <- app_assoc.
Qed.

Lemma on_open_effect s :
  tokens_missing s = false ->
  _ws_on_open s =
  set_trace (trace s ++ open_events s)
    (set_ping_thread (Some Alive)
       (set_ping_stop_event false
          (set_reconnect_attempts 0 (set_status CONNECTED s)))).
Proof.
  intros Ht.
  destruct s as [c x acc th conn subs stop att st pth pstop clk tr].
  unfold tokens_missing in Ht; cbn in Ht.
  unfold _ws_on_open, tokens_missing, open_events; cbn. rewrite Ht.
  destruct subs as [|item subs].
  - unfold_api. now rewrite <- !app_assoc.
  - rewrite resubscribe_loop_effect. unfold_api. now rewrite <- !app_assoc.
Qed.

Lemma on_open_without_tokens s :
  tokens_missing s = true ->
  _ws_on_open s =
  let s1 :=
    set_stop_event true
      (log ERROR LogOpenedWithoutTokens
         (set_reconnect_attempts 0
            (set_status CONNECTED (log INFO LogOpened s)))) in
  if has_connection s then close s1 else s1.
Proof.
  intros Ht.
  destruct s as [c x acc th conn subs stop att st pth pstop clk tr].
  unfold tokens_missing in Ht; cbn in Ht.
  unfold _ws_on_open, tokens_missing, has_connection; cbn. rewrite Ht.
  reflexivity.
Qed.

Lemma reopen_msg_claimed r s :
  option_map destination_and_payload (reopen_msg r s) =
  option_map Some (claimed_frame r).
Proof.
  unfold reopen_msg, claimed_frame.
  destruct (sub_data_type r); [reflexivity|].
  destruct (sub_resolution r), (sub_bar_type r); reflexivity.
Qed.

Lemma resubscribe_item_frames s item :
  ws_connection s = Some SockOpen ->
  map destination_and_payload (sent_frames (resubscribe_events s item)) =
    claimed_frames (filter is_active [item]) /\
  resubscribe_defects (resubscribe_events s item) =
    map (fun item => sub_epic (snd item))
      (filter lacks_ohlc_field (filter is_active [item])).
Proof.
  intros Hc. destruct item as [k r].
  pose proof (reopen_msg_claimed r s) as Hm.
  unfold resubscribe_events, claimed_frames, lacks_ohlc_field, is_active.
  rewrite Hc. cbn [filter snd].
  destruct (sub_active r); [|split; reflexivity].
  cbn [filter flat_map snd].
  destruct (reopen_msg r s) as [msg|], (claimed_frame r) as [f|];
    cbn in Hm; try discriminate.
  - injection Hm as Hm. cbn. rewrite Hm. split; reflexivity.
  - split; reflexivity.
Qed.

Lemma resubscribe_loop_frames s l :
  ws_connection s = Some SockOpen ->
  map destination_and_payload (sent_frames (flat_map (resubscribe_events s) l)) =
    claimed_frames (filter is_active l) /\
  resubscribe_defects (flat_map (resubscribe_events s) l) =
    map (fun item => sub_epic (snd item))
      (filter lacks_ohlc_field (filter is_active l)).
Proof.
  intros Hc. induction l as [|item l [IH1 IH2]]; [split; reflexivity|].
  destruct (resubscribe_item_frames s item Hc) as [H1 H2].
  change (item :: l) with ([item] ++ l).
  rewrite flat_map_app, sent_frames_app, map_app, !filter_app, map_app.
  unfold claimed_frames, resubscribe_defects in *.
  rewrite !flat_map_app. cbn [flat_map] in *. rewrite !app_nil_r in *.
  rewrite H1, H2, IH1, IH2. split; reflexivity.
Qed.

(** C2: when the connection has opened and both tokens are present, the
    open handler writes, for the records of the registry snapshot taken
    in order, exactly one frame per active record whose destination and
    payload are the ones derived from the record; an active OHLC record
    without resolution or bar shape gets no frame but one logged error,
    and the records after it are served all the same.  The registry is
    not modified and the status is [CONNECTED]. *)
Theorem open_resubscribes_each_active_record :
  forall s,
    tokens_missing s = false ->
    ws_connection s = Some SockOpen ->
    let s' := _ws_on_open s in
    let active := filter is_active (_ws_subscriptions s) in
    map destination_and_payload (sent_frames (trace s')) =
      map destination_and_payload (sent_frames (trace s))
      ++ claimed_frames active /\
    resubscribe_defects (trace s') =
      resubscribe_defects (trace s)
      ++ map (fun item => sub_epic (snd item)) (filter lacks_ohlc_field active) /\
    _ws_subscriptions s' = _ws_subscriptions s /\
    ws_status s' = CONNECTED.
Proof.
  intros s Ht Hc s' active. subst s' active.
  rewrite (on_open_effect s Ht).
  assert (Ho :
    map destination_and_payload (sent_frames (open_events s)) =
      claimed_frames (filter is_active (_ws_subscriptions s)) /\
    resubscribe_defects (open_events s) =
      map (fun item => sub_epic (snd item))
        (filter lacks_ohlc_field (filter is_active (_ws_subscriptions s)))).
  { destruct (resubscribe_loop_frames s (_ws_subscriptions s) Hc) as [H1 H2].
    unfold open_events.
    destruct (_ws_subscriptions s) as [|item subs]; [split; reflexivity|].
    split; [exact H1 | exact H2]. }
  destruct Ho as [Ho1 Ho2].
  destruct s as [c x acc th conn subs stop att st pth pstop clk tr].
  remember (open_events _) as ev eqn:Hev. clear Hev.
  remember (claimed_frames _) as expected eqn:He. clear He.
  remember (map _ (filter lacks_ohlc_field _)) as defects eqn:Hdf. clear Hdf.
  unfold ws_status. unfold_api.
  rewrite sent_frames_app, map_app, Ho1.
  unfold resubscribe_defects in *. rewrite flat_map_app, Ho2.
  repeat split.
Qed.

(** ** The wait loop *)

Lemma sleeps_zero s : sleeps 0 s = s.
Proof.
  destruct s. unfold sleeps. unfold_api. now rewrite app_nil_r, Z.add_0_r.
Qed.

Lemma sleeps_succ n s : sleeps (S n) s = sleeps n (sleep 1 s).
Proof.
  destruct s. unfold sleeps. unfold_api. rewrite <- app_assoc. cbn.
  f_equal. lia.
Qed.

Lemma stop_event_sleep s : _ws_stop_event (sleep 1 s) = _ws_stop_event s.
Proof. now destruct s. Qed.

(** Without a stop signal the wait loop sleeps the whole delay, one unit
    at a time, and changes nothing else. *)
Lemma backoff_wait_uninterrupted fuel : forall slept_time delay s,
  _ws_stop_event s = false ->
  (Z.to_nat (delay - slept_time) <= fuel)%nat ->
  backoff_wait fuel slept_time delay None s =
  sleeps (Z.to_nat (delay - slept_time)) s.
Proof.
  induction fuel as [|fuel IH]; intros slept_time delay s Hs Hf.
  - cbn. replace (Z.to_nat (delay - slept_time)) with 0%nat by lia.
    now rewrite sleeps_zero.
  - cbn [backoff_wait]. rewrite Hs. cbn [negb]. rewrite andb_true_r.
    destruct (slept_time <? delay) eqn:E.
    + apply Z.ltb_lt in E.
      rewrite IH by (rewrite ?stop_event_sleep; auto; lia).
      replace (Z.to_nat (delay - slept_time))
        with (S (Z.to_nat (delay - (slept_time + 1)))) by lia.
      now rewrite sleeps_succ.
    + apply Z.ltb_ge in E.
      replace (Z.to_nat (delay - slept_time)) with 0%nat by lia.
      now rewrite sleeps_zero.
Qed.

Lemma reconnect_delay_bounds k : 0 <= k -> 5 <= reconnect_delay k <= 60.
Proof.
  intros Hk. unfold reconnect_delay, _ws_initial_reconnect_delay,
    _ws_max_reconnect_delay.
  pose proof (Z.pow_pos_nonneg 2 k ltac:(lia) Hk). lia.
Qed.

(** ** The reconnect phase *)

Lemma reconnect_phase_stopped k s :
  _ws_stop_event s = true ->
  reconnect_phase k s = (false, log INFO LogStopEventSet s).
Proof. intros H. unfold reconnect_phase. now rewrite H. Qed.

Lemma reconnect_phase_retry s :
  _ws_stop_event s = false ->
  _ws_reconnect_attempts s < _ws_max_reconnect_attempts ->
  reconnect_phase None s =
  (true,
   set_reconnect_attempts (_ws_reconnect_attempts s + 1)
     (sleeps (Z.to_nat (reconnect_delay (_ws_reconnect_attempts s)))
        (set_status CONNECTING
           (log INFO (LogReconnectIn (_ws_reconnect_attempts s + 1)
                        _ws_max_reconnect_attempts
                        (reconnect_delay (_ws_reconnect_attempts s))) s)))).
Proof.
  intros Hs Ha. unfold reconnect_phase. rewrite Hs.
  apply Z.ltb_lt in Ha. rewrite Ha.
  cbv zeta. rewrite backoff_wait_uninterrupted.
  - rewrite Z.sub_0_r. destruct s. unfold sleeps. unfold_api.
    cbn in Hs. now rewrite Hs.
  - now destruct s.
  - rewrite Z.sub_0_r. lia.
Qed.

Lemma reconnect_phase_exhausted k s :
  _ws_stop_event s = false ->
  _ws_max_reconnect_attempts <= _ws_reconnect_attempts s ->
  reconnect_phase k s =
  (false,
   set_stop_event true (log ERROR (LogMaxAttempts _ws_max_reconnect_attempts) s)).
Proof.
  intros Hs Ha. unfold reconnect_phase. rewrite Hs.
  apply Z.ltb_ge in Ha. now rewrite Ha.
Qed.

(** ** Connection attempts that fail *)

Section LoopFacts.
Variable py_repr : json -> string.

Lemma get_ws_url_with_tokens r s :
  tokens_missing s = false -> _get_ws_url r s = (Url (ws_url s), s).
Proof. intros H. unfold _get_ws_url. now rewrite H. Qed.

Lemma connect_phase_fails a s :
  tokens_missing s = false ->
  fails a = true ->
  exists s1, connect_phase py_repr a s = TryDone s1 /\ attempt_made s s1.
Proof.
  intros Ht Hf. unfold connect_phase.
  rewrite (get_ws_url_with_tokens _ _ Ht).
  destruct a as [r t k]. unfold fails in Hf. cbn in Hf.
  destruct s as [c x acc th conn subs stop att st pth pstop clk tr].
  destruct t, k; try discriminate; cbn;
    unfold _ws_on_close, _ws_on_error; cbn; break_all;
    eexists; (split; [reflexivity|]);
    unfold attempt_made, ws_url; cbn;
    repeat rewrite ?schedule_app; cbn; rewrite ?app_nil_r;
    repeat split; discriminate.
Qed.

Lemma filter_sleeps n :
  filter is_timing (repeat (EvSleep 1) n) = repeat (EvSleep 1) n.
Proof. induction n; cbn; congruence. Qed.

Lemma tokens_missing_ext s s1 :
  cst s1 = cst s -> x_security_token s1 = x_security_token s ->
  tokens_missing s1 = tokens_missing s.
Proof. intros H1 H2. unfold tokens_missing. now rewrite H1, H2. Qed.

Lemma ws_url_ext s s1 :
  cst s1 = cst s -> x_security_token s1 = x_security_token s ->
  ws_url s1 = ws_url s.
Proof. intros H1 H2. unfold ws_url. now rewrite H1, H2. Qed.

(** One failed iteration below the attempt limit: a connection attempt,
    a wait of the delay of the current counter, the counter advanced by
    one. *)
Lemma run_loop_retry a env s :
  tokens_missing s = false ->
  fails a = true ->
  _ws_stop_event s = false ->
  0 <= _ws_reconnect_attempts s < _ws_max_reconnect_attempts ->
  exists s2,
    run_loop py_repr (a :: env) s = run_loop py_repr env s2 /\
    tokens_missing s2 = false /\ ws_url s2 = ws_url s /\
    _ws_stop_event s2 = false /\
    _ws_reconnect_attempts s2 = _ws_reconnect_attempts s + 1 /\
    schedule (trace s2) =
      schedule (trace s)
      ++ EvConnect (ws_url s)
         :: repeat (EvSleep 1)
              (Z.to_nat (reconnect_delay (_ws_reconnect_attempts s))).
Proof.
  intros Ht Hf Hs Ha.
  destruct (connect_phase_fails a s Ht Hf)
    as (s1 & Hc & Hcst & Hxst & Hstop & Hatt & Hsched & Hst).
  cbn [run_loop]. rewrite Hs, Hc.
  assert (Hk : a_stop_after a = None).
  { unfold fails in Hf. destruct (a_transport a), (a_stop_after a);
      congruence. }
  rewrite Hk, reconnect_phase_retry by (rewrite ?Hstop, ?Hatt; auto; lia).
  rewrite Hatt. eexists. split; [reflexivity|].
  rewrite <- (tokens_missing_ext s s1 Hcst Hxst) in Ht.
  rewrite <- (ws_url_ext s s1 Hcst Hxst).
  clear Hc Hk.
  destruct s1 as [c x acc th conn subs stop att st pth pstop clk tr].
  unfold schedule in *. cbn in *. subst.
  unfold sleeps, tokens_missing, ws_url in *. unfold_api.
  repeat split; auto.
  rewrite !filter_app, Hsched. cbn. rewrite <- app_assoc. cbn.
  rewrite filter_sleeps, ?app_nil_r, <- ?app_assoc. reflexivity.
Qed.

(** The iteration at the attempt limit: one more connection attempt,
    then the stop event is set and the loop is left. *)
Lemma run_loop_exhausted a env s :
  tokens_missing s = false ->
  fails a = true ->
  _ws_stop_event s = false ->
  _ws_max_reconnect_attempts <= _ws_reconnect_attempts s ->
  exists s2,
    run_loop py_repr (a :: env) s = Exited s2 /\
    _ws_stop_event s2 = true /\ _ws_status s2 <> STOPPING /\
    schedule (trace s2) = schedule (trace s) ++ [EvConnect (ws_url s)].
Proof.
  intros Ht Hf Hs Ha.
  destruct (connect_phase_fails a s Ht Hf)
    as (s1 & Hc & Hcst & Hxst & Hstop & Hatt & Hsched & Hst).
  cbn [run_loop]. rewrite Hs, Hc.
  rewrite reconnect_phase_exhausted by (rewrite ?Hstop, ?Hatt; auto).
  eexists. split; [reflexivity|].
  destruct s1 as [c x acc th conn subs stop att st pth pstop clk tr].
  unfold schedule in *. cbn in *. unfold_api. repeat split; auto.
  rewrite filter_app, Hsched. cbn. now rewrite app_nil_r.
Qed.

(** From counter [k] with [n] retries left before the limit, a run of
    failures follows the plan and leaves the loop with the stop event
    set. *)
Lemma run_loop_failures n : forall env s,
  Forall (fun a => fails a = true) env ->
  (n < List.length env)%nat ->
  tokens_missing s = false ->
  _ws_stop_event s = false ->
  0 <= _ws_reconnect_attempts s ->
  _ws_reconnect_attempts s = _ws_max_reconnect_attempts - Z.of_nat n ->
  exists s2,
    run_loop py_repr env s = Exited s2 /\
    _ws_stop_event s2 = true /\ _ws_status s2 <> STOPPING /\
    schedule (trace s2) =
      schedule (trace s) ++ retry_plan (ws_url s) n (_ws_reconnect_attempts s).
Proof.
  induction n as [|n IH]; intros env s Henv Hlen Ht Hs H0 Hk;
    destruct env as [|a env]; cbn in Hlen; try lia;
    inversion Henv as [|? ? Hf Henv']; subst.
  - apply run_loop_exhausted; auto. lia.
  - destruct (run_loop_retry a env s Ht Hf Hs ltac:(lia))
      as (s2 & Hrun & Ht2 & Hurl & Hs2 & Ha2 & Hsched).
    destruct (IH env s2 Henv' ltac:(lia) Ht2 Hs2 ltac:(lia) ltac:(lia))
      as (s3 & Hrun3 & Hstop3 & Hst3 & Hsched3).
    exists s3. rewrite Hrun. repeat split; auto.
    rewrite Hsched3, Hsched, Hurl, Ha2. cbn [retry_plan].
    now rewrite <- app_assoc.
Qed.

End LoopFacts.

(** ** Leaving the loop *)

Lemma run_exit_facts s :
  let s' := run_exit s in
  (_ws_status s <> STOPPING -> _ws_status s' = DISCONNECTED) /\
  _ws_stop_event s' = _ws_stop_event s /\
  _ws_reconnect_attempts s' = _ws_reconnect_attempts s /\
  schedule (trace s') = schedule (trace s) /\
  alive (ws_thread s') = false /\ ws_connection s' = None.
Proof.
  destruct s as [c x acc th conn subs stop att st pth pstop clk tr].
  unfold run_exit, has_connection, schedule. cbn.
  destruct conn, pth as [[|]|], st, th; cbn;
    repeat rewrite ?filter_app; cbn; rewrite ?app_nil_r;
    repeat split; congruence.
Qed.

Lemma claimed_schedule_plan url :
  retry_plan url 10 0 = claimed_schedule url.
Proof. reflexivity. Qed.

(** C1 (as amended): a run of the reconnect loop that starts with both
    tokens held, the stop event clear and the attempt counter at zero,
    and in which every connection attempt fails before the connection
    opens and no wait is interrupted, makes a first attempt and then
    ten reconnect attempts, the n-th after a wait of
    min(5 * 2^(n-1), 60) one-unit sleeps, that is
    5, 10, 20, 40, 60, 60, 60, 60, 60, 60; at the eleventh failure it
    sets the stop event and leaves the loop, the thread ends and the
    status is [DISCONNECTED], with no further attempt or wait. *)
Theorem reconnect_backoff_schedule :
  forall py_repr env s,
    Forall (fun a => fails a = true) env ->
    (11 <= List.length env)%nat ->
    tokens_missing s = false ->
    _ws_stop_event s = false ->
    _ws_reconnect_attempts s = 0 ->
    exists s',
      _ws_run py_repr env s = Exited s' /\
      schedule (trace s') = schedule (trace s) ++ claimed_schedule (ws_url s) /\
      map claimed_delay [1; 2; 3; 4; 5; 6; 7; 8; 9; 10] =
        [5; 10; 20; 40; 60; 60; 60; 60; 60; 60] /\
      _ws_status s' = DISCONNECTED /\ _ws_stop_event s' = true /\
      alive (ws_thread s') = false /\ ws_connection s' = None.
Proof.
  intros py_repr env s Henv Hlen Ht Hs Ha.
  unfold _ws_run.
  destruct (run_loop_failures py_repr 10 env (set_status CONNECTING s))
    as (s2 & Hrun & Hstop & Hst & Hsched);
    try (destruct s; cbn in *; auto; lia).
  rewrite Hrun. eexists. split; [reflexivity|].
  destruct (run_exit_facts s2) as (E1 & E2 & _ & E4 & E5 & E6).
  rewrite E4, Hsched, E2, Hstop, (E1 Hst).
  replace (_ws_reconnect_attempts (set_status CONNECTING s)) with 0
    by (now destruct s).
  replace (ws_url (set_status CONNECTING s)) with (ws_url s)
    by (now destruct s).
  replace (trace (set_status CONNECTING s)) with (trace s)
    by (now destruct s).
  rewrite claimed_schedule_plan. repeat split; auto.
Qed.

(** ** Frames delivered on an open connection *)

Section DeliveryFacts.
Variable py_repr : json -> string.

Lemma stable_refl s : stable s s.
Proof. unfold stable. repeat split. Qed.

Lemma stable_trans s1 s2 s3 : stable s1 s2 -> stable s2 s3 -> stable s1 s3.
Proof.
  unfold stable. intros (A1 & A2 & A3 & A4 & A5 & A6) (B1 & B2 & B3 & B4 & B5 & B6).
  repeat split; congruence.
Qed.

Lemma on_error_ok s : handler_ok s (_ws_on_error s).
Proof. destruct s. unfold _ws_on_error. solve_handler_ok. Qed.

Lemma deliver_not_open frames s :
  ws_connection s <> Some SockOpen -> deliver py_repr frames s = s.
Proof.
  intros H. destruct frames as [|f rest]; [reflexivity|]. cbn.
  destruct (ws_connection s) as [[| |]|]; congruence.
Qed.

Lemma deliver_stable frames : forall s, stable s (deliver py_repr frames s).
Proof.
  induction frames as [|f rest IH]; intros s; cbn; [apply stable_refl|].
  destruct (ws_connection s) as [[| |]|]; try apply stable_refl.
  eapply stable_trans; [|apply IH].
  destruct f; [apply on_message_ok | apply on_error_ok].
Qed.

(** The authentication-failure frame sets the stop event and closes the
    connection it arrived on. *)
Lemma on_message_auth_failure m s :
  PyDict.get "errorCode" m =
    Some (JStr "exceptions.security.authentication-failure") ->
  _ws_on_message py_repr (Some (JObj m)) s =
  let s1 :=
    set_stop_event true
      (log ERROR LogAuthFailureStop
         (log ERROR
            (LogServerError (JStr "exceptions.security.authentication-failure"))
            (log DEBUG LogReceived s))) in
  if has_connection s then close s1 else s1.
Proof.
  intros H. unfold _ws_on_message, on_error_frame. rewrite H.
  destruct s as [c x acc th conn subs stop att st pth pstop clk tr].
  destruct conn; reflexivity.
Qed.

(** Once a delivered list contains such a frame, delivery ends with the
    stop event set and the connection no longer open. *)
Lemma deliver_auth_failure frames : forall s,
  Exists auth_failure_frame frames ->
  ws_connection s = Some SockOpen ->
  _ws_stop_event (deliver py_repr frames s) = true /\
  ws_connection (deliver py_repr frames s) <> Some SockOpen.
Proof.
  induction frames as [|f rest IH]; intros s Hex Hc;
    inversion Hex as [? ? Hauth | ? ? Hrest]; subst; cbn; rewrite Hc.
  - destruct Hauth as (m & -> & Hm).
    rewrite (on_message_auth_failure m s Hm).
    rewrite deliver_not_open;
      destruct s as [c x acc th conn subs stop att st pth pstop clk tr];
      cbn in Hc; subst conn; cbn; [split|]; congruence.
  - set (s1 := match f with
               | Message d => _ws_on_message py_repr d s
               | TransportError => _ws_on_error s
               end).
    assert (Hok : handler_ok s s1)
      by (destruct f; [apply on_message_ok | apply on_error_ok]).
    destruct Hok as [_ [[Hconn Hstop] | [Hstop Hconn]]].
    + apply IH; auto. congruence.
    + rewrite deliver_not_open by exact Hconn. auto.
Qed.

End DeliveryFacts.

(** ** The open and close handlers inside a connection attempt *)

Lemma schedule_resubscribe_events s l :
  schedule (flat_map (resubscribe_events s) l) = [].
Proof.
  induction l as [|[k r] l IH]; [reflexivity|].
  cbn [flat_map]. rewrite schedule_app, IH, app_nil_r.
  unfold resubscribe_events.
  destruct (sub_active r), (reopen_msg r s), (ws_connection s) as [[| |]|];
    reflexivity.
Qed.

Lemma schedule_open_events s : schedule (open_events s) = [].
Proof.
  unfold open_events. rewrite schedule_app.
  destruct (_ws_subscriptions s) as [|item l] eqn:E; [reflexivity|].
  cbn [schedule filter is_timing app].
  fold (schedule (flat_map (resubscribe_events s) (item :: l))).
  apply schedule_resubscribe_events.
Qed.

(** With both tokens present the open handler resets the attempt
    counter and leaves connection, stop event and schedule alone. *)
Lemma on_open_facts s :
  tokens_missing s = false ->
  let s' := _ws_on_open s in
  ws_connection s' = ws_connection s /\
  _ws_stop_event s' = _ws_stop_event s /\
  _ws_reconnect_attempts s' = 0 /\
  _ws_status s' = CONNECTED /\
  schedule (trace s') = schedule (trace s).
Proof.
  intros Ht s'. subst s'. rewrite (on_open_effect s Ht).
  pose proof (schedule_open_events s) as Hs.
  destruct s as [c x acc th conn subs stop att st pth pstop clk tr].
  remember (open_events _) as ev eqn:Hev. clear Hev.
  unfold_api. repeat split.
  fold (schedule (tr ++ ev)). now rewrite schedule_app, Hs, app_nil_r.
Qed.

Lemma on_close_facts s :
  let s' := _ws_on_close s in
  ws_connection s' = None /\
  _ws_stop_event s' = _ws_stop_event s /\
  _ws_reconnect_attempts s' = _ws_reconnect_attempts s /\
  _ws_status s' = DISCONNECTED /\
  schedule (trace s') = schedule (trace s).
Proof.
  destruct s as [c x acc th conn subs stop att st pth pstop clk tr].
  unfold _ws_on_close, schedule. cbn.
  destruct pth as [[|]|], st; cbn;
    repeat rewrite ?filter_app; cbn; rewrite ?app_nil_r; repeat split.
Qed.

Section AuthFailure.
Variable py_repr : json -> string.

Lemma run_forever_auth_failure frames peer_closes s :
  Exists auth_failure_frame frames ->
  tokens_missing s = false ->
  exists s',
    run_forever py_repr (Opens frames peer_closes) s = RfReturned s' /\
    _ws_stop_event s' = true /\ _ws_reconnect_attempts s' = 0 /\
    _ws_status s' = DISCONNECTED /\ ws_connection s' = None /\
    schedule (trace s') = schedule (trace s).
Proof.
  intros Hex Ht. unfold run_forever.
  set (sB := set_ws_connection (Some SockOpen) s).
  assert (HtB : tokens_missing sB = false) by (now destruct s).
  assert (HcB : ws_connection sB = Some SockOpen) by (now destruct s).
  assert (HsB : schedule (trace sB) = schedule (trace s)) by (now destruct s).
  destruct (on_open_facts sB HtB) as (Oc & _ & Oa & _ & Osch).
  set (sC := _ws_on_open sB) in *.
  destruct (deliver_auth_failure py_repr frames sC Hex ltac:(congruence))
    as [Dstop Dconn].
  destruct (deliver_stable py_repr frames sC) as (_ & _ & _ & _ & Da & Dsch).
  set (sD := deliver py_repr frames sC) in *.
  destruct (on_close_facts sD) as (Cc & Cstop & Ca & Cst & Csch).
  exists (_ws_on_close sD).
  split.
  - destruct (ws_connection sD) as [[| |]|]; congruence.
  - repeat split; congruence.
Qed.

(** The whole attempt: one connection is made, the handlers run, and
    the loop is left at the check after the [try] statement, before any
    wait. *)
Lemma run_loop_auth_failure a env frames peer_closes s :
  a_transport a = Opens frames peer_closes ->
  Exists auth_failure_frame frames ->
  tokens_missing s = false ->
  _ws_stop_event s = false ->
  exists s',
    run_loop py_repr (a :: env) s = Exited s' /\
    _ws_stop_event s' = true /\ _ws_reconnect_attempts s' = 0 /\
    _ws_status s' = DISCONNECTED /\ ws_connection s' = None /\
    schedule (trace s') = schedule (trace s) ++ [EvConnect (ws_url s)].
Proof.
  intros Ha Hex Ht Hs. cbn [run_loop]. rewrite Hs.
  unfold connect_phase. rewrite (get_ws_url_with_tokens _ _ Ht), Ha.
  set (sA := emit _ _).
  assert (HtA : tokens_missing sA = false) by (now destruct s).
  assert (HsA : schedule (trace sA) = schedule (trace s) ++ [EvConnect (ws_url s)]).
  { destruct s. subst sA. unfold schedule, ws_url. unfold_api.
    rewrite !filter_app. cbn. now rewrite app_nil_r. }
  destruct (run_forever_auth_failure frames peer_closes sA Hex HtA)
    as (s1 & -> & Hstop & Hatt & Hst & Hconn & Hsch).
  rewrite (reconnect_phase_stopped _ _ Hstop).
  eexists. split; [reflexivity|].
  destruct s1 as [c x acc th conn subs stop att st pth pstop clk tr].
  unfold schedule in *. cbn in *. unfold_api.
  rewrite filter_app. cbn. rewrite app_nil_r. repeat split; congruence.
Qed.

End AuthFailure.

(** C3: an inbound frame carrying the authentication-failure code makes
    the message handler set the stop event and close the connection it
    has, invoking no callback; and a connection attempt during which
    such a frame arrives is the last thing the reconnect loop does: one
    connection, no wait, no further attempt, whatever the attempt
    counter was and without advancing it; the loop is left and the
    status is [DISCONNECTED]. *)
Theorem auth_failure_stops_supervisor :
  forall py_repr,
    (forall m s,
        PyDict.get "errorCode" m =
          Some (JStr "exceptions.security.authentication-failure") ->
        let s' := _ws_on_message py_repr (Some (JObj m)) s in
        _ws_stop_event s' = true /\
        ws_connection s' =
          match ws_connection s with Some _ => Some SockClosed | None => None end /\
        (has_connection s = true -> exists t, trace s' = trace s ++ t ++ [EvClose]) /\
        callbacks (trace s') = callbacks (trace s) /\
        schedule (trace s') = schedule (trace s)) /\
    (forall a env frames peer_closes s,
        a_transport a = Opens frames peer_closes ->
        Exists auth_failure_frame frames ->
        tokens_missing s = false ->
        _ws_stop_event s = false ->
        exists s',
          _ws_run py_repr (a :: env) s = Exited s' /\
          schedule (trace s') = schedule (trace s) ++ [EvConnect (ws_url s)] /\
          _ws_stop_event s' = true /\
          _ws_reconnect_attempts s' = 0 /\
          _ws_status s' = DISCONNECTED /\ ws_connection s' = None).
Proof.
  intros py_repr. split.
  - intros m s Hm s'. subst s'. rewrite (on_message_auth_failure py_repr m s Hm).
    destruct s as [c x acc th conn subs stop att st pth pstop clk tr].
    unfold has_connection, callbacks, schedule.
    destruct conn as [k|]; unfold_api;
      (split; [reflexivity|]); (split; [reflexivity|]); split.
    + intros _. exists [EvLog DEBUG LogReceived;
                        EvLog ERROR (LogServerError
                          (JStr "exceptions.security.authentication-failure"));
                        EvLog ERROR LogAuthFailureStop].
      now rewrite <- !app_assoc.
    + rewrite !flat_map_app, !filter_app. cbn. now rewrite !app_nil_r.
    + discriminate.
    + rewrite !flat_map_app, !filter_app. cbn. now rewrite !app_nil_r.
  - intros a env frames peer_closes s Ha Hex Ht Hs. unfold _ws_run.
    destruct (run_loop_auth_failure py_repr a env frames peer_closes
                (set_status CONNECTING s) Ha Hex)
      as (s1 & Hrun & Hstop & Hatt & Hst & Hconn & Hsch);
      try (now destruct s).
    rewrite Hrun. eexists. split; [reflexivity|].
    destruct (run_exit_facts s1) as (E1 & E2 & E3 & E4 & E5 & E6).
    rewrite E4, Hsch, E2, E3, Hstop, Hatt, E1 by (rewrite Hst; discriminate).
    replace (ws_url (set_status CONNECTING s)) with (ws_url s)
      by (now destruct s).
    replace (trace (set_status CONNECTING s)) with (trace s)
      by (now destruct s).
    repeat split; auto.
Qed.

(** ** What never touches the registry *)

Lemma login_registry r s :
  _ws_subscriptions (snd (login r s)) = _ws_subscriptions s.
Proof.
  destruct s. unfold login, _update_auth_tokens, clear_tokens, tokens_missing.
  destruct r as [|hc hx ok body]; cbn; break_all; reflexivity.
Qed.

Lemma get_ws_url_registry r s :
  _ws_subscriptions (snd (_get_ws_url r s)) = _ws_subscriptions s.
Proof.
  unfold _get_ws_url. destruct (tokens_missing s); [|reflexivity].
  pose proof (login_registry r (log WARNING LogWsTokensMissingRelogin s)) as H.
  destruct (login r _) as [[[|]|] s1]; cbn in *; rewrite H; now destruct s.
Qed.

Lemma start_thread_registry s :
  _ws_subscriptions (snd (_start_websocket_thread s)) = _ws_subscriptions s.
Proof.
  destruct s. unfold _start_websocket_thread, ws_status, tokens_missing.
  cbn. break_all; reflexivity.
Qed.

Lemma stop_thread_registry s :
  _ws_subscriptions (_stop_websocket_thread s) = _ws_subscriptions s.
Proof.
  destruct s. unfold _stop_websocket_thread, has_connection.
  cbn. break_all; reflexivity.
Qed.

Lemma on_open_registry s :
  _ws_subscriptions (_ws_on_open s) = _ws_subscriptions s.
Proof.
  destruct (tokens_missing s) eqn:Ht.
  - rewrite (on_open_without_tokens s Ht). destruct s.
    unfold has_connection. cbn. break_all; reflexivity.
  - rewrite (on_open_effect s Ht). now destruct s.
Qed.

Lemma on_error_registry s :
  _ws_subscriptions (_ws_on_error s) = _ws_subscriptions s.
Proof. now destruct s. Qed.

Lemma on_close_registry s :
  _ws_subscriptions (_ws_on_close s) = _ws_subscriptions s.
Proof. destruct s. unfold _ws_on_close. cbn. break_all; reflexivity. Qed.

Lemma backoff_wait_registry fuel : forall slept delay k s,
  _ws_subscriptions (backoff_wait fuel slept delay k s) = _ws_subscriptions s.
Proof.
  induction fuel as [|fuel IH]; intros slept delay k s; [reflexivity|].
  cbn [backoff_wait]. destruct (_ && _); [|reflexivity].
  destruct k as [[|k]|]; rewrite IH; now destruct s.
Qed.

Lemma reconnect_phase_registry k s :
  _ws_subscriptions (snd (reconnect_phase k s)) = _ws_subscriptions s.
Proof.
  unfold reconnect_phase.
  destruct (_ws_stop_event s); [destruct s; reflexivity|].
  destruct (_ws_reconnect_attempts s <? _ws_max_reconnect_attempts);
    [|destruct s; reflexivity].
  cbv zeta. set (sw := backoff_wait _ _ _ _ _).
  assert (Hw : _ws_subscriptions sw = _ws_subscriptions s).
  { subst sw. rewrite backoff_wait_registry. destruct s; reflexivity. }
  clearbody sw. rewrite <- Hw.
  destruct (_ws_stop_event sw); destruct sw; reflexivity.
Qed.

Lemma run_exit_registry s :
  _ws_subscriptions (run_exit s) = _ws_subscriptions s.
Proof.
  destruct s. unfold run_exit, has_connection. cbn. break_all; reflexivity.
Qed.

Section RegistryFacts.
Variable py_repr : json -> string.

Lemma on_message_registry d s :
  _ws_subscriptions (_ws_on_message py_repr d s) = _ws_subscriptions s.
Proof. apply (on_message_ok py_repr d s). Qed.

Lemma deliver_registry frames s :
  _ws_subscriptions (deliver py_repr frames s) = _ws_subscriptions s.
Proof. apply (deliver_stable py_repr frames s). Qed.

Lemma connect_phase_registry a s :
  _ws_subscriptions (state_of_try (connect_phase py_repr a s)) =
  _ws_subscriptions s.
Proof.
  unfold connect_phase.
  pose proof (get_ws_url_registry (a_login a) s) as Hu.
  destruct (_get_ws_url (a_login a) s) as [[url| |] s1]; cbn in Hu;
    [|now destruct s1|now destruct s1].
  set (sA := emit _ _).
  assert (HA : _ws_subscriptions sA = _ws_subscriptions s)
    by (subst sA; now destruct s1).
  destruct (a_transport a) as [| | |frames closes]; cbn.
  - now destruct sA.
  - now destruct sA.
  - now rewrite on_close_registry, on_error_registry.
  - set (sD := deliver _ _ _).
    assert (HD : _ws_subscriptions sD = _ws_subscriptions s).
    { subst sD. rewrite deliver_registry, on_open_registry. now destruct sA. }
    destruct (ws_connection sD) as [[| |]|]; cbn;
      try destruct closes; cbn; rewrite ?on_close_registry; exact HD.
Qed.

Lemma run_loop_registry env : forall s,
  _ws_subscriptions (state_of_run (run_loop py_repr env s)) =
  _ws_subscriptions s.
Proof.
  induction env as [|a env IH]; intros s; cbn [run_loop];
    destruct (_ws_stop_event s); try reflexivity.
  pose proof (connect_phase_registry a s) as Hc.
  destruct (connect_phase py_repr a s) as [s1|s1|s1]; cbn in Hc; auto.
  pose proof (reconnect_phase_registry (a_stop_after a) s1) as Hr.
  destruct (reconnect_phase (a_stop_after a) s1) as [[|] s2]; cbn in Hr.
  - rewrite IH. congruence.
  - cbn. congruence.
Qed.

Lemma ws_run_registry env s :
  _ws_subscriptions (state_of_run (_ws_run py_repr env s)) =
  _ws_subscriptions s.
Proof.
  unfold _ws_run.
  pose proof (run_loop_registry env (set_status CONNECTING s)) as H.
  destruct (run_loop py_repr env _) as [s1|s1]; cbn in *;
    rewrite ?run_exit_registry, H; now destruct s.
Qed.

End RegistryFacts.

(** ** What does touch it *)

Lemma subscribe_all_active epic data_type cb resolution bar_type s :
  all_active (_ws_subscriptions s) ->
  all_active
    (_ws_subscriptions
       (snd (subscribe_to_epic_data epic data_type cb resolution bar_type s))).
Proof.
  intros H. destruct (tokens_missing s) eqn:Ht.
  - unfold subscribe_to_epic_data. rewrite Ht. now destruct s.
  - destruct (canonical_key epic data_type resolution bar_type) as [key|] eqn:Hk.
    + destruct (subscribe_registry epic data_type cb resolution bar_type s key Ht Hk)
        as [_ ->].
      now apply (PyDictFacts.Forall_set (fun r => sub_active r = true)).
    + destruct data_type, resolution; simpl in Hk; try discriminate.
      unfold subscribe_to_epic_data. rewrite Ht. exact H.
Qed.

Lemma unsubscribe_all_active epic data_type resolution bar_type s :
  all_active (_ws_subscriptions s) ->
  all_active
    (_ws_subscriptions
       (snd (unsubscribe_from_epic_data epic data_type resolution bar_type s))).
Proof.
  intros H. unfold unsubscribe_from_epic_data.
  destruct (unsubscribe_target _ _ _ _) as [[[key dest] payload]|]; [|exact H].
  pose proof (PyDictFacts.Forall_pop (fun r => sub_active r = true) key _ H) as Hp.
  destruct (PyDict.pop key (_ws_subscriptions s)) as [popped rest].
  cbn [snd] in Hp.
  set (s1 := match popped with Some _ => _ | None => _ end).
  assert (H1 : _ws_subscriptions s1 = rest).
  { subst s1. destruct s. unfold send, ws_status, has_connection.
    cbn. break_all; reflexivity. }
  clearbody s1.
  match goal with
  | |- context [if ?c then (Return, _stop_websocket_thread _) else _] =>
      destruct c
  end; cbn [snd]; rewrite ?stop_thread_registry;
    [replace (_ws_subscriptions (log INFO LogNoneRemainingStop s1)) with rest
       by (rewrite <- H1; now destruct s1)
    | rewrite H1]; exact Hp.
Qed.

Lemma stop_all_registry s :
  _ws_subscriptions (stop_all_websocket_subscriptions s) = [].
Proof.
  unfold stop_all_websocket_subscriptions.
  set (s2 := _stop_websocket_thread _).
  assert (H : _ws_subscriptions s2 = []); [|now destruct s2].
  subst s2. rewrite stop_thread_registry.
  destruct s as [c x acc th conn subs stop att st pth pstop clk tr].
  unfold ws_status, has_connection. cbn.
  assert (Hone : forall s0 item,
             _ws_subscriptions (stop_all_one s0 item) = _ws_subscriptions s0).
  { intros s0 [k r]. destruct s0.
    unfold stop_all_one, stop_all_msg, send. cbn. break_all; reflexivity. }
  assert (Hfold : forall l s0, _ws_subscriptions (fold_left stop_all_one l s0)
                               = _ws_subscriptions s0).
  { induction l as [|item l IH]; intros s0; [reflexivity|].
    cbn [fold_left]. now rewrite IH, Hone. }
  destruct subs; cbn; break_all; rewrite ?Hfold, ?Hone; reflexivity.
Qed.

(** ** The active flag *)

(** The lemmas of the previous section, as a rewriting base. *)
Create HintDb registry discriminated.
Create Rewrite HintDb registry_eqs.

#[local] Hint Rewrite login_registry start_thread_registry
  stop_thread_registry on_open_registry on_error_registry on_close_registry
  reconnect_phase_registry on_message_registry connect_phase_registry
  ws_run_registry stop_all_registry : registry_eqs.

#[local] Hint Resolve subscribe_all_active unsubscribe_all_active : registry.

#[local] Hint Constructors Forall : registry.

Lemma step_all_active py_repr s s' :
  step py_repr s s' ->
  all_active (_ws_subscriptions s) -> all_active (_ws_subscriptions s').
Proof.
  intros Hstep H. destruct Hstep; autorewrite with registry_eqs;
    auto with registry.
  - now destruct s.
  - constructor.
Qed.

Lemma reachable_all_active py_repr s :
  reachable py_repr s -> all_active (_ws_subscriptions s).
Proof.
  induction 1 as [now|s s' _ IH Hstep]; [constructor|].
  exact (step_all_active py_repr s s' Hstep IH).
Qed.

Lemma skipped_inactive_app a b :
  skipped_inactive (a ++ b) = skipped_inactive a ++ skipped_inactive b.
Proof. apply flat_map_app. Qed.

Lemma no_skip_when_all_active s l :
  all_active l -> skipped_inactive (flat_map (resubscribe_events s) l) = [].
Proof.
  induction 1 as [|[k r] l Hr _ IH]; [reflexivity|].
  cbn [flat_map]. rewrite skipped_inactive_app, IH, app_nil_r.
  unfold resubscribe_events. cbn [snd] in Hr. rewrite Hr.
  destruct (reopen_msg r s), (ws_connection s) as [[| |]|]; reflexivity.
Qed.

(** C10: in every state the client object can reach from its
    construction, by any sequence of the modelled methods, handlers and
    token updates, each record of the registry has its active flag set.
    Hence the router, finding a record with a callback under the derived
    key, always invokes it, and the open handler never takes the branch
    that skips an inactive record. *)
Theorem registry_records_are_always_active :
  forall py_repr s,
    reachable py_repr s ->
    all_active (_ws_subscriptions s) /\
    (forall key info,
        PyDict.get key (_ws_subscriptions s) = Some info ->
        sub_active info = true) /\
    (forall key payload info cb,
        PyDict.get key (_ws_subscriptions s) = Some info ->
        sub_callback info = Some cb ->
        callbacks (trace (dispatch key payload s)) =
          callbacks (trace s) ++ [(cb, payload)]) /\
    skipped_inactive (trace (_ws_on_open s)) = skipped_inactive (trace s).
Proof.
  intros py_repr s Hreach.
  pose proof (reachable_all_active py_repr s Hreach) as Hall.
  assert (Hget : forall key info,
             PyDict.get key (_ws_subscriptions s) = Some info ->
             sub_active info = true).
  { intros key info Hk.
    exact (PyDictFacts.get_Forall (fun r => sub_active r = true) key _ info
             Hall Hk). }
  split; [exact Hall|]. split; [exact Hget|]. split.
  - intros key payload info cb Hk Hcb. unfold dispatch.
    rewrite Hk, (Hget key info Hk), Hcb.
    destruct s, (cb_raises cb); unfold_api;
      rewrite !callbacks_app; cbn; now rewrite ?app_nil_r.
  - destruct (tokens_missing s) eqn:Ht.
    + rewrite (on_open_without_tokens s Ht). destruct s.
      unfold has_connection. cbn. break_all; unfold_api;
        rewrite !skipped_inactive_app; cbn; now rewrite ?app_nil_r.
    + rewrite (on_open_effect s Ht).
      assert (Hev : skipped_inactive (open_events s) = []).
      { unfold open_events. rewrite skipped_inactive_app. cbn [app].
        pose proof (no_skip_when_all_active s _ Hall) as Hno.
        destruct (_ws_subscriptions s); [reflexivity|exact Hno]. }
      destruct s. remember (open_events _) as ev. unfold_api.
      now rewrite skipped_inactive_app, Hev, app_nil_r.
Qed.

(** ** Unsubscribing the last record *)


(** After its target is chosen, unsubscribe pops the key, possibly
    writes a frame, and then either stops the supervisor or returns. *)
Lemma unsubscribe_shape epic data_type resolution bar_type key s :
  canonical_key epic data_type resolution bar_type = Some key ->
  exists s1,
    unsubscribe_from_epic_data epic data_type resolution bar_type s =
    (Return,
     if negb (PyDict.nonempty (_ws_subscriptions s1))
        && negb (status_eqb (ws_status s1) DISCONNECTED)
        && negb (status_eqb (ws_status s1) STOPPING)
     then _stop_websocket_thread (log INFO LogNoneRemainingStop s1)
     else s1) /\
    _ws_subscriptions s1 = snd (PyDict.pop key (_ws_subscriptions s)) /\
    _ws_status s1 = _ws_status s.
Proof.
  intros Hk. unfold unsubscribe_from_epic_data.
  assert (Ht : exists dest payload,
             unsubscribe_target epic data_type resolution bar_type =
             Some (key, dest, payload)).
  { destruct data_type, resolution; simpl in Hk; try discriminate;
      injection Hk as <-; do 2 eexists; reflexivity. }
  destruct Ht as (dest & payload & ->).
  destruct (PyDict.pop key (_ws_subscriptions s)) as [popped rest].
  match goal with
  | |- context [_stop_websocket_thread (log INFO LogNoneRemainingStop ?x)] =>
      exists x
  end.
  split.
  { match goal with
    | |- context [if ?c then (Return, _) else (Return, _)] =>
        destruct c; reflexivity
    end. }
  destruct s as [c x acc th conn subs stop att st pth pstop clk tr].
  unfold send, ws_status, has_connection. cbn.
  destruct popped; cbn; break_all; split; reflexivity.
Qed.










(** * The examples *)

Module Examples.
Import Scenario.

(** The scenario states are histories of the client. *)
Lemma logged_in_reachable : reachable py_repr logged_in.
Proof.
  eapply reachable_step; [apply (reachable_init py_repr 0)|].
  apply (step_tokens py_repr (init 0) (Some "CST") (Some "XST")).
Defined.

Lemma subscribed_reachable : reachable py_repr subscribed.
Proof.
  eapply reachable_step; [apply logged_in_reachable|].
  apply step_subscribe.
Defined.


End Examples.

(** C1 (instance): eleven attempts that never open, from the logged-in
    client. *)
Lemma reconnect_backoff_schedule_witness :
  exists s',
    _ws_run Scenario.py_repr (repeat Scenario.never_opens 11) Scenario.logged_in
      = Exited s' /\
    schedule (trace s') =
      schedule (trace Scenario.logged_in) ++ claimed_schedule Scenario.url /\
    map claimed_delay [1; 2; 3; 4; 5; 6; 7; 8; 9; 10] =
      [5; 10; 20; 40; 60; 60; 60; 60; 60; 60] /\
    _ws_status s' = DISCONNECTED /\ _ws_stop_event s' = true /\
    alive (ws_thread s') = false /\ ws_connection s' = None.
Proof.
  apply (reconnect_backoff_schedule Scenario.py_repr
           (repeat Scenario.never_opens 11) Scenario.logged_in).
  - repeat constructor.
  - cbn. lia.
  - reflexivity.
  - reflexivity.
  - reflexivity.
Defined.

(** C1 (counterexample): a run from zero attempts in which every
    connection opens and is then closed by the peer.  The open handler
    resets the attempt counter, so every wait is five units: the second
    reconnect attempt comes after a wait of 5 and not of 10, and after
    twelve waits the loop has not given up: the stop event is clear,
    the thread alive and the status [CONNECTING]. *)
Lemma reconnect_after_open_waits_five_again :
  let s := Scenario.subscribed in
  let r := _ws_run Scenario.py_repr (repeat Scenario.opens_then_drops 12) s in
  let s' := state_of_run r in
  (_ws_stop_event s = false /\ _ws_reconnect_attempts s = 0 /\
   tokens_missing s = false) /\
  r = Running s' /\
  schedule (trace s') =
    schedule (trace s)
    ++ flat_map (fun _ => EvConnect Scenario.url :: repeat (EvSleep 1) 5)
         (seq 0 12) /\
  (claimed_delay 2 = 10 /\
   nth_error (schedule (trace s) ++ claimed_schedule Scenario.url) 12 =
     Some (EvSleep 1) /\
   nth_error (schedule (trace s')) 12 = Some (EvConnect Scenario.url)) /\
  _ws_reconnect_attempts s' = 1 /\ _ws_stop_event s' = false /\
  ws_thread s' = Some Alive /\ ws_status s' = CONNECTING.
Proof. vm_compute. repeat split. Qed.

(** C5 (instance): a market subscribe on the logged-in client. *)
Lemma subscribe_validates_and_upserts_when_logged_in_witness :
  let r :=
    subscribe_to_epic_data "BTCUSD" MARKET (Some Scenario.cb) None CLASSIC
      Scenario.logged_in in
  fst r = Return /\
  PyDict.get "/market/BTCUSD" (_ws_subscriptions (snd r)) =
    Some (SubInfo (Some Scenario.cb) "BTCUSD" MARKET None (Some CLASSIC) true) /\
  forall k, k <> "/market/BTCUSD" ->
    PyDict.get k (_ws_subscriptions (snd r)) =
    PyDict.get k (_ws_subscriptions Scenario.logged_in).
Proof.
  exact (subscribe_validates_and_upserts_when_logged_in
           "BTCUSD" MARKET (Some Scenario.cb) None CLASSIC Scenario.logged_in).
Defined.

(** C2 (instance): the open handler on a client with two streams. *)
Lemma open_resubscribes_each_active_record_witness :
  let s := Scenario.two_streams in
  let s' := _ws_on_open s in
  let active := filter is_active (_ws_subscriptions s) in
  map destination_and_payload (sent_frames (trace s')) =
    map destination_and_payload (sent_frames (trace s))
    ++ claimed_frames active /\
  resubscribe_defects (trace s') =
    resubscribe_defects (trace s)
    ++ map (fun item => sub_epic (snd item)) (filter lacks_ohlc_field active) /\
  _ws_subscriptions s' = _ws_subscriptions s /\
  ws_status s' = CONNECTED.
Proof.
  apply (open_resubscribes_each_active_record Scenario.two_streams);
    reflexivity.
Defined.

(** C3 (instance): the authentication-failure frame handled on the
    client with two streams, and a connection on which the server
    rejects the session, with nine more attempts described that never
    happen. *)
Lemma auth_failure_stops_supervisor_witness :
  (let s := Scenario.two_streams in
   let s' :=
     _ws_on_message Scenario.py_repr (Some (JObj Scenario.auth_failure)) s in
   _ws_stop_event s' = true /\
   ws_connection s' =
     match ws_connection s with Some _ => Some SockClosed | None => None end /\
   (has_connection s = true -> exists t, trace s' = trace s ++ t ++ [EvClose]) /\
   callbacks (trace s') = callbacks (trace s) /\
   schedule (trace s') = schedule (trace s)) /\
  exists s',
    _ws_run Scenario.py_repr
      (Scenario.rejected :: repeat Scenario.never_opens 9) Scenario.subscribed
      = Exited s' /\
    schedule (trace s') =
      schedule (trace Scenario.subscribed)
      ++ [EvConnect (ws_url Scenario.subscribed)] /\
    _ws_stop_event s' = true /\ _ws_reconnect_attempts s' = 0 /\
    _ws_status s' = DISCONNECTED /\ ws_connection s' = None.
Proof.
  split.
  - apply (proj1 (auth_failure_stops_supervisor Scenario.py_repr)
             Scenario.auth_failure Scenario.two_streams).
    reflexivity.
  - apply (proj2 (auth_failure_stops_supervisor Scenario.py_repr)
             Scenario.rejected (repeat Scenario.never_opens 9)
             [Message (Some (JObj Scenario.auth_failure))] false
             Scenario.subscribed).
    + reflexivity.
    + constructor. exists Scenario.auth_failure. split; reflexivity.
    + reflexivity.
    + reflexivity.
Defined.

(** C4 (instance): the EURUSD five-minute classic OHLC stream. *)
Lemma subscribe_key_is_router_key_witness :
  let fields :=
    [("epic", JStr "EURUSD"); ("resolution", JStr "MINUTE_5");
     ("type", JStr "classic")] in
  router_key Scenario.py_repr (PyDict.get "destination" Scenario.ohlc_frame)
    (JStr "EURUSD") fields Scenario.two_streams =
    (Some "/ohlc/EURUSD/MINUTE_5/classic", Scenario.two_streams) /\
  on_data_frame Scenario.py_repr Scenario.ohlc_frame Scenario.two_streams =
    Returned (dispatch "/ohlc/EURUSD/MINUTE_5/classic" (JObj fields)
                Scenario.two_streams) /\
  canonical_key "EURUSD" OHLC (Some MINUTE_5) CLASSIC =
    Some "/ohlc/EURUSD/MINUTE_5/classic".
Proof.
  apply (subscribe_key_is_router_key Scenario.py_repr "EURUSD" OHLC
           (Some MINUTE_5) CLASSIC "/ohlc/EURUSD/MINUTE_5/classic"
           "OHLCMarketData.subscribe"
           (JObj [("epics", JArr [JStr "EURUSD"]);
                  ("resolutions", JArr [JStr "MINUTE_5"]);
                  ("type", JStr "classic")])
           Scenario.ohlc_frame).
  - reflexivity.
  - repeat split; reflexivity.
Defined.

(** C6 (instance): the OHLC frame without resolution on the client with
    two streams. *)
Lemma ohlc_frame_needs_resolution_only_witness :
  let m := Scenario.ohlc_frame_without_resolution in
  let fields := [("epic", JStr "EURUSD"); ("type", JStr "classic")] in
  let s := Scenario.two_streams in
  (truthy_opt (PyDict.get "resolution" fields) = false ->
   callbacks (trace (_ws_on_message Scenario.py_repr (Some (JObj m)) s)) =
     callbacks (trace s) /\
   (truthy_opt (PyDict.get "errorCode" m) = false ->
    PyDict.contains "status" m = false ->
    _ws_on_message Scenario.py_repr (Some (JObj m)) s =
      log DEBUG (LogNoHandler (Some (JStr "ohlc.event")))
        (log WARNING (LogOhlcMissingResolution (JStr "EURUSD"))
           (log DEBUG LogReceived s)))) /\
  (forall r,
      PyDict.get "resolution" fields = Some r -> truthy r = true ->
      PyDict.get "type" fields = None ->
      router_key Scenario.py_repr (Some (JStr "ohlc.event")) (JStr "EURUSD")
        fields s =
        (Some ("/ohlc/" ++ py_str Scenario.py_repr (JStr "EURUSD") ++ "/"
                 ++ py_str Scenario.py_repr r ++ "/" ++ "classic")%string, s)).
Proof.
  apply (ohlc_frame_needs_resolution_only Scenario.py_repr
           Scenario.ohlc_frame_without_resolution
           [("epic", JStr "EURUSD"); ("type", JStr "classic")]
           (JStr "EURUSD") Scenario.two_streams);
    reflexivity.
Defined.

(** C6 (counterexample): an OHLC frame that has a resolution but no
    bar-shape field is not dropped: the router takes the bar shape to be
    ["classic"] and invokes the callback registered for that stream. *)
Lemma ohlc_frame_without_bar_shape_is_delivered :
  let s := Scenario.two_streams in
  let payload :=
    JObj [("epic", JStr "EURUSD"); ("resolution", JStr "MINUTE_5")] in
  PyDict.get "payload" Scenario.ohlc_frame_without_type = Some payload /\
  py_get "type" payload = Some None /\
  callbacks (trace
               (_ws_on_message Scenario.py_repr
                  (Some (JObj Scenario.ohlc_frame_without_type)) s)) =
    callbacks (trace s) ++ [(Scenario.cb, payload)].
Proof. vm_compute. repeat split. Qed.





(** C10 (instance): the client of the scenario after it has logged in
    and subscribed to one stream. *)
Lemma registry_records_are_always_active_witness :
  let s := Scenario.subscribed in
  all_active (_ws_subscriptions s) /\
  (forall key info,
      PyDict.get key (_ws_subscriptions s) = Some info ->
      sub_active info = true) /\
  (forall key payload info cb,
      PyDict.get key (_ws_subscriptions s) = Some info ->
      sub_callback info = Some cb ->
      callbacks (trace (dispatch key payload s)) =
        callbacks (trace s) ++ [(cb, payload)]) /\
  skipped_inactive (trace (_ws_on_open s)) = skipped_inactive (trace s).
Proof.
  apply (registry_records_are_always_active Scenario.py_repr
           Scenario.subscribed).
  exact Examples.subscribed_reachable.
Defined.

(** * Further properties: the registry under subscribe and unsubscribe *)

Module PyDictMore.
Section Facts.
Context {V : Type}.
Implicit Types (d : dict V) (k : string) (v : V).

Lemma set_set k v1 v2 d :
  PyDict.set k v2 (PyDict.set k v1 d) = PyDict.set k v2 d.
Proof.
  induction d as [|[k' v'] r IH]; simpl.
  - now rewrite String.eqb_refl.
  - destruct (String.eqb k k') eqn:E; simpl.
    + now rewrite String.eqb_refl.
    + now rewrite E, IH.
Qed.

Lemma keys_set_present k v d :
  PyDict.contains k d = true ->
  PyDict.keys (PyDict.set k v d) = PyDict.keys d.
Proof.
  unfold PyDict.contains, PyDict.keys.
  induction d as [|[k' v'] r IH]; simpl; [discriminate|].
  destruct (String.eqb_spec k k'); simpl.
  - now subst.
  - intros H. now rewrite IH.
Qed.

Lemma pop_set k v d :
  PyDict.pop k (PyDict.set k v d) = (Some v, snd (PyDict.pop k d)).
Proof.
  induction d as [|[k' v'] r IH]; simpl.
  - now rewrite String.eqb_refl.
  - destruct (String.eqb k k') eqn:E; simpl.
    + now rewrite String.eqb_refl.
    + rewrite E, IH. now destruct (PyDict.pop k r).
Qed.

End Facts.
End PyDictMore.

Lemma subscribe_keeps_session epic data_type cb resolution bar_type s :
  let s' := snd (subscribe_to_epic_data epic data_type cb resolution bar_type s) in
  cst s' = cst s /\ x_security_token s' = x_security_token s /\
  active_account_id s' = active_account_id s /\ clock s' = clock s.
Proof.
  unfold subscribe_to_epic_data.
  destruct s as [c x acc th conn subs stop att st pth pstop clk tr].
  destruct (tokens_missing _); [repeat split|].
  destruct data_type, resolution;
    unfold subscribe_target, _start_websocket_thread, send, ws_status,
      has_connection, tokens_missing; cbn; break_all; cbn; auto.
Qed.

Lemma subscribe_tokens epic data_type cb resolution bar_type s :
  tokens_missing
    (snd (subscribe_to_epic_data epic data_type cb resolution bar_type s)) =
  tokens_missing s.
Proof.
  destruct (subscribe_keeps_session epic data_type cb resolution bar_type s)
    as (H1 & H2 & _).
  now apply tokens_missing_ext.
Qed.

Lemma unsubscribe_registry epic data_type resolution bar_type key s :
  canonical_key epic data_type resolution bar_type = Some key ->
  fst (unsubscribe_from_epic_data epic data_type resolution bar_type s) = Return /\
  _ws_subscriptions
    (snd (unsubscribe_from_epic_data epic data_type resolution bar_type s)) =
  snd (PyDict.pop key (_ws_subscriptions s)).
Proof.
  intros Hk.
  destruct (unsubscribe_shape epic data_type resolution bar_type key s Hk)
    as (s1 & -> & Hreg & _).
  split; [reflexivity|]. cbn [snd].
  destruct (_ && _); rewrite ?stop_thread_registry, <- Hreg;
    destruct s1; reflexivity.
Qed.

(** X1: subscribing again to a stream replaces its record and nothing
    else: the registry after two calls for the same stream is the one a
    single call with the second callback gives, and the second call
    neither adds a key nor moves one. *)
Theorem subscribe_again_replaces_record :
  forall epic data_type cb1 cb2 resolution bar_type s,
    tokens_missing s = false ->
    let s1 := snd (subscribe_to_epic_data epic data_type cb1 resolution bar_type s) in
    let s2 := snd (subscribe_to_epic_data epic data_type cb2 resolution bar_type s1) in
    _ws_subscriptions s2 =
    _ws_subscriptions
      (snd (subscribe_to_epic_data epic data_type cb2 resolution bar_type s)) /\
    PyDict.keys (_ws_subscriptions s2) = PyDict.keys (_ws_subscriptions s1).
Proof.
  intros epic data_type cb1 cb2 resolution bar_type s Ht s1 s2.
  assert (Ht1 : tokens_missing s1 = false)
    by (subst s1; now rewrite subscribe_tokens).
  destruct (canonical_key epic data_type resolution bar_type) as [key|] eqn:Hk.
  - destruct (subscribe_registry epic data_type cb1 resolution bar_type s key Ht Hk)
      as [_ H1].
    destruct (subscribe_registry epic data_type cb2 resolution bar_type s key Ht Hk)
      as [_ H2].
    destruct (subscribe_registry epic data_type cb2 resolution bar_type s1 key Ht1 Hk)
      as [_ H12].
    fold s1 in H1. fold s2 in H12. rewrite H12, H2, H1.
    split; [apply PyDictMore.set_set|].
    apply PyDictMore.keys_set_present.
    unfold PyDict.contains. now rewrite PyDictFacts.get_set_eq.
  - assert (E : forall cb st, tokens_missing st = false ->
               snd (subscribe_to_epic_data epic data_type cb resolution bar_type st) = st).
    { intros cb st H. unfold subscribe_to_epic_data. rewrite H.
      destruct data_type, resolution; simpl in Hk; try discriminate.
      reflexivity. }
    subst s2 s1. now rewrite !E by (rewrite ?E; assumption).
Qed.

Lemma subscribe_again_replaces_record_witness :
  let s := Scenario.logged_in in
  let s1 := snd (subscribe_to_epic_data "EURUSD" MARKET (Some Scenario.cb) None
                   CLASSIC s) in
  let s2 := snd (subscribe_to_epic_data "EURUSD" MARKET None None CLASSIC s1) in
  _ws_subscriptions s2 =
  _ws_subscriptions (snd (subscribe_to_epic_data "EURUSD" MARKET None None CLASSIC s)) /\
  PyDict.keys (_ws_subscriptions s2) = PyDict.keys (_ws_subscriptions s1).
Proof.
  apply (subscribe_again_replaces_record "EURUSD" MARKET (Some Scenario.cb) None
           None CLASSIC Scenario.logged_in).
  reflexivity.
Defined.

(** X2: with both tokens present, subscribing to a stream and then
    unsubscribing from it returns and leaves the registry as it was with
    that stream's key removed; when the stream was not subscribed
    before, the registry is restored exactly. *)
Theorem subscribe_then_unsubscribe_restores_registry :
  forall epic data_type cb resolution bar_type key s,
    tokens_missing s = false ->
    canonical_key epic data_type resolution bar_type = Some key ->
    let s1 := snd (subscribe_to_epic_data epic data_type cb resolution bar_type s) in
    let r := unsubscribe_from_epic_data epic data_type resolution bar_type s1 in
    fst r = Return /\
    _ws_subscriptions (snd r) = snd (PyDict.pop key (_ws_subscriptions s)) /\
    (PyDict.get key (_ws_subscriptions s) = None ->
     _ws_subscriptions (snd r) = _ws_subscriptions s).
Proof.
  intros epic data_type cb resolution bar_type key s Ht Hk s1 r.
  destruct (subscribe_registry epic data_type cb resolution bar_type s key Ht Hk)
    as [_ H1].
  destruct (unsubscribe_registry epic data_type resolution bar_type key s1 Hk)
    as [Hr H2].
  fold s1 in H1. fold r in Hr, H2.
  assert (E : _ws_subscriptions (snd r) = snd (PyDict.pop key (_ws_subscriptions s))).
  { rewrite H2, H1, PyDictMore.pop_set. reflexivity. }
  repeat split; [assumption..|].
  intros Habs. rewrite E. now rewrite (PyDictFacts.pop_absent _ _ Habs).
Qed.

Lemma subscribe_then_unsubscribe_restores_registry_witness :
  let s := Scenario.logged_in in
  let s1 := snd (subscribe_to_epic_data "EURUSD" OHLC (Some Scenario.cb)
                   (Some MINUTE) CLASSIC s) in
  let r := unsubscribe_from_epic_data "EURUSD" OHLC (Some MINUTE) CLASSIC s1 in
  fst r = Return /\
  _ws_subscriptions (snd r) =
    snd (PyDict.pop "/ohlc/EURUSD/MINUTE/classic" (_ws_subscriptions s)) /\
  (PyDict.get "/ohlc/EURUSD/MINUTE/classic" (_ws_subscriptions s) = None ->
   _ws_subscriptions (snd r) = _ws_subscriptions s).
Proof.
  apply (subscribe_then_unsubscribe_restores_registry "EURUSD" OHLC
           (Some Scenario.cb) (Some MINUTE) CLASSIC "/ohlc/EURUSD/MINUTE/classic"
           Scenario.logged_in); reflexivity.
Defined.

(** * Further properties: what the facade writes and starts *)

Section FacadeEffects.

#[local] Arguments alive : simpl never.
#[local] Arguments str_truthy : simpl never.
#[local] Arguments control_msg : simpl never.
#[local] Arguments facade_correlation_id : simpl never.

Lemma sent_frames_log lvl m s :
  sent_frames (trace (log lvl m s)) = sent_frames (trace s).
Proof.
  destruct s. unfold log, emit. cbn.
  rewrite sent_frames_app. cbn. apply app_nil_r.
Qed.

Lemma stop_thread_sent_frames s :
  sent_frames (trace (_stop_websocket_thread s)) = sent_frames (trace s).
Proof.
  destruct s as [c x acc th conn subs stop att st pth pstop clk tr].
  unfold _stop_websocket_thread, has_connection. cbn.
  break_all; read_trace; reflexivity.
Qed.

Lemma threads_started_app a b :
  threads_started (a ++ b) = threads_started a ++ threads_started b.
Proof. apply flat_map_app. Qed.

(** X3: with both tokens present, a subscribe call writes its frame at
    once exactly when the supervisor thread is alive, the status is
    [CONNECTED] and the socket is open; the frame is then the control
    frame of the stream with the current tokens.  In every other case
    nothing is written: the record waits for the next opening. *)
Theorem subscribe_writes_frame_iff_connected :
  forall epic data_type cb resolution bar_type key dest payload s,
    tokens_missing s = false ->
    subscribe_target epic data_type resolution bar_type =
      Some (key, dest, payload) ->
    sent_frames
      (trace (snd (subscribe_to_epic_data epic data_type cb resolution
                     bar_type s))) =
    sent_frames (trace s) ++
    (if connected s
     then [control_msg dest
             (facade_correlation_id "sub" epic data_type resolution bar_type s)
             s payload]
     else []).
Proof.
  intros epic data_type cb resolution bar_type key dest payload s Ht Hk.
  unfold subscribe_to_epic_data. rewrite Ht, Hk. clear Ht Hk.
  destruct s as [c x acc th conn subs stop att st pth pstop clk tr].
  unfold _start_websocket_thread, send, ws_status, has_connection,
    tokens_missing, connected, can_write; cbn.
  destruct (alive th) eqn:Ha;
    [destruct st; [| |destruct conn as [[| |]|] |] |];
    cbn; break_all; try congruence; read_trace; reflexivity.
Qed.

Lemma subscribe_writes_frame_iff_connected_witness :
  sent_frames
    (trace (snd (subscribe_to_epic_data "EURUSD" MARKET (Some Scenario.cb) None
                   CLASSIC Scenario.idle_connected))) =
  sent_frames (trace Scenario.idle_connected) ++
  (if connected Scenario.idle_connected
   then [control_msg "marketData.subscribe"
           (facade_correlation_id "sub" "EURUSD" MARKET None CLASSIC
              Scenario.idle_connected)
           Scenario.idle_connected (JObj [("epics", JArr [JStr "EURUSD"])])]
   else []).
Proof.
  apply (subscribe_writes_frame_iff_connected "EURUSD" MARKET (Some Scenario.cb)
           None CLASSIC "/market/EURUSD");
    vm_compute; reflexivity.
Defined.

(** X4: an unsubscribe call writes a frame exactly when the stream was
    in the registry, the status is [CONNECTED], the socket is open and
    both tokens are present; otherwise the record is only removed
    locally and the server is not told. *)
Theorem unsubscribe_writes_frame_iff_registered_and_connected :
  forall epic data_type resolution bar_type key dest payload s,
    unsubscribe_target epic data_type resolution bar_type =
      Some (key, dest, payload) ->
    sent_frames
      (trace (snd (unsubscribe_from_epic_data epic data_type resolution
                     bar_type s))) =
    sent_frames (trace s) ++
    (if PyDict.contains key (_ws_subscriptions s) && can_write s
        && negb (tokens_missing s)
     then [control_msg dest
             (facade_correlation_id "unsub" epic data_type resolution bar_type s)
             s payload]
     else []).
Proof.
  intros epic data_type resolution bar_type key dest payload s Hk.
  unfold unsubscribe_from_epic_data, PyDict.contains. rewrite Hk.
  assert (Hp : fst (PyDict.pop key (_ws_subscriptions s)) =
               PyDict.get key (_ws_subscriptions s)).
  { induction (_ws_subscriptions s) as [|[k v] r IH]; simpl; [reflexivity|].
    destruct (String.eqb key k); [reflexivity|].
    destruct (PyDict.pop key r); assumption. }
  destruct (PyDict.pop key (_ws_subscriptions s)) as [popped rest].
  cbn [fst] in Hp. rewrite <- Hp. clear Hp.
  cbv zeta.
  match goal with
  | |- context [if ?b then (Return, _stop_websocket_thread ?a) else (Return, ?a')] =>
      replace (sent_frames
                 (trace (snd (if b then (Return, _stop_websocket_thread a)
                              else (Return, a')))))
        with (sent_frames (trace a'))
        by (destruct b; cbn [snd];
            rewrite ?stop_thread_sent_frames, ?sent_frames_log; reflexivity)
  end.
  clear Hk.
  destruct s as [c x acc th conn subs stop att st pth pstop clk tr].
  unfold send, ws_status, has_connection, tokens_missing, can_write; cbn.
  destruct popped;
    [destruct st; [| |destruct conn as [[| |]|], (str_truthy c), (str_truthy x) |]
    |];
    cbn; break_all; read_trace; reflexivity.
Qed.

Lemma unsubscribe_writes_frame_iff_registered_and_connected_witness :
  let s :=
    state_of_try
      (connect_phase Scenario.py_repr Scenario.opens_and_stays
         Scenario.subscribed) in
  PyDict.contains "/market/BTCUSD" (_ws_subscriptions s) && can_write s
    && negb (tokens_missing s) = true /\
  sent_frames
    (trace (snd (unsubscribe_from_epic_data "BTCUSD" MARKET None CLASSIC s))) =
  sent_frames (trace s) ++
  [control_msg "marketData.unsubscribe"
     (facade_correlation_id "unsub" "BTCUSD" MARKET None CLASSIC s)
     s (JObj [("epics", JArr [JStr "BTCUSD"])])].
Proof.
  intros s. split; [reflexivity|].
  pose proof (unsubscribe_writes_frame_iff_registered_and_connected "BTCUSD"
                MARKET None CLASSIC "/market/BTCUSD" "marketData.unsubscribe"
                (JObj [("epics", JArr [JStr "BTCUSD"])]) s eq_refl) as H.
  vm_compute in H |- *. exact H.
Defined.

(** X5: with both tokens present and valid arguments, a subscribe call
    leaves a live supervisor thread whose status is [CONNECTED] or
    [CONNECTING].  It starts a new thread, with the attempt counter and
    both stop events reset, unless a thread is alive and the status is
    [CONNECTED]: a thread that is alive but still connecting is
    replaced, not reused. *)
Theorem subscribe_leaves_live_supervisor :
  forall epic data_type cb resolution bar_type key s,
    tokens_missing s = false ->
    canonical_key epic data_type resolution bar_type = Some key ->
    let s' := snd (subscribe_to_epic_data epic data_type cb resolution bar_type s) in
    alive (ws_thread s') = true /\
    threads_started (trace s') =
      threads_started (trace s) ++
      (if alive (ws_thread s) && status_eqb (ws_status s) CONNECTED
       then [] else ["CapitalComWSThread"]) /\
    (if alive (ws_thread s) && status_eqb (ws_status s) CONNECTED
     then ws_status s' = CONNECTED /\
          _ws_reconnect_attempts s' = _ws_reconnect_attempts s /\
          _ws_stop_event s' = _ws_stop_event s
     else ws_status s' = CONNECTING /\ _ws_reconnect_attempts s' = 0 /\
          _ws_stop_event s' = false /\ _ws_ping_stop_event s' = false).
Proof.
  intros epic data_type cb resolution bar_type key s Ht Hk.
  unfold subscribe_to_epic_data. rewrite Ht.
  assert (Hs : exists dest payload,
             subscribe_target epic data_type resolution bar_type =
             Some (key, dest, payload)).
  { destruct data_type, resolution; simpl in Hk; try discriminate;
      injection Hk as <-; do 2 eexists; reflexivity. }
  destruct Hs as (dest & payload & ->). clear Ht Hk.
  destruct s as [c x acc th conn subs stop att st pth pstop clk tr].
  unfold _start_websocket_thread, send, ws_status, has_connection,
    tokens_missing.
  cbn.
  destruct (alive th) eqn:Ha; [destruct st|]; cbn; break_all;
    try congruence; rewrite ?threads_started_app; cbn; rewrite ?app_nil_r;
    repeat split; assumption.
Qed.

End FacadeEffects.

Lemma subscribe_leaves_live_supervisor_witness :
  let s := Scenario.logged_in in
  let s' := snd (subscribe_to_epic_data "EURUSD" MARKET None None CLASSIC s) in
  alive (ws_thread s') = true /\
  threads_started (trace s') =
    threads_started (trace s) ++
    (if alive (ws_thread s) && status_eqb (ws_status s) CONNECTED
     then [] else ["CapitalComWSThread"]) /\
  (if alive (ws_thread s) && status_eqb (ws_status s) CONNECTED
   then ws_status s' = CONNECTED /\
        _ws_reconnect_attempts s' = _ws_reconnect_attempts s /\
        _ws_stop_event s' = _ws_stop_event s
   else ws_status s' = CONNECTING /\ _ws_reconnect_attempts s' = 0 /\
        _ws_stop_event s' = false /\ _ws_ping_stop_event s' = false).
Proof.
  apply (subscribe_leaves_live_supervisor "EURUSD" MARKET None None CLASSIC
           "/market/EURUSD" Scenario.logged_in); reflexivity.
Defined.

(** * Further properties: inbound frames *)

Section FrameFacts.
Variable py_repr : json -> string.

Lemma extends_trace_refl s : extends_trace s [] s.
Proof. destruct s. unfold extends_trace. cbn. now rewrite app_nil_r. Qed.

Lemma extends_trace_trans s t1 s1 t2 s2 :
  extends_trace s t1 s1 -> extends_trace s1 t2 s2 ->
  extends_trace s (t1 ++ t2) s2.
Proof.
  unfold extends_trace. intros -> ->. destruct s. cbn.
  now rewrite app_assoc.
Qed.

Lemma quiet_app a b : quiet a -> quiet b -> quiet (a ++ b).
Proof. intros Ha Hb. apply Forall_app. now split. Qed.

Ltac solve_extends :=
  eexists; split;
  [ unfold extends_trace; cbn; rewrite <- ?app_assoc; reflexivity
  | repeat constructor ].

Lemma on_error_extends s :
  exists t, extends_trace s t (_ws_on_error s) /\ quiet t.
Proof. destruct s. unfold _ws_on_error. unfold_api. solve_extends. Qed.

(** Handling a frame that does not carry the authentication-failure
    code changes no attribute of the client: whatever the frame holds
    (text that does not decode, a value that is not an object, a server
    error, an acknowledgment, data for a known or an unknown stream,
    with a callback that raises or not), the handler only logs and
    calls callbacks; it writes nothing to the socket and touches
    neither registry, connection, status nor stop event. *)
Lemma frame_extends d s :
  carries_auth_failure d = false ->
  exists t, extends_trace s t (_ws_on_message py_repr d s) /\ quiet t.
Proof.
  intros Hd.
  destruct s as [c x acc th conn subs stop att st pth pstop clk tr].
  destruct d as [[| | | | |m]|]; try (unfold _ws_on_message; unfold_api; solve_extends).
  cbn in Hd.
  unfold _ws_on_message, on_error_frame. rewrite Hd.
  unfold on_control_ack, on_data_frame, router_key, dispatch,
    on_other_destination, key_truthy, py_in, py_get, py_getitem.
  cbn. break_all; unfold_api; solve_extends.
Qed.

Lemma handle_extends f s :
  benign f -> exists t, extends_trace s t (handle py_repr s f) /\ quiet t.
Proof.
  destruct f as [d|]; cbn; intros H.
  - now apply frame_extends.
  - apply on_error_extends.
Qed.

Lemma extends_trace_connection s t s' :
  extends_trace s t s' -> ws_connection s' = ws_connection s.
Proof. intros ->. now destruct s. Qed.

(** On an open connection, a list of inbound items none of which
    carries the authentication-failure code is handled to its end, one
    item after the other: no frame is dropped because an earlier one was
    malformed, reported a server error or made a callback raise, and at
    the end only the record of effects has grown, by log entries and
    callback invocations. *)
Lemma deliver_benign frames : forall s,
  Forall benign frames ->
  ws_connection s = Some SockOpen ->
  deliver py_repr frames s = fold_left (handle py_repr) frames s /\
  exists t, extends_trace s t (deliver py_repr frames s) /\ quiet t.
Proof.
  induction frames as [|f rest IH]; intros s Hall Hc.
  - split; [reflexivity|]. exists []. split; [apply extends_trace_refl|constructor].
  - inversion Hall as [|? ? Hf Hrest]; subst.
    destruct (handle_extends f s Hf) as (t1 & E1 & Q1).
    assert (Hc1 : ws_connection (handle py_repr s f) = Some SockOpen)
      by (rewrite (extends_trace_connection _ _ _ E1); exact Hc).
    destruct (IH (handle py_repr s f) Hrest Hc1) as (Hfold & t2 & E2 & Q2).
    cbn [deliver fold_left]. rewrite Hc.
    change (match f with
            | Message d => _ws_on_message py_repr d s
            | TransportError => _ws_on_error s
            end) with (handle py_repr s f).
    split; [exact Hfold|].
    exists (t1 ++ t2). split; [|now apply quiet_app].
    eapply extends_trace_trans; eassumption.
Qed.

(** X8: a frame with a truthy [errorCode] is a server error and nothing
    else: it is never dispatched to a callback, even when it also has
    the destination and payload of a subscribed stream. *)
Theorem error_frame_is_never_dispatched :
  forall m s,
    truthy_opt (PyDict.get "errorCode" m) = true ->
    let s' := _ws_on_message py_repr (Some (JObj m)) s in
    callbacks (trace s') = callbacks (trace s) /\
    sent_frames (trace s') = sent_frames (trace s) /\
    exists code,
      PyDict.get "errorCode" m = Some code /\
      In (ERROR, LogServerError code) (logged (trace s')).
Proof.
  intros m s He s'. subst s'.
  destruct (PyDict.get "errorCode" m) as [code|] eqn:Hc; [|discriminate].
  unfold _ws_on_message, on_error_frame. rewrite Hc, He.
  destruct s as [c x acc th conn subs stop att st pth pstop clk tr].
  unfold has_connection. cbn.
  break_all; read_trace; (split; [reflexivity|]); (split; [reflexivity|]);
    exists code; (split; [reflexivity|]);
    rewrite ?in_app_iff; cbn; tauto.
Qed.

End FrameFacts.

(** X6: handling a frame that does not carry the authentication-failure
    code changes no attribute of the client: whatever the frame holds
    (text that does not decode, a value that is not an object, a server
    error, an acknowledgment, data for a known or an unknown stream,
    with a callback that raises or not), the handler only logs and
    calls callbacks; it writes nothing to the socket and touches
    neither registry, connection, status nor stop event. *)
Theorem frame_without_auth_failure_only_extends_trace :
  forall py_repr d s,
    carries_auth_failure d = false ->
    exists t, extends_trace s t (_ws_on_message py_repr d s) /\ quiet t.
Proof. exact frame_extends. Qed.

Lemma frame_without_auth_failure_only_extends_trace_witness :
  exists t,
    extends_trace Scenario.two_streams t
      (_ws_on_message Scenario.py_repr (Some (JObj Scenario.ohlc_frame))
         Scenario.two_streams) /\
    quiet t.
Proof.
  apply (frame_without_auth_failure_only_extends_trace Scenario.py_repr
           (Some (JObj Scenario.ohlc_frame)) Scenario.two_streams).
  reflexivity.
Defined.

(** X7: on an open connection, a list of inbound items none of which
    carries the authentication-failure code is handled to its end, one
    item after the other: no frame is dropped because an earlier one was
    malformed, reported a server error or made a callback raise, and at
    the end only the record of effects has grown, by log entries and
    callback invocations. *)
Theorem delivery_survives_bad_frames :
  forall py_repr frames s,
    Forall benign frames ->
    ws_connection s = Some SockOpen ->
    deliver py_repr frames s = fold_left (handle py_repr) frames s /\
    exists t, extends_trace s t (deliver py_repr frames s) /\ quiet t.
Proof. intros py_repr frames s. apply deliver_benign. Qed.

Lemma delivery_survives_bad_frames_witness :
  let frames := [Message None; Message (Some (JObj Scenario.ohlc_frame));
                 TransportError; Message (Some (JArr []))] in
  deliver Scenario.py_repr frames Scenario.two_streams =
    fold_left (handle Scenario.py_repr) frames Scenario.two_streams /\
  exists t,
    extends_trace Scenario.two_streams t
      (deliver Scenario.py_repr frames Scenario.two_streams) /\
    quiet t.
Proof.
  apply (delivery_survives_bad_frames Scenario.py_repr
           [Message None; Message (Some (JObj Scenario.ohlc_frame));
            TransportError; Message (Some (JArr []))] Scenario.two_streams).
  - repeat constructor.
  - reflexivity.
Defined.

Lemma error_frame_is_never_dispatched_witness :
  let m := ("errorCode", JStr "error.invalid.epic") :: Scenario.ohlc_frame in
  let s' := _ws_on_message Scenario.py_repr (Some (JObj m)) Scenario.two_streams in
  callbacks (trace s') = callbacks (trace Scenario.two_streams) /\
  sent_frames (trace s') = sent_frames (trace Scenario.two_streams) /\
  exists code,
    PyDict.get "errorCode" m = Some code /\
    In (ERROR, LogServerError code) (logged (trace s')).
Proof.
  apply (error_frame_is_never_dispatched Scenario.py_repr
           (("errorCode", JStr "error.invalid.epic") :: Scenario.ohlc_frame)
           Scenario.two_streams).
  reflexivity.
Defined.

(** * Further properties: the reconnect loop *)

(** The wait loop when another thread sets the stop event after [k]
    completed sleeps: one more sleep is under way when the event is set,
    and the loop ends at its next test. *)
Lemma backoff_wait_interrupted k : forall fuel slept_time delay s,
  _ws_stop_event s = false ->
  slept_time + Z.of_nat k < delay ->
  (k < fuel)%nat ->
  backoff_wait fuel slept_time delay (Some k) s =
  set_stop_event true (sleeps (S k) s).
Proof.
  induction k as [|k IH]; intros fuel slept_time delay s Hs Hlt Hf;
    (destruct fuel as [|fuel]; [lia|]); cbn [backoff_wait];
    rewrite Hs; cbn [negb]; rewrite andb_true_r;
    (replace (slept_time <? delay) with true by (symmetry; apply Z.ltb_lt; lia)).
  - destruct fuel; cbn [backoff_wait].
    + destruct s. unfold sleeps. unfold_api. reflexivity.
    + replace (_ws_stop_event (set_stop_event true (sleep 1 s))) with true
        by (now destruct s).
      cbn [negb]. rewrite andb_false_r.
      destruct s. unfold sleeps. unfold_api. reflexivity.
  - rewrite IH by (rewrite ?stop_event_sleep; auto; lia).
    now rewrite <- sleeps_succ.
Qed.

(** X9: the wait before a reconnect attempt can be interrupted: when the
    stop event is set during the wait, after [k] completed one-unit
    sleeps, the loop sleeps [k + 1] units instead of the whole delay,
    leaves without another connection attempt, and does not count the
    attempt. *)
Theorem reconnect_wait_is_interruptible :
  forall k s,
    _ws_stop_event s = false ->
    0 <= _ws_reconnect_attempts s < _ws_max_reconnect_attempts ->
    Z.of_nat k < reconnect_delay (_ws_reconnect_attempts s) ->
    let r := reconnect_phase (Some k) s in
    fst r = false /\
    schedule (trace (snd r)) = schedule (trace s) ++ repeat (EvSleep 1) (S k) /\
    clock (snd r) = clock s + Z.of_nat (S k) /\
    _ws_stop_event (snd r) = true /\
    _ws_reconnect_attempts (snd r) = _ws_reconnect_attempts s.
Proof.
  intros k s Hs Ha Hk r. subst r. unfold reconnect_phase. rewrite Hs.
  replace (_ws_reconnect_attempts s <? _ws_max_reconnect_attempts) with true
    by (symmetry; apply Z.ltb_lt; lia).
  cbv zeta. rewrite backoff_wait_interrupted.
  - destruct s as [c x acc th conn subs stop att st pth pstop clk tr].
    unfold sleeps, schedule. unfold_api.
    rewrite !filter_app. cbn [filter is_timing]. cbn.
    rewrite filter_sleeps, ?app_nil_r.
    repeat split; reflexivity.
  - now destruct s.
  - lia.
  - lia.
Qed.

Lemma reconnect_wait_is_interruptible_witness :
  let r := reconnect_phase (Some 2%nat) Scenario.dropped in
  fst r = false /\
  schedule (trace (snd r)) =
    schedule (trace Scenario.dropped) ++ repeat (EvSleep 1) 3 /\
  clock (snd r) = clock Scenario.dropped + Z.of_nat 3 /\
  _ws_stop_event (snd r) = true /\
  _ws_reconnect_attempts (snd r) = _ws_reconnect_attempts Scenario.dropped.
Proof.
  apply (reconnect_wait_is_interruptible 2 Scenario.dropped);
    vm_compute; intuition congruence.
Defined.

(** Logging in touches the tokens and the account, logs and makes its
    one request, nothing else. *)
Lemma login_effect r s :
  exists c x acc t,
    snd (login r s) =
    set_trace (trace s ++ t)
      (set_active_account_id acc (set_x_security_token x (set_cst c s))) /\
    schedule t = [] /\ sent_frames t = [] /\ login_posts t = 1%nat.
Proof.
  destruct s as [c x acc th conn subs stop att st pth pstop clk tr].
  unfold login, _update_auth_tokens, clear_tokens, tokens_missing.
  destruct r as [|hc hx ok body]; cbn.
  - do 4 eexists. split; [unfold_api; rewrite <- ?app_assoc; reflexivity|].
    repeat split.
  - break_all; do 4 eexists;
      (split; [unfold_api; rewrite <- ?app_assoc; reflexivity|]);
      repeat split.
Qed.

Lemma login_result_set_trace r t s :
  fst (login r (set_trace t s)) = fst (login r s).
Proof.
  destruct s as [c x acc th conn subs stop att st pth pstop clk tr].
  unfold login, _update_auth_tokens, clear_tokens, tokens_missing.
  destruct r as [|hc hx ok body]; cbn; [reflexivity|].
  break_all; congruence.
Qed.

Lemma login_result_log r lvl m s :
  fst (login r (log lvl m s)) = fst (login r s).
Proof. unfold log, emit. apply login_result_set_trace. Qed.

Lemma login_result_set_status r st s :
  fst (login r (set_status st s)) = fst (login r s).
Proof.
  destruct s as [c x acc th conn subs stop att st0 pth pstop clk tr].
  unfold login, _update_auth_tokens, clear_tokens, tokens_missing.
  destruct r as [|hc hx ok body]; cbn; [reflexivity|].
  break_all; congruence.
Qed.

Lemma on_close_tokens s :
  cst (_ws_on_close s) = cst s /\
  x_security_token (_ws_on_close s) = x_security_token s.
Proof.
  destruct s as [c x acc th conn subs stop att st pth pstop clk tr].
  unfold _ws_on_close. cbn. break_all; split; reflexivity.
Qed.

Section LoopMore.
Variable py_repr : json -> string.

(** A connection that opens, delivers frames without the failure code
    and is closed by the peer. *)
Lemma run_forever_dropped frames s :
  Forall benign frames ->
  tokens_missing s = false ->
  exists s',
    run_forever py_repr (Opens frames true) s = RfReturned s' /\
    _ws_stop_event s' = _ws_stop_event s /\ _ws_reconnect_attempts s' = 0 /\
    _ws_status s' = DISCONNECTED /\ ws_connection s' = None /\
    cst s' = cst s /\ x_security_token s' = x_security_token s /\
    schedule (trace s') = schedule (trace s).
Proof.
  intros Hall Ht. unfold run_forever.
  set (sB := set_ws_connection (Some SockOpen) s).
  assert (HtB : tokens_missing sB = false) by (now destruct s).
  assert (HcB : ws_connection sB = Some SockOpen) by (now destruct s).
  assert (HsB : schedule (trace sB) = schedule (trace s)) by (now destruct s).
  assert (HeB : _ws_stop_event sB = _ws_stop_event s) by (now destruct s).
  assert (HkB : cst sB = cst s /\ x_security_token sB = x_security_token s)
    by (now destruct s).
  destruct (on_open_facts sB HtB) as (Oc & Ostop & Oa & _ & Osch).
  assert (HkC : cst (_ws_on_open sB) = cst sB /\
                x_security_token (_ws_on_open sB) = x_security_token sB).
  { rewrite (on_open_effect sB HtB). now destruct sB. }
  set (sC := _ws_on_open sB) in *.
  destruct (deliver_benign py_repr frames sC Hall ltac:(congruence))
    as (_ & t & Et & Qt).
  destruct (deliver_stable py_repr frames sC) as (_ & Dc & Dx & _ & Da & Dsch).
  assert (Dconn : ws_connection (deliver py_repr frames sC) = Some SockOpen)
    by (rewrite (extends_trace_connection _ _ _ Et); congruence).
  assert (Dstop : _ws_stop_event (deliver py_repr frames sC) = _ws_stop_event sC)
    by (rewrite Et; now destruct sC).
  set (sD := deliver py_repr frames sC) in *.
  destruct (on_close_facts sD) as (Cc & Cstop & Ca & Cst & Csch).
  destruct (on_close_tokens sD) as (Cx1 & Cx2).
  exists (_ws_on_close sD). rewrite Dconn.
  split; [reflexivity|]. destruct HkB, HkC.
  repeat split; congruence.
Qed.

(** X10: a connection that opens resets the backoff.  When an attempt
    opens a connection that the peer later closes, the next wait is the
    initial five units whatever the attempt counter was before (even at
    the limit), and the counter is one afterwards: only consecutive
    failures count towards the limit. *)
Theorem opened_connection_resets_backoff :
  forall a env frames s,
    a_transport a = Opens frames true ->
    a_stop_after a = None ->
    Forall benign frames ->
    tokens_missing s = false ->
    _ws_stop_event s = false ->
    exists s2,
      run_loop py_repr (a :: env) s = run_loop py_repr env s2 /\
      _ws_reconnect_attempts s2 = 1 /\
      _ws_stop_event s2 = false /\
      tokens_missing s2 = false /\
      schedule (trace s2) =
        schedule (trace s)
        ++ EvConnect (ws_url s) :: repeat (EvSleep 1) 5.
Proof.
  intros a env frames s Ha Hk Hall Ht Hs. cbn [run_loop]. rewrite Hs.
  unfold connect_phase. rewrite (get_ws_url_with_tokens _ _ Ht), Ha.
  set (sA := emit _ _).
  assert (HtA : tokens_missing sA = false) by (now destruct s).
  assert (HeA : _ws_stop_event sA = false) by (now destruct s).
  assert (HkA : cst sA = cst s /\ x_security_token sA = x_security_token s)
    by (now destruct s).
  assert (HsA : schedule (trace sA) = schedule (trace s) ++ [EvConnect (ws_url s)]).
  { destruct s. subst sA. unfold schedule, ws_url. unfold_api.
    rewrite !filter_app. cbn. now rewrite app_nil_r. }
  destruct (run_forever_dropped frames sA Hall HtA)
    as (s1 & -> & Hstop & Hatt & Hst & Hconn & Hc & Hx & Hsch).
  rewrite Hk, reconnect_phase_retry
    by (rewrite ?Hstop, ?Hatt; auto; reflexivity).
  rewrite Hatt. eexists. split; [reflexivity|].
  destruct HkA as [HcA HxA].
  assert (Ht1 : tokens_missing s1 = false)
    by (rewrite <- Ht; apply tokens_missing_ext; congruence).
  rewrite HeA in Hstop. rewrite HsA in Hsch.
  clear HsA HtA HeA sA HcA HxA Hc Hx Hconn Hst Ht Hs.
  destruct s1 as [c x acc th conn subs stop att st pth pstop clk tr].
  unfold schedule in *. cbn in Hstop, Hsch, Ht1, Hatt. subst stop att.
  unfold sleeps. unfold_api.
  repeat split; auto.
  rewrite !filter_app, Hsch. cbn [app filter is_timing].
  rewrite filter_sleeps.
  change (Z.to_nat (reconnect_delay 0)) with 5%nat.
  rewrite app_nil_r, <- app_assoc. reflexivity.
Qed.

Lemma run_loop_failed_relogin a env s :
  tokens_missing s = true ->
  _ws_stop_event s = false ->
  fst (login (a_login a) s) = Returns false ->
  exists s',
    run_loop py_repr (a :: env) s = Exited s' /\
    _ws_stop_event s' = true /\
    _ws_status s' = _ws_status s /\
    schedule (trace s') = schedule (trace s) /\
    sent_frames (trace s') = sent_frames (trace s).
Proof.
  intros Ht Hs Hl. cbn [run_loop]. rewrite Hs.
  unfold connect_phase, _get_ws_url. rewrite Ht.
  set (s0 := log WARNING LogWsTokensMissingRelogin s).
  assert (Hl0 : fst (login (a_login a) s0) = Returns false).
  { subst s0. now rewrite login_result_log. }
  destruct (login_effect (a_login a) s0) as (c & x & acc & t & E & Q & F & _).
  destruct (login (a_login a) s0) as [ok s1]. cbn [fst snd] in *. subst ok.
  eexists. split; [reflexivity|].
  subst s1 s0. destruct s as [c0 x0 acc0 th conn subs stop att st pth pstop clk tr].
  unfold schedule. unfold_api.
  rewrite !filter_app, !sent_frames_app. cbn.
  fold (schedule t). rewrite Q, F.
  rewrite !app_nil_r. repeat split.
Qed.

End LoopMore.

Lemma opened_connection_resets_backoff_witness :
  let s := set_reconnect_attempts 10 Scenario.subscribed in
  exists s2,
    run_loop Scenario.py_repr [Scenario.opens_then_drops] s =
      run_loop Scenario.py_repr [] s2 /\
    _ws_reconnect_attempts s2 = 1 /\
    _ws_stop_event s2 = false /\
    tokens_missing s2 = false /\
    schedule (trace s2) =
      schedule (trace s) ++ EvConnect (ws_url s) :: repeat (EvSleep 1) 5.
Proof.
  apply (opened_connection_resets_backoff Scenario.py_repr
           Scenario.opens_then_drops [] []
           (set_reconnect_attempts 10 Scenario.subscribed));
    try reflexivity.
  constructor.
Defined.

(** X11: when the supervisor finds a token missing and the login it
    then tries fails, it gives up at once: the stop event is set, the
    loop and the thread end with status [DISCONNECTED], and no
    connection is attempted, no wait made and no frame written. *)
Theorem failed_relogin_stops_supervisor :
  forall py_repr a env s,
    tokens_missing s = true ->
    _ws_stop_event s = false ->
    fst (login (a_login a) s) = Returns false ->
    exists s',
      _ws_run py_repr (a :: env) s = Exited s' /\
      _ws_stop_event s' = true /\
      _ws_status s' = DISCONNECTED /\
      alive (ws_thread s') = false /\
      schedule (trace s') = schedule (trace s) /\
      sent_frames (trace s') = sent_frames (trace s).
Proof.
  intros py_repr a env s Ht Hs Hl. unfold _ws_run.
  destruct (run_loop_failed_relogin py_repr a env (set_status CONNECTING s))
    as (s1 & Hrun & Hstop & Hst & Hsch & Hsent);
    try (now destruct s).
  { now rewrite login_result_set_status. }
  rewrite Hrun. eexists. split; [reflexivity|].
  destruct (run_exit_facts s1) as (E1 & E2 & E3 & E4 & E5 & E6).
  assert (Hsent' : sent_frames (trace (run_exit s1)) = sent_frames (trace s1)).
  { clear. destruct s1 as [c x acc th conn subs stop att st pth pstop clk tr].
    unfold run_exit, has_connection. cbn.
    break_all; read_trace; reflexivity. }
  replace (trace (set_status CONNECTING s)) with (trace s) in *
    by (now destruct s).
  rewrite E2, E4, E5, Hsent', Hstop, Hsch, Hsent.
  repeat split.
  apply E1. rewrite Hst. now destruct s.
Qed.

Lemma failed_relogin_stops_supervisor_witness :
  let s := init 0 in
  exists s',
    _ws_run Scenario.py_repr [Scenario.never_opens] s = Exited s' /\
    _ws_stop_event s' = true /\
    _ws_status s' = DISCONNECTED /\
    alive (ws_thread s') = false /\
    schedule (trace s') = schedule (trace s) /\
    sent_frames (trace s') = sent_frames (trace s).
Proof.
  apply (failed_relogin_stops_supervisor Scenario.py_repr Scenario.never_opens
           [] (init 0)); reflexivity.
Defined.

(** * Further properties: session tokens, stopping *)

Lemma login_tells_tokens r s :
  let res := fst (login r s) in
  let s' := snd (login r s) in
  (res = Returns false <-> tokens_missing s' = true) /\
  (res = Returns true \/ res = RaisesAttributeError <->
   tokens_missing s' = false) /\
  (res = RaisesAttributeError <->
   (exists hc hx, r = LoginResponse hc hx true BodyNotObject) /\
   tokens_missing s' = false) /\
  (match r with
   | LoginRequestFails => True
   | LoginResponse _ _ status_ok _ => status_ok = false
   end ->
   cst s' = None /\ x_security_token s' = None).
Proof.
  assert (Fin : forall (res : login_result) (missing : bool) (P Q : Prop),
             (res = Returns false /\ missing = true \/
              res = Returns true /\ missing = false /\ ~ P \/
              res = RaisesAttributeError /\ missing = false /\ P) ->
             Q ->
             (res = Returns false <-> missing = true) /\
             (res = Returns true \/ res = RaisesAttributeError <->
              missing = false) /\
             (res = RaisesAttributeError <-> P /\ missing = false) /\ Q).
  { intros res missing P Q [[-> ->]|[(-> & -> & N)|(-> & -> & H)]] HQ;
      repeat split; auto; try easy; try (intros [|]; easy);
      try (intros [? _]; contradiction). }
  destruct s as [c x acc th conn subs stop att st pth pstop clk tr].
  unfold login.
  destruct r as [|hc hx ok body].
  { apply Fin; [left; split; reflexivity|]. intros _. split; reflexivity. }
  cbv zeta.
  set (s1 := _update_auth_tokens hc hx _). clearbody s1.
  destruct s1 as [c1 x1 acc1 th1 conn1 subs1 stop1 att1 st1 pth1 pstop1 clk1 tr1].
  destruct ok; cbn [negb].
  - destruct (tokens_missing _) eqn:Ht.
    + apply Fin; [|discriminate]. left. cbn [fst snd].
      unfold tokens_missing in *. cbn in *. now rewrite Ht.
    + unfold tokens_missing in *. cbn in Ht.
      destruct body as [| |[a|]]; cbn [fst snd];
        try destruct (negb (String.eqb a "")); cbn [fst snd];
        (apply Fin; [|discriminate]).
      * left. split; reflexivity.
      * right. right. cbn. rewrite Ht. repeat split. do 2 eexists; reflexivity.
      * right. left. cbn. rewrite Ht. repeat split.
        intros (? & ? & E); discriminate E.
      * right. left. cbn. rewrite Ht. repeat split.
        intros (? & ? & E); discriminate E.
      * right. left. cbn. rewrite Ht. repeat split.
        intros (? & ? & E); discriminate E.
  - apply Fin; [left; split; reflexivity|]. intros _. split; reflexivity.
Qed.

(** X12: what [login] returns tells whether the client holds both
    tokens afterwards: it returns [False] exactly when one is missing;
    when it returns [True], and when it raises [AttributeError], both
    are held.  It raises only for an accepted status with a body that
    decodes to a truthy value that is not an object, and then exactly
    when both tokens are held.  A request that fails, or a status that
    is rejected, clears both tokens, also those held before the
    call. *)
Theorem login_reports_whether_tokens_are_held :
  forall r s,
    let res := fst (login r s) in
    let s' := snd (login r s) in
    (res = Returns false <-> tokens_missing s' = true) /\
    (res = Returns true \/ res = RaisesAttributeError <->
     tokens_missing s' = false) /\
    (res = RaisesAttributeError <->
     (exists hc hx, r = LoginResponse hc hx true BodyNotObject) /\
     tokens_missing s' = false) /\
    (match r with
     | LoginRequestFails => True
     | LoginResponse _ _ status_ok _ => status_ok = false
     end ->
     cst s' = None /\ x_security_token s' = None).
Proof. exact login_tells_tokens. Qed.

Lemma opt_str_eqb_refl o : opt_str_eqb o o = true.
Proof. destruct o; cbn; [apply String.eqb_refl|reflexivity]. Qed.

Lemma update_auth_tokens_facts new_cst new_xst s :
  let s' := _update_auth_tokens new_cst new_xst s in
  cst s' = (if str_truthy new_cst then new_cst else cst s) /\
  x_security_token s' =
    (if str_truthy new_xst then new_xst else x_security_token s) /\
  (tokens_missing s = false -> tokens_missing s' = false) /\
  _update_auth_tokens new_cst new_xst s' = s'.
Proof.
  destruct s as [c x acc th conn subs stop att st pth pstop clk tr].
  destruct (str_truthy new_cst) eqn:Tc, (str_truthy new_xst) eqn:Tx,
    (opt_str_eqb new_cst c) eqn:Ec, (opt_str_eqb new_xst x) eqn:Ex;
    unfold _update_auth_tokens, tokens_missing;
    repeat (cbn; rewrite ?Tc, ?Tx, ?Ec, ?Ex, ?opt_str_eqb_refl);
    repeat split; auto;
    try (destruct new_cst, c; cbn in Ec; try discriminate;
         apply String.eqb_eq in Ec; subst; reflexivity);
    try (destruct new_xst, x; cbn in Ex; try discriminate;
         apply String.eqb_eq in Ex; subst; reflexivity);
    try (intros H; apply orb_false_iff in H; destruct H as [H1 H2];
         rewrite ?Tc, ?Tx, ?H1, ?H2; reflexivity).
Qed.

(** X13: the token update from response headers never clears a token:
    each token becomes the header's value when that value is a
    non-empty string and stays as it was otherwise, so a client that
    holds both tokens still holds both; and applying the same headers a
    second time changes nothing, not even the log. *)
Theorem update_auth_tokens_keeps_or_replaces :
  forall new_cst new_xst s,
    let s' := _update_auth_tokens new_cst new_xst s in
    cst s' = (if str_truthy new_cst then new_cst else cst s) /\
    x_security_token s' =
      (if str_truthy new_xst then new_xst else x_security_token s) /\
    (tokens_missing s = false -> tokens_missing s' = false) /\
    _update_auth_tokens new_cst new_xst s' = s'.
Proof. exact update_auth_tokens_facts. Qed.

Lemma update_auth_tokens_keeps_or_replaces_witness :
  let s' := _update_auth_tokens (Some "NEW") None Scenario.logged_in in
  cst s' = (if str_truthy (Some "NEW") then Some "NEW"
            else cst Scenario.logged_in) /\
  x_security_token s' =
    (if str_truthy None then None else x_security_token Scenario.logged_in) /\
  (tokens_missing Scenario.logged_in = false -> tokens_missing s' = false) /\
  _update_auth_tokens (Some "NEW") None s' = s'.
Proof.
  exact (update_auth_tokens_keeps_or_replaces (Some "NEW") None
           Scenario.logged_in).
Defined.

Lemma stop_thread_state s :
  let s' := _stop_websocket_thread s in
  _ws_status s' = DISCONNECTED /\
  alive (ws_thread s') = false /\
  _ws_ping_thread s' = None.
Proof.
  destruct s as [c x acc th conn subs stop att st pth pstop clk tr].
  unfold _stop_websocket_thread, has_connection. cbn.
  destruct st, th as [[|]|]; cbn; break_all; cbn; repeat split; congruence.
Qed.

Lemma stop_thread_when_stopped s :
  _ws_status s = DISCONNECTED ->
  alive (ws_thread s) = false ->
  _ws_ping_thread s = None ->
  _stop_websocket_thread s = log INFO LogAlreadyStopped s.
Proof.
  destruct s as [c x acc th conn subs stop att st pth pstop clk tr].
  cbn. intros -> Ha ->. unfold _stop_websocket_thread. cbn.
  rewrite Ha. reflexivity.
Qed.

(** X14: stopping is idempotent.  After [_stop_websocket_thread] the
    status is [DISCONNECTED], no supervisor thread is alive and no
    keepalive thread is held; a second call finds the client stopped
    and only logs that. *)
Theorem stop_websocket_thread_is_idempotent :
  forall s,
    let s' := _stop_websocket_thread s in
    _ws_status s' = DISCONNECTED /\
    alive (ws_thread s') = false /\
    _ws_ping_thread s' = None /\
    _stop_websocket_thread s' = log INFO LogAlreadyStopped s'.
Proof.
  intros s s'. destruct (stop_thread_state s) as (H1 & H2 & H3).
  fold s' in H1, H2, H3. repeat split; auto.
  now apply stop_thread_when_stopped.
Qed.

(** * Further properties: stopping every subscription *)

Lemma stop_all_msg_ext info s s0 :
  cst s0 = cst s -> x_security_token s0 = x_security_token s ->
  clock s0 = clock s ->
  fst (stop_all_msg info s0) = fst (stop_all_msg info s).
Proof.
  destruct s, s0. cbn. intros -> -> ->.
  unfold stop_all_msg, control_msg, now_str. cbn.
  destruct (sub_data_type info); [reflexivity|].
  destruct (sub_resolution info), (sub_bar_type info); reflexivity.
Qed.

(** One iteration of the loop of [stop_all_websocket_subscriptions]:
    the record's frame is written when the socket is open. *)
Lemma stop_all_one_effect s item :
  exists t,
    stop_all_one s item = set_trace (trace s ++ t) s /\
    sent_frames t =
      match ws_connection s with
      | Some SockOpen => [fst (stop_all_msg (snd item) s)]
      | _ => []
      end.
Proof.
  destruct item as [k info].
  destruct s as [c x acc th conn subs stop att st pth pstop clk tr].
  unfold stop_all_one, stop_all_msg, send, control_msg, now_str. cbn.
  destruct (sub_data_type info);
    [|destruct (sub_resolution info), (sub_bar_type info)];
    destruct conn as [[| |]|]; unfold_api;
    eexists; (split; [rewrite <- ?app_assoc; reflexivity|reflexivity]).
Qed.

Lemma stop_all_loop_frames l : forall s,
  exists t,
    fold_left stop_all_one l s = set_trace (trace s ++ t) s /\
    sent_frames t =
      match ws_connection s with
      | Some SockOpen => map (fun item => fst (stop_all_msg (snd item) s)) l
      | _ => []
      end.
Proof.
  induction l as [|item l IH]; intros s; cbn [fold_left map].
  - exists []. split; [destruct s; cbn; now rewrite app_nil_r|].
    now destruct (ws_connection s) as [[| |]|].
  - destruct (stop_all_one_effect s item) as (t1 & E1 & F1).
    destruct (IH (stop_all_one s item)) as (t2 & E2 & F2).
    exists (t1 ++ t2). split.
    + rewrite E2, E1. destruct s. cbn. now rewrite app_assoc.
    + rewrite sent_frames_app, F1, F2, E1.
      replace (ws_connection (set_trace (trace s ++ t1) s))
        with (ws_connection s) by (now destruct s).
      destruct (ws_connection s) as [[| |]|]; try reflexivity.
      cbn [app]. f_equal. apply map_ext. intros a.
      apply stop_all_msg_ext; now destruct s.
Qed.

Section StopAll.

#[local] Arguments str_truthy : simpl never.

Lemma stop_all_facts s :
  let s' := stop_all_websocket_subscriptions s in
  _ws_subscriptions s' = [] /\
  _ws_status s' = DISCONNECTED /\
  alive (ws_thread s') = false /\
  _ws_ping_thread s' = None /\
  sent_frames (trace s') =
    sent_frames (trace s) ++
    (if can_write s && negb (tokens_missing s)
     then map (fun item => fst (stop_all_msg (snd item) s))
            (_ws_subscriptions s)
     else []).
Proof.
  intros s'. split; [apply stop_all_registry|].
  subst s'. unfold stop_all_websocket_subscriptions.
  set (s3 := _stop_websocket_thread _).
  replace (_ws_status (log INFO LogAllProcessed s3)) with (_ws_status s3)
    by (now destruct s3).
  replace (ws_thread (log INFO LogAllProcessed s3)) with (ws_thread s3)
    by (now destruct s3).
  replace (_ws_ping_thread (log INFO LogAllProcessed s3))
    with (_ws_ping_thread s3) by (now destruct s3).
  rewrite sent_frames_log.
  subst s3.
  match goal with
  | |- context [_stop_websocket_thread ?a] =>
      destruct (stop_thread_state a) as (H1 & H2 & H3);
      rewrite (stop_thread_sent_frames a)
  end.
  do 3 (split; [assumption|]). clear H1 H2 H3.
  destruct s as [c x acc th conn subs stop att st pth pstop clk tr].
  unfold ws_status, has_connection, can_write, tokens_missing. cbn.
  destruct subs as [|item subs].
  - cbn. break_all; read_trace; rewrite ?app_nil_r; reflexivity.
  - cbn -[fold_left].
    destruct st; cbn -[fold_left];
      try (unfold_api; read_trace; rewrite ?app_nil_r; reflexivity).
    destruct conn as [k|]; cbn -[fold_left];
      [|unfold_api; read_trace; rewrite ?app_nil_r; reflexivity].
    destruct (str_truthy c) eqn:Tc, (str_truthy x) eqn:Tx; cbn -[fold_left];
      try (destruct k; unfold_api; read_trace; rewrite ?app_nil_r;
           reflexivity).
    match goal with
    | |- context [fold_left stop_all_one ?l ?a] =>
        destruct (stop_all_loop_frames l a) as (t & -> & Ft)
    end.
    cbn in Ft |- *. rewrite !sent_frames_app, Ft. cbn.
    destruct k; cbn; rewrite ?app_nil_r; try reflexivity.
    f_equal. f_equal; [now apply stop_all_msg_ext|].
    apply map_ext. intros a. now apply stop_all_msg_ext.
Qed.

End StopAll.

(** X15: [stop_all_websocket_subscriptions] empties the registry and
    always stops the supervisor: afterwards the status is
    [DISCONNECTED] and no thread is alive.  When the status was
    [CONNECTED] on an open socket with both tokens present it first
    writes one unsubscribe frame per record, in registry order;
    otherwise it writes nothing and the records are dropped locally. *)
Theorem stop_all_unsubscribes_each_record_and_stops :
  forall s,
    let s' := stop_all_websocket_subscriptions s in
    _ws_subscriptions s' = [] /\
    _ws_status s' = DISCONNECTED /\
    alive (ws_thread s') = false /\
    _ws_ping_thread s' = None /\
    sent_frames (trace s') =
      sent_frames (trace s) ++
      (if can_write s && negb (tokens_missing s)
       then map (fun item => fst (stop_all_msg (snd item) s))
              (_ws_subscriptions s)
       else []).
Proof. exact stop_all_facts. Qed.

(** X16: a connection that opens while a token is missing is given up:
    the open handler sets the stop event and closes the connection
    without writing a frame and without starting the keepalive
    thread. *)
Theorem open_without_tokens_gives_up :
  forall s,
    tokens_missing s = true ->
    let s' := _ws_on_open s in
    _ws_stop_event s' = true /\
    ws_connection s' =
      match ws_connection s with Some _ => Some SockClosed | None => None end /\
    sent_frames (trace s') = sent_frames (trace s) /\
    threads_started (trace s') = threads_started (trace s) /\
    _ws_ping_thread s' = _ws_ping_thread s /\
    _ws_subscriptions s' = _ws_subscriptions s.
Proof.
  intros s Ht s'. subst s'. rewrite (on_open_without_tokens s Ht).
  destruct s as [c x acc th conn subs stop att st pth pstop clk tr].
  unfold has_connection. cbn.
  destruct conn; unfold_api;
    rewrite ?sent_frames_app, ?threads_started_app; cbn;
    rewrite ?app_nil_r; repeat split.
Qed.

Lemma open_without_tokens_gives_up_witness :
  let s := set_ws_connection (Some SockOpen) (init 0) in
  let s' := _ws_on_open s in
  _ws_stop_event s' = true /\
  ws_connection s' =
    match ws_connection s with Some _ => Some SockClosed | None => None end /\
  sent_frames (trace s') = sent_frames (trace s) /\
  threads_started (trace s') = threads_started (trace s) /\
  _ws_ping_thread s' = _ws_ping_thread s /\
  _ws_subscriptions s' = _ws_subscriptions s.
Proof.
  apply (open_without_tokens_gives_up (set_ws_connection (Some SockOpen) (init 0))).
  reflexivity.
Defined.

(** * Further properties: the keepalive thread *)

Lemma ping_msg_ext s s0 :
  cst s0 = cst s -> x_security_token s0 = x_security_token s ->
  clock s0 = clock s -> ping_msg s0 = ping_msg s.
Proof.
  destruct s, s0. cbn. intros -> -> ->. reflexivity.
Qed.

(** One tick: a ping frame when the client can write and holds both
    tokens, nothing but a note otherwise. *)
Lemma ping_tick_effect c :
  exists t,
    core (ping_tick c) = set_trace (trace (core c) ++ t) (core c) /\
    sent_frames t =
      (if can_write (core c) && negb (tokens_missing (core c))
       then [ping_msg (core c)] else []).
Proof.
  destruct c as [s j].
  destruct s as [c x acc th conn subs stop att st pth pstop clk tr].
  unfold ping_tick, can_write, tokens_missing, send, ws_status, has_connection,
    ping_msg, now_str.
  cbn.
  destruct st; cbn;
    try (exists []; cbn; rewrite app_nil_r; split; reflexivity).
  destruct conn as [[| |]|]; cbn;
    destruct (str_truthy c), (str_truthy x); cbn;
    try (exists []; cbn; rewrite app_nil_r; split; reflexivity).
  eexists. split; reflexivity.
Qed.

Lemma tick_state s k t :
  let s2 := set_trace t (set_clock k s) in
  timeless s2 = timeless s /\ clock s2 = k /\ trace s2 = t /\
  can_write s2 = can_write s /\ tokens_missing s2 = tokens_missing s /\
  can_write (set_clock k s) = can_write s /\
  tokens_missing (set_clock k s) = tokens_missing s /\
  trace (set_clock k s) = trace s /\
  (forall u, ping_at s2 u = ping_at s u).
Proof. destruct s. cbn. repeat split. Qed.

Lemma ping_loop_ticks n : forall c,
  _ws_ping_stop_event (core c) = false ->
  exists c',
    ping_loop (repeat false n) c = Ticking c' /\
    timeless (core c') = timeless (core c) /\
    clock (core c') = clock (core c) + Z.of_nat n * APP_PING_INTERVAL_SECONDS /\
    sent_frames (trace (core c')) =
      sent_frames (trace (core c)) ++
      (if can_write (core c) && negb (tokens_missing (core c))
       then map (fun i => ping_at (core c)
                            (clock (core c)
                             + (Z.of_nat i + 1) * APP_PING_INTERVAL_SECONDS))
              (seq 0 n)
       else []).
Proof.
  induction n as [|n IH]; intros c Hstop; cbn [repeat ping_loop seq map].
  - rewrite Hstop. exists c. split; [reflexivity|].
    split; [reflexivity|]. split; [lia|].
    destruct (_ && _); now rewrite app_nil_r.
  - rewrite Hstop.
    set (c1 := set_core (set_clock _ (core c)) c).
    destruct (ping_tick_effect c1) as (t & Et & Ft).
    destruct (IH (ping_tick c1)) as (c' & Hrun & Htl & Hclk & Hsent).
    { rewrite Et. subst c1. destruct c as [s j]. now destruct s. }
    exists c'. split; [exact Hrun|].
    assert (Hcore1 : core c1 =
                     set_clock (clock (core c) + APP_PING_INTERVAL_SECONDS) (core c))
      by (subst c1; now destruct c).
    rewrite Et, Hcore1 in Htl, Hclk, Hsent.
    rewrite Hcore1 in Ft. clear Et Hcore1 Hrun IH. clearbody c1.
    set (s := core c) in *. clearbody s.
    set (k := clock s + APP_PING_INTERVAL_SECONDS) in *.
    destruct (tick_state s k (trace (set_clock k s) ++ t))
      as (T1 & T2 & T3 & T4 & T5 & T6 & T7 & T8 & T9).
    cbv zeta in *.
    rewrite T1 in Htl. rewrite T2 in Hclk. rewrite T3, T4, T5, T2, T8 in Hsent.
    rewrite T6, T7 in Ft. rewrite T8 in T9.
    split; [exact Htl|].
    split; [subst k; unfold APP_PING_INTERVAL_SECONDS in *; lia|].
    rewrite Hsent, sent_frames_app, Ft.
    destruct (can_write s && negb (tokens_missing s));
      cbn [app]; rewrite ?app_nil_r; [|reflexivity].
    rewrite <- app_assoc. cbn [app]. f_equal.
    replace (ping_msg (set_clock k s)) with (ping_at s (clock s + (Z.of_nat 0 + 1) * APP_PING_INTERVAL_SECONDS))
      by (unfold ping_at; subst k; do 2 f_equal).
    f_equal.
    rewrite <- seq_shift, map_map. apply map_ext. intros i.
    rewrite T9. subst k. f_equal.
    unfold APP_PING_INTERVAL_SECONDS. lia.
Qed.

(** X17: while its stop event is clear the keepalive thread writes one
    ping frame per interval of nine minutes, carrying the current
    tokens and the time of writing, if the status is [CONNECTED], the
    socket is open and both tokens are held, and writes nothing
    otherwise; it changes nothing on the object but the clock and the
    record of effects. *)
Theorem keepalive_pings_once_per_interval :
  forall n c,
    _ws_ping_stop_event (core c) = false ->
    exists c',
      _ws_application_ping_run (repeat false n) c = Ticking c' /\
      timeless (core c') = timeless (core c) /\
      clock (core c') =
        clock (core c) + Z.of_nat n * APP_PING_INTERVAL_SECONDS /\
      sent_frames (trace (core c')) =
        sent_frames (trace (core c)) ++
        (if can_write (core c) && negb (tokens_missing (core c))
         then map (fun i => ping_at (core c)
                              (clock (core c)
                               + (Z.of_nat i + 1) * APP_PING_INTERVAL_SECONDS))
                (seq 0 n)
         else []).
Proof.
  intros n c Hstop. unfold _ws_application_ping_run.
  set (c0 := record _ c).
  assert (Hc0 : core c0 = core c) by (subst c0; now destruct c).
  destruct (ping_loop_ticks n c0) as (c' & Hrun & H); [now rewrite Hc0|].
  rewrite Hc0 in H. rewrite Hrun. exists c'. split; [reflexivity|exact H].
Qed.

Lemma keepalive_pings_once_per_interval_witness :
  let c := Client (set_ping_stop_event false Scenario.idle_connected) [] in
  exists c',
    _ws_application_ping_run (repeat false 3) c = Ticking c' /\
    timeless (core c') = timeless (core c) /\
    clock (core c') =
      clock (core c) + Z.of_nat 3 * APP_PING_INTERVAL_SECONDS /\
    sent_frames (trace (core c')) =
      sent_frames (trace (core c)) ++
      (if can_write (core c) && negb (tokens_missing (core c))
       then map (fun i => ping_at (core c)
                            (clock (core c)
                             + (Z.of_nat i + 1) * APP_PING_INTERVAL_SECONDS))
              (seq 0 3)
       else []).
Proof.
  apply (keepalive_pings_once_per_interval 3
           (Client (set_ping_stop_event false Scenario.idle_connected) [])).
  reflexivity.
Defined.

(** * Further properties: requests *)

Lemma tokens_present s :
  tokens_missing s = false ->
  str_truthy (cst s) = true /\ str_truthy (x_security_token s) = true.
Proof.
  unfold tokens_missing. intros H. apply orb_false_iff in H.
  destruct H as [H1 H2]. apply negb_false_iff in H1, H2. now split.
Qed.

Lemma login_ok_tokens r s s1 :
  login r s = (Returns true, s1) -> tokens_missing s1 = false.
Proof.
  intros E. destruct (login_tells_tokens r s) as (_ & H & _).
  rewrite E in H. cbn in H. apply H. now left.
Qed.

Lemma login_raises_body r s s1 :
  login r s = (RaisesAttributeError, s1) -> body_not_object r = true.
Proof.
  intros E. destruct (login_tells_tokens r s) as (_ & _ & H & _).
  rewrite E in H. cbn in H.
  destruct (proj1 H eq_refl) as [(hc & hx & ->) _]. reflexivity.
Qed.

Lemma streaming_side_login r s :
  streaming_side (snd (login r s)) = streaming_side s.
Proof.
  destruct (login_effect r s) as (c & x & acc & t & -> & _).
  now destruct s.
Qed.

Lemma login_posts_app a b :
  login_posts (a ++ b) = (login_posts a + login_posts b)%nat.
Proof. unfold login_posts. now rewrite filter_app, length_app. Qed.

Lemma login_posts_login r s :
  login_posts (trace (snd (login r s))) = S (login_posts (trace s)).
Proof.
  destruct (login_effect r s) as (c & x & acc & t & -> & _ & _ & H).
  destruct s. unfold login_posts in *. unfold_api.
  rewrite filter_app, length_app, H. lia.
Qed.

Lemma login_posts_update hc hx s :
  login_posts (trace (_update_auth_tokens hc hx s)) = login_posts (trace s).
Proof.
  destruct s. unfold _update_auth_tokens, login_posts. cbn.
  break_all; unfold_api; rewrite ?filter_app, ?length_app; cbn; lia.
Qed.

Lemma streaming_side_update hc hx s :
  streaming_side (_update_auth_tokens hc hx s) = streaming_side s.
Proof.
  destruct s. unfold _update_auth_tokens. cbn. break_all; reflexivity.
Qed.

Lemma update_keeps_tokens hc hx s :
  tokens_missing s = false ->
  tokens_missing (_update_auth_tokens hc hx s) = false.
Proof. apply (update_auth_tokens_facts hc hx s). Qed.

Lemma requests_app a b : requests (a ++ b) = requests a ++ requests b.
Proof. apply filter_app. Qed.

Lemma authenticated_with method endpoint params data s :
  tokens_missing s = false ->
  authenticated method endpoint params data
    (Requested method endpoint params data (Some (cst s, x_security_token s))).
Proof.
  intros H. destruct (tokens_present s H) as [H1 H2].
  exists (cst s), (x_security_token s). auto.
Qed.

Ltac unfold_method :=
  unfold catch, attempt_request, retry_after_login, response_value,
    request_failed, update_tokens_from, session_request, bind, reads, logs,
    calls, calls_login, on_object, ret, raise, auth_headers, record, set_core.

Ltac journal_requests :=
  cbn; repeat rewrite requests_app; cbn;
  repeat rewrite app_nil_r; repeat rewrite <- app_assoc; cbn.

Ltac sent_part :=
  eexists; split;
    [match goal with
     | |- _ = ?R =>
         let rhs := fresh "rhs" in
         set (rhs := R); journal_requests; subst rhs; reflexivity
     end|];
  split; [cbn; lia|];
  split; [repeat constructor; apply authenticated_with; assumption
         |cbn; try discriminate; intros _; subst; eauto 6].

Section RequestFacts.

#[local] Arguments login : simpl never.
#[local] Arguments _update_auth_tokens : simpl never.
#[local] Arguments tokens_missing : simpl never.
#[local] Arguments is_error_status : simpl never.
#[local] Arguments str_truthy : simpl never.
#[local] Arguments streaming_side : simpl never.
#[local] Arguments String.eqb : simpl never.
#[local] Arguments Z.eqb : simpl never.
#[local] Arguments login_posts : simpl never.

Lemma attempt_request_spec x method endpoint params data s j :
  tokens_missing s = false ->
  let r := catch (attempt_request x method endpoint params data true false)
             request_failed (Client s j) in
  (exists sent,
      requests (journal (snd r)) = requests j ++ sent /\
      (List.length sent <= 2)%nat /\
      Forall (authenticated method endpoint params data) sent /\
      (List.length sent = 2%nat ->
       exists hc hx t b, x_reply x = Response 401 hc hx t b)) /\
  streaming_side (core (snd r)) = streaming_side s /\
  match fst r with
  | inl e => request_raises x false e
  | inr v =>
      tokens_missing (core (snd r)) = false /\
      exists st hc hx t b,
        deciding_reply x true = Response st hc hx t b /\
        is_error_status st = false /\
        value_of endpoint st t b = Some v
  end /\
  login_posts (trace (core (snd r))) =
    (login_posts (trace s) + logins_bound x false)%nat.
Proof.
  intros Ht r. subst r.
  unfold deciding_reply, value_of, request_raises, logins_bound, unauthorized.
  unfold_method. cbn.
  destruct (x_reply x) as [|st hc hx t b] eqn:Ex; cbn.
  { split; [sent_part|]. split; [reflexivity|]. split; [eauto|lia]. }
  pose proof (update_keeps_tokens hc hx s Ht) as Ht1.
  pose proof (streaming_side_update hc hx s) as Hs1.
  pose proof (login_posts_update hc hx s) as Hp1.
  set (s1 := _update_auth_tokens hc hx s) in *. clearbody s1.
  destruct (st =? 401) eqn:E401; cbn.
  - pose proof (proj1 (Z.eqb_eq _ _) E401) as E401'.
    pose proof (streaming_side_login (x_retry_login x) s1) as Hs2.
    pose proof (login_posts_login (x_retry_login x) s1) as Hp2.
    destruct (login (x_retry_login x) s1) as [res s2] eqn:El.
    cbn in Hs2, Hp2.
    destruct res as [[|]|]; cbn.
    + pose proof (login_ok_tokens _ _ _ El) as Ht2.
      destruct (x_retry_reply x) as [|st2 hc2 hx2 t2 b2] eqn:Ex2; cbn.
      { split; [sent_part|]. split; [congruence|]. split; [eauto|lia]. }
      pose proof (update_keeps_tokens hc2 hx2 s2 Ht2) as Ht3.
      pose proof (streaming_side_update hc2 hx2 s2) as Hs3.
      pose proof (login_posts_update hc2 hx2 s2) as Hp3.
      set (s3 := _update_auth_tokens hc2 hx2 s2) in *. clearbody s3.
      destruct (is_error_status st2) eqn:Eerr; cbn.
      { split; [sent_part|]. split; [congruence|]. split; [eauto|lia]. }
      destruct (String.eqb endpoint "ping" && (st2 =? 200)) eqn:Ep; cbn.
      { split; [sent_part|]. split; [congruence|]. split; [|lia].
        split; [assumption|]. do 5 eexists; split; [reflexivity|]; split; [assumption|];
        rewrite ?Ep, ?E204, ?Et; reflexivity. }
      destruct (st2 =? 204) eqn:E204; cbn.
      { split; [sent_part|]. split; [congruence|]. split; [|lia].
        split; [assumption|]. do 5 eexists; split; [reflexivity|]; split; [assumption|];
        rewrite ?Ep, ?E204, ?Et; reflexivity. }
      destruct (negb (String.eqb t2 "")) eqn:Et; cbn.
      2:{ split; [sent_part|]. split; [congruence|]. split; [|lia].
          split; [assumption|]. do 5 eexists; split; [reflexivity|]; split; [assumption|];
        rewrite ?Ep, ?E204, ?Et; reflexivity. }
      destruct b2 as [v|]; cbn.
      * split; [sent_part|]. split; [congruence|]. split; [|lia].
        split; [assumption|]. do 5 eexists; split; [reflexivity|]; split; [assumption|];
        rewrite ?Ep, ?E204, ?Et; reflexivity.
      * split; [sent_part|]. split; [congruence|]. split; [eauto|lia].
    + split; [sent_part|]. split; [congruence|]. split; [eauto|lia].
    + pose proof (login_raises_body _ _ _ El) as Hb.
      split; [sent_part|]. split; [congruence|]. split; [|lia].
      right. split; [reflexivity|]. right. split; [reflexivity|exact Hb].
  - destruct (is_error_status st) eqn:Eerr; cbn.
    { split; [sent_part|]. split; [congruence|]. split; [eauto|lia]. }
    destruct (String.eqb endpoint "ping" && (st =? 200)) eqn:Ep; cbn.
    { split; [sent_part|]. split; [congruence|]. split; [|lia].
      split; [assumption|]. do 5 eexists; split; [reflexivity|]; split; [assumption|];
        rewrite ?Ep, ?E204, ?Et; reflexivity. }
    destruct (st =? 204) eqn:E204; cbn.
    { split; [sent_part|]. split; [congruence|]. split; [|lia].
      split; [assumption|]. do 5 eexists; split; [reflexivity|]; split; [assumption|];
        rewrite ?Ep, ?E204, ?Et; reflexivity. }
    destruct (negb (String.eqb t "")) eqn:Et; cbn.
    2:{ split; [sent_part|]. split; [congruence|]. split; [|lia].
        split; [assumption|]. do 5 eexists; split; [reflexivity|]; split; [assumption|];
        rewrite ?Ep, ?E204, ?Et; reflexivity. }
    destruct b as [v|]; cbn.
    + split; [sent_part|]. split; [congruence|]. split; [|lia].
      split; [assumption|]. do 5 eexists; split; [reflexivity|]; split; [assumption|];
        rewrite ?Ep, ?E204, ?Et; reflexivity.
    + split; [sent_part|]. split; [congruence|]. split; [eauto|lia].
Qed.

Lemma request_spec x method endpoint params data c :
  let r := _request x method endpoint params data true false c in
  (exists sent,
      requests (journal (snd r)) = requests (journal c) ++ sent /\
      (List.length sent <= 2)%nat /\
      Forall (authenticated method endpoint params data) sent /\
      (List.length sent = 2%nat ->
       exists hc hx t b, x_reply x = Response 401 hc hx t b)) /\
  streaming_side (core (snd r)) = streaming_side (core c) /\
  match fst r with
  | inl e => request_raises x (tokens_missing (core c)) e
  | inr v =>
      tokens_missing (core (snd r)) = false /\
      exists st hc hx t b,
        deciding_reply x true = Response st hc hx t b /\
        is_error_status st = false /\
        value_of endpoint st t b = Some v
  end /\
  exists logins,
    login_posts (trace (core (snd r))) =
      (login_posts (trace (core c)) + logins)%nat /\
    (logins <= logins_bound x (tokens_missing (core c)))%nat.
Proof.
  destruct c as [s j]. cbn [core journal].
  unfold _request, ensure_tokens.
  unfold bind, reads, logs, calls_login, ret, raise, record, set_core.
  cbn -[catch attempt_request request_failed].
  destruct (tokens_missing s) eqn:Ht;
    cbn -[catch attempt_request request_failed].
  - pose proof (streaming_side_login (x_relogin x) s) as Hs0.
    pose proof (login_posts_login (x_relogin x) s) as Hp0.
    destruct (login (x_relogin x) s) as [res s0] eqn:El. cbn in Hs0, Hp0.
    destruct res as [[|]|]; cbn -[catch attempt_request request_failed].
    + pose proof (login_ok_tokens _ _ _ El) as Ht0.
      destruct (attempt_request_spec x method endpoint params data s0
                  (j ++ [Logged WARNING (NoteTokensMissingRelogin endpoint)])
                  Ht0) as ((sent & Hj & Hrest) & Hside & Hres & Hp).
      split; [|split; [congruence|split]].
      * exists sent. split; [|exact Hrest].
        rewrite Hj, requests_app. cbn. now rewrite app_nil_r.
      * destruct (fst _) as [e|v]; [|exact Hres].
        destruct Hres as [Hres|(He & [[Hm _]|Hu])];
          [left; exact Hres|discriminate Hm|].
        right. split; [exact He|right; exact Hu].
      * eexists. split; [rewrite Hp, Hp0; unfold logins_bound; cbn;
                         rewrite <- Nat.add_1_l, Nat.add_assoc,
                           (Nat.add_comm 1), <- Nat.add_assoc; reflexivity|].
        unfold logins_bound. cbn. lia.
    + split; [|split; [congruence|split; [left; eauto|]]].
      * exists []. rewrite requests_app. cbn. rewrite !app_nil_r.
        repeat split; [lia|constructor|discriminate].
      * exists 1%nat. split; [lia|]. unfold logins_bound. cbn. lia.
    + pose proof (login_raises_body _ _ _ El) as Hb.
      split; [|split; [congruence|split]].
      * exists []. rewrite requests_app. cbn. rewrite !app_nil_r.
        repeat split; [lia|constructor|discriminate].
      * right. split; [reflexivity|]. left. split; [reflexivity|exact Hb].
      * exists 1%nat. split; [lia|]. unfold logins_bound. cbn. lia.
  - destruct (attempt_request_spec x method endpoint params data s j Ht)
      as (H1 & H2 & H3 & H4).
    repeat (split; [assumption|]).
    eexists. split; [exact H4|]. apply le_n.
Qed.

(** A request without the token headers: one request is sent, the
    object is touched only when the endpoint is [session], and the
    reply decides the outcome. *)
Lemma request_plain_spec x method endpoint params data c :
  let r := _request x method endpoint params data false false c in
  requests (journal (snd r)) =
    requests (journal c) ++ [Requested method endpoint params data None] /\
  streaming_side (core (snd r)) = streaming_side (core c) /\
  (String.eqb endpoint "session" = false -> core (snd r) = core c) /\
  fst r =
    match x_reply x with
    | RequestFails => inl (CapitalComAPIError None)
    | Response st _ _ t b =>
        if is_error_status st then inl (CapitalComAPIError None)
        else match value_of endpoint st t b with
             | Some v => inr v
             | None => inl (CapitalComAPIError (Some st))
             end
    end.
Proof.
  destruct c as [s j]. unfold value_of.
  unfold _request. unfold_method. cbn.
  destruct (x_reply x) as [|st hc hx t b] eqn:Ex; cbn.
  { journal_requests. repeat split; eauto. }
  assert (Hside : streaming_side
                    (if String.eqb endpoint "session"
                     then _update_auth_tokens hc hx s else s) =
                  streaming_side s)
    by (destruct (String.eqb endpoint "session");
        rewrite ?streaming_side_update; reflexivity).
  rewrite andb_false_r. cbn.
  destruct (String.eqb endpoint "session") eqn:Es; cbn;
    destruct (is_error_status st) eqn:Eerr; cbn;
    try (journal_requests; repeat split; auto; discriminate);
    destruct (String.eqb endpoint "ping" && (st =? 200)) eqn:Ep; cbn;
    try (journal_requests; repeat split; auto; discriminate);
    destruct (st =? 204) eqn:E204; cbn;
    try (journal_requests; repeat split; auto; discriminate);
    destruct (negb (String.eqb t "")) eqn:Et; cbn;
    try (journal_requests; repeat split; auto; discriminate);
    destruct b as [v|]; cbn;
    journal_requests; repeat split; auto; discriminate.
Qed.

(** With both tokens held and a first reply other than 401, that reply
    decides the outcome. *)
Lemma request_first_reply x method endpoint params data c st hc hx t b :
  tokens_missing (core c) = false ->
  x_reply x = Response st hc hx t b ->
  (st =? 401) = false ->
  fst (_request x method endpoint params data true false c) =
    if is_error_status st then inl (CapitalComAPIError None)
    else match value_of endpoint st t b with
         | Some v => inr v
         | None => inl (CapitalComAPIError (Some st))
         end.
Proof.
  intros Ht Ex E401. destruct c as [s j]. cbn [core] in Ht.
  unfold value_of, _request, ensure_tokens. unfold_method. cbn.
  rewrite Ht, Ex. cbn. rewrite E401. cbn.
  destruct (is_error_status st); cbn; [reflexivity|].
  destruct (String.eqb endpoint "ping" && (st =? 200)); cbn; [reflexivity|].
  destruct (st =? 204); cbn; [reflexivity|].
  destruct (negb (String.eqb t "")); cbn; [|reflexivity].
  destruct b; reflexivity.
Qed.

End RequestFacts.

(** X18: a call of [_request] that adds the token headers never sends
    its request without them: every request it sends itself carries
    both tokens, non-empty.  It sends at most two, and a second one only
    after the first was answered with status 401.  The only other
    requests that go out during the call are those of the logins it
    makes, [POST session] without tokens: at most one when a token is
    missing at the start and one after a status 401, so at most four
    requests in all. *)
Theorem authenticated_request_carries_tokens :
  forall x method endpoint params data c,
    let r := _request x method endpoint params data true false c in
    exists sent logins,
      requests (journal (snd r)) = requests (journal c) ++ sent /\
      (List.length sent <= 2)%nat /\
      Forall (authenticated method endpoint params data) sent /\
      (List.length sent = 2%nat ->
       exists hc hx t b, x_reply x = Response 401 hc hx t b) /\
      login_posts (trace (core (snd r))) =
        (login_posts (trace (core c)) + logins)%nat /\
      (logins <= logins_bound x (tokens_missing (core c)))%nat /\
      (logins_bound x (tokens_missing (core c)) <= 2)%nat.
Proof.
  intros x method endpoint params data c.
  destruct (request_spec x method endpoint params data c)
    as ((sent & H1 & H2 & H3 & H4) & _ & _ & (logins & H5 & H6)).
  exists sent, logins. repeat (split; [assumption|]).
  unfold logins_bound. destruct (tokens_missing _), (unauthorized _); cbn; lia.
Qed.

(** X19: a call of [_request] that adds the token headers raises
    nothing but [CapitalComAPIError] and the [AttributeError] of a
    login made inside it (before the request when a token is missing,
    or after a status 401; the reply to that login then has an accepted
    status and a body that is a truthy value but not an object).  It
    returns a value only for a reply whose status is outside 400..599:
    the reply to the repeated request when the first status was 401,
    the first reply otherwise.  The value is then the text (for [ping]
    with status 200), [None] (status 204 or an empty body) or the
    decoded body, and the client holds both tokens. *)
Theorem request_returns_only_for_good_status :
  forall x method endpoint params data c,
    let r := _request x method endpoint params data true false c in
    match fst r with
    | inl e => request_raises x (tokens_missing (core c)) e
    | inr v =>
        tokens_missing (core (snd r)) = false /\
        exists st hc hx t b,
          deciding_reply x true = Response st hc hx t b /\
          is_error_status st = false /\
          value_of endpoint st t b = Some v
    end.
Proof.
  intros x method endpoint params data c.
  apply (request_spec x method endpoint params data c).
Qed.

(** X20: a REST request never touches the streaming side: registry,
    threads, connection, status, stop events, attempt counter and clock
    are as before, with or without token headers; without them, and for
    an endpoint other than [session], the object is not touched at
    all. *)
Theorem request_leaves_streaming_side_alone :
  forall x method endpoint params data add_auth_headers c,
    let r := _request x method endpoint params data add_auth_headers false c in
    streaming_side (core (snd r)) = streaming_side (core c) /\
    (add_auth_headers = false -> String.eqb endpoint "session" = false ->
     core (snd r) = core c).
Proof.
  intros x method endpoint params data [|] c r; subst r.
  - split; [|discriminate].
    apply (request_spec x method endpoint params data c).
  - destruct (request_plain_spec x method endpoint params data c)
      as (_ & H1 & H2 & _).
    split; [exact H1|]. intros _. exact H2.
Qed.

(** * Further properties: session methods *)

Lemma streaming_side_fields s s' :
  streaming_side s' = streaming_side s ->
  ws_thread s' = ws_thread s /\
  ws_connection s' = ws_connection s /\
  _ws_subscriptions s' = _ws_subscriptions s /\
  _ws_status s' = _ws_status s.
Proof.
  destruct s, s'. unfold streaming_side, clear_session. cbn.
  intros [= -> -> -> -> -> -> -> -> ->]. repeat split.
Qed.

Ltac unfold_session :=
  unfold stop_streams_if_alive, run_unit, finally, catch, bind, reads, logs,
    on_object, ret, raise, record, set_core.

Lemma stop_streams_if_alive_facts n c :
  let c' := snd (stop_streams_if_alive n c) in
  fst (stop_streams_if_alive n c) = inr tt /\
  alive (ws_thread (core c')) = false /\
  _ws_subscriptions (core c') =
    (if alive (ws_thread (core c)) then [] else _ws_subscriptions (core c)) /\
  requests (journal c') = requests (journal c).
Proof.
  destruct c as [s j]. unfold_session. cbn -[stop_all_websocket_subscriptions].
  destruct (alive (ws_thread s)) eqn:Ha; cbn -[stop_all_websocket_subscriptions].
  - destruct (stop_all_facts s) as (H1 & _ & H3 & _).
    rewrite requests_app. cbn. rewrite app_nil_r. auto.
  - auto.
Qed.

Lemma clear_session_facts s :
  cst (clear_session s) = None /\
  x_security_token (clear_session s) = None /\
  active_account_id (clear_session s) = None /\
  ws_thread (clear_session s) = ws_thread s /\
  _ws_subscriptions (clear_session s) = _ws_subscriptions s.
Proof. destruct s. cbn. repeat split. Qed.

Section SessionFacts.

#[local] Arguments login : simpl never.
#[local] Arguments _update_auth_tokens : simpl never.
#[local] Arguments tokens_missing : simpl never.
#[local] Arguments is_error_status : simpl never.
#[local] Arguments str_truthy : simpl never.
#[local] Arguments streaming_side : simpl never.
#[local] Arguments String.eqb : simpl never.
#[local] Arguments Z.eqb : simpl never.
#[local] Arguments _request : simpl never.

(** X21: [logout] always clears the session: whatever the server
    answers to the logout request, and also when the call raises, both
    tokens and the active account are [None] afterwards and no
    supervisor thread is alive.  It returns [True]; the one exception
    is the [AttributeError] of the login made after a status 401 on the
    logout request, which the call lets through after the clean-up.
    The registry is emptied only if a supervisor thread was alive;
    otherwise its records stay. *)
Theorem logout_always_clears_session :
  forall x c,
    let r := logout x c in
    (fst r = inr true \/
     fst r = inl AttributeError /\
     tokens_missing (core c) = false /\
     unauthorized (x_reply x) = true /\
     body_not_object (x_retry_login x) = true) /\
    cst (core (snd r)) = None /\
    x_security_token (core (snd r)) = None /\
    active_account_id (core (snd r)) = None /\
    alive (ws_thread (core (snd r))) = false /\
    _ws_subscriptions (core (snd r)) =
      (if alive (ws_thread (core c)) then []
       else _ws_subscriptions (core c)).
Proof.
  intros x c r. subst r.
  destruct (logout x c) as [res c'] eqn:E. cbn [fst snd]. revert E.
  unfold logout, finally, catch, run_unit, bind, reads, logs, on_object, ret,
    raise, record, set_core.
  destruct c as [s j]. cbn -[stop_streams_if_alive _request clear_session].
  destruct (tokens_missing s) eqn:Ht;
    cbn -[stop_streams_if_alive _request clear_session].
  - match goal with
    | |- context [stop_streams_if_alive ?n ?c1] =>
        destruct (stop_streams_if_alive_facts n c1) as (Hret & Ha & Hreg & _);
        destruct (stop_streams_if_alive n c1) as [res2 [s2 j2]]
    end.
    cbn [fst snd core] in *. subst res2.
    cbn -[clear_session]. intros [= <- <-]. cbn [core].
    destruct (clear_session_facts s2) as (C1 & C2 & C3 & C4 & C5).
    rewrite C1, C2, C3, C4, C5. split; [now left|].
    repeat split; assumption.
  - match goal with
    | |- context [_request x "DELETE" "session" None None true false ?c1] =>
        destruct (request_spec x "DELETE" "session" None None c1)
          as (_ & Hside & Hres & _);
        destruct (_request x "DELETE" "session" None None true false c1)
          as [res2 [s2 j2]]
    end.
    cbn [fst snd core] in Hside, Hres. rewrite Ht in Hres.
    destruct (streaming_side_fields _ _ Hside) as (Hth & _ & Hsubs & _).
    assert (Hwhy :
      match res2 with
      | inl AttributeError =>
          unauthorized (x_reply x) = true /\
          body_not_object (x_retry_login x) = true
      | inl (CapitalComAPIError _) | inr _ => True
      | inl _ => False
      end).
    { destruct res2 as [e|v]; [|exact I].
      destruct Hres as [[st ->]|(-> & [[Hm _]|Hu])];
        [exact I|discriminate Hm|exact Hu]. }
    clear Hres.
    destruct res2 as [[| | | |]|v]; try contradiction;
      cbn -[stop_streams_if_alive clear_session];
      match goal with
      | |- context [stop_streams_if_alive ?n ?c1] =>
          destruct (stop_streams_if_alive_facts n c1) as (Hret & Ha & Hreg & _);
          destruct (stop_streams_if_alive n c1) as [res4 [s4 j4]]
      end;
      cbn [fst snd core] in *; subst res4;
      cbn -[clear_session]; intros [= <- <-]; cbn [core];
      destruct (clear_session_facts s4) as (C1 & C2 & C3 & C4 & C5);
      rewrite C1, C2, C3, C4, C5, Hreg, Hth, Hsubs;
      (split; [first [left; reflexivity
                     |right; destruct Hwhy; repeat split; assumption]|]);
      repeat split; assumption.
Qed.

End SessionFacts.

(** * Further properties: connectivity check, account switch, queries *)

Lemma stop_thread_account s :
  active_account_id (_stop_websocket_thread s) = active_account_id s.
Proof.
  destruct s. unfold _stop_websocket_thread, has_connection. cbn.
  break_all; reflexivity.
Qed.

Lemma stop_all_account s :
  active_account_id (stop_all_websocket_subscriptions s) = active_account_id s.
Proof.
  unfold stop_all_websocket_subscriptions.
  set (s2 := _stop_websocket_thread _).
  assert (H : active_account_id s2 = active_account_id s); [|now destruct s2].
  subst s2. rewrite stop_thread_account.
  destruct s as [c x acc th conn subs stop att st pth pstop clk tr].
  unfold ws_status, has_connection. cbn -[fold_left].
  assert (Hone : forall s0 item,
             active_account_id (stop_all_one s0 item) = active_account_id s0).
  { intros s0 item. destruct (stop_all_one_effect s0 item) as (t0 & -> & _).
    now destruct s0. }
  assert (Hfold : forall l s0,
             active_account_id (fold_left stop_all_one l s0)
             = active_account_id s0).
  { induction l as [|item l IH]; intros s0; [reflexivity|].
    cbn [fold_left]. now rewrite IH, Hone. }
  destruct subs; cbn -[fold_left]; break_all; rewrite ?Hfold, ?Hone;
    reflexivity.
Qed.

Section MethodFacts.

#[local] Arguments login : simpl never.
#[local] Arguments _update_auth_tokens : simpl never.
#[local] Arguments tokens_missing : simpl never.
#[local] Arguments is_error_status : simpl never.
#[local] Arguments str_truthy : simpl never.
#[local] Arguments streaming_side : simpl never.
#[local] Arguments String.eqb : simpl never.
#[local] Arguments Z.eqb : simpl never.
#[local] Arguments _request : simpl never.
#[local] Arguments value_of : simpl never.
#[local] Arguments result_eq_str : simpl never.

(** X22: [ping_server] never raises and never touches the object, not
    even its tokens: it sends one request without token headers and
    returns [True] exactly when the reply counts as a pong, [False] for
    every other reply and when the request fails. *)
Theorem ping_server_only_reports :
  forall x c,
    let r := ping_server x c in
    fst r = inr (pong (x_reply x)) /\
    core (snd r) = core c /\
    requests (journal (snd r)) =
      requests (journal c) ++ [Requested "GET" "ping" None None None].
Proof.
  intros x c r. subst r.
  destruct (ping_server x c) as [res c'] eqn:E. cbn [fst snd]. revert E.
  unfold ping_server, catch, bind, logs, ret, raise, record.
  destruct c as [s j]. cbn.
  match goal with
  | |- context [_request x "GET" "ping" None None false false ?c1] =>
      destruct (request_plain_spec x "GET" "ping" None None c1)
        as (Hj & _ & Hcore & Hres);
      destruct (_request x "GET" "ping" None None false false c1)
        as [res2 [s2 j2]]
  end.
  cbn [fst snd core journal] in *.
  specialize (Hcore eq_refl).
  rewrite requests_app in Hj. cbn in Hj. rewrite app_nil_r in Hj.
  unfold pong.
  subst s2 res2.
  destruct (x_reply x) as [|st hc hx t b]; cbn.
  { intros [= <- <-]. cbn. rewrite requests_app, Hj. cbn.
    rewrite app_nil_r. repeat split. }
  destruct (is_error_status st); cbn.
  { intros [= <- <-]. cbn. rewrite requests_app, Hj. cbn.
    rewrite app_nil_r. repeat split. }
  destruct (value_of "ping" st t b) as [v|]; cbn.
  - destruct (result_eq_str v "pong"); cbn; intros [= <- <-]; cbn;
      rewrite requests_app, Hj; cbn; rewrite app_nil_r; repeat split.
  - intros [= <- <-]. cbn. rewrite requests_app, Hj. cbn.
    rewrite app_nil_r. repeat split.
Qed.

(** X23: [switch_account] reports success only after the server has
    confirmed the switch: when it returns [True], the reply that
    decided the [GET session] request had a status outside 400..599
    and a body that is an object whose [accountId] is the requested
    account; the active account is then that account and the registry
    is empty (its records, if any, were dropped and the supervisor
    stopped). *)
Theorem switch_account_confirms_before_switching :
  forall x_put x_get account_id c,
    let r := switch_account x_put x_get account_id c in
    fst r = inr true ->
    active_account_id (core (snd r)) = Some account_id /\
    _ws_subscriptions (core (snd r)) = [] /\
    exists st hc hx t b o,
      deciding_reply x_get true = Response st hc hx t b /\
      is_error_status st = false /\
      value_of "session" st t b = Some (RJson (JObj o)) /\
      PyDict.get "accountId" o = Some (JStr account_id).
Proof.
  intros x_put x_get account_id c r. subst r.
  destruct (switch_account x_put x_get account_id c) as [res c'] eqn:E.
  cbn [fst snd]. revert E.
  unfold switch_account, result_get, catch, bind, reads, logs, on_object, ret,
    raise, record, set_core.
  destruct c as [s j].
  cbn -[stop_all_websocket_subscriptions].
  match goal with
  | |- context [_request x_put ?m ?e ?p ?d true false ?c1] =>
      destruct (_request x_put m e p d true false c1) as [res1 [s1 j1]]
  end.
  destruct res1 as [e1|v1]; cbn -[stop_all_websocket_subscriptions].
  { destruct e1; cbn; intros [= <- <-]; discriminate. }
  match goal with
  | |- context [_request x_get ?m ?e ?p ?d true false ?c1] =>
      destruct (request_spec x_get m e p d c1) as (_ & _ & Hres & _);
      destruct (_request x_get m e p d true false c1) as [res2 [s2 j2]]
  end.
  cbn [fst snd core] in Hres.
  destruct res2 as [e2|v2]; cbn -[stop_all_websocket_subscriptions].
  { destruct e2; cbn; intros [= <- <-]; discriminate. }
  destruct Hres as (_ & st & hc & hx & t & b & Hd & Herr & Hv).
  destruct (result_truthy v2); cbn -[stop_all_websocket_subscriptions];
    [|intros [= <- <-]; discriminate].
  destruct v2 as [txt| |[|?|?|?|?|o]];
    cbn -[stop_all_websocket_subscriptions];
    try (intros [= <- <-]; discriminate).
  destruct (opt_eq_str (PyDict.get "accountId" o) account_id) eqn:Eid;
    cbn -[stop_all_websocket_subscriptions];
    [|intros [= <- <-]; discriminate].
  assert (Hid : PyDict.get "accountId" o = Some (JStr account_id)).
  { destruct (PyDict.get "accountId" o) as [[|?|?|a|?|?]|]; try discriminate.
    cbn in Eid. unfold eq_str in Eid. apply String.eqb_eq in Eid. now subst. }
  assert (Hacc : active_account_id (set_active_account_id (Some account_id) s2)
                 = Some account_id) by (now destruct s2).
  set (s3 := set_active_account_id (Some account_id) s2) in *. clearbody s3.
  destruct (PyDict.nonempty (_ws_subscriptions s3)) eqn:Ene;
    cbn -[stop_all_websocket_subscriptions];
    intros [= <- <-] _; cbn -[stop_all_websocket_subscriptions].
  - split.
    + now rewrite stop_all_account.
    + split; [apply stop_all_registry|]. do 6 eexists. eauto.
  - split; [exact Hacc|]. split.
    + destruct (_ws_subscriptions s3); [reflexivity|discriminate].
    + do 6 eexists. eauto.
Qed.

(** X24: [set_account_preferences] returns a boolean or lets through
    the [AttributeError] of a login made inside its request (before it
    when a token is missing, or after a status 401); it raises nothing
    else.  Called with no argument it returns [False] without sending
    anything; when it returns [True], the reply that decided its
    request had a status outside 400..599. *)
Theorem set_account_preferences_needs_an_argument :
  forall x hedging_enabled leverages c,
    let r := set_account_preferences x hedging_enabled leverages c in
    ((exists b, fst r = inr b) \/
     fst r = inl AttributeError /\
     (tokens_missing (core c) = true /\
      body_not_object (x_relogin x) = true \/
      unauthorized (x_reply x) = true /\
      body_not_object (x_retry_login x) = true)) /\
    (hedging_enabled = None -> leverages = None ->
     r = (inr false, record (Logged WARNING NoteNoPreferences) c)) /\
    (fst r = inr true ->
     exists st hc hx t b,
       deciding_reply x true = Response st hc hx t b /\
       is_error_status st = false).
Proof.
  intros x h l c r. subst r.
  unfold set_account_preferences.
  destruct (negb (PyDict.nonempty (preferences_payload h l))) eqn:Ep.
  - unfold bind, logs, ret. cbn. split; [eauto|]. split; [auto|discriminate].
  - split; [|split].
    + unfold catch, bind, logs, ret, raise.
      match goal with
      | |- context [_request x ?m ?e ?p ?d true false ?c1] =>
          destruct (request_spec x m e p d c1) as (_ & _ & Hres & _);
          destruct (_request x m e p d true false c1) as [res c2]
      end.
      replace (core (record (Logged INFO NoteSettingPreferences) c))
        with (core c) in Hres by (now destruct c).
      cbn [fst snd] in *. destruct res as [e|v]; [|cbn; eauto].
      destruct Hres as [[st ->]|(-> & Hwhy)]; cbn; [eauto|].
      right. split; [reflexivity|exact Hwhy].
    + intros -> ->. discriminate.
    + unfold catch, bind, logs, ret, raise.
      match goal with
      | |- context [_request x ?m ?e ?p ?d true false ?c1] =>
          destruct (request_spec x m e p d c1) as (_ & _ & Hres & _);
          destruct (_request x m e p d true false c1) as [res c2]
      end.
      cbn [fst snd] in *.
      destruct res as [e|v];
        [destruct Hres as [[st ->]|(-> & _)]; cbn; discriminate|].
      cbn. intros _. destruct Hres as (_ & st & hc & hx & t & b & Hd & Herr & _).
      eauto 8.
Qed.

(** X25: [get_market_details] raises [ValueError], before anything is
    sent, exactly when it is given both a non-empty [epic] and a
    non-empty list of [epics].  Otherwise every request it sends is a
    [GET] that carries both tokens: to [markets/<epic>] for an [epic],
    to [markets] with the joined list for a non-empty list, to
    [markets] without parameters in every other case (so the fallback
    for an empty list inside the list branch is never taken). *)
Theorem market_details_rejects_both_arguments :
  forall x epic epics c,
    let r := get_market_details x epic epics c in
    (str_truthy epic && list_truthy epics = true -> r = (inl ValueError, c)) /\
    (str_truthy epic && list_truthy epics = false ->
     fst r <> inl ValueError /\
     exists sent,
       requests (journal (snd r)) = requests (journal c) ++ sent /\
       Forall (authenticated "GET" (fst (market_query epic epics))
                 (snd (market_query epic epics)) None) sent).
Proof.
  intros x epic epics c r. subst r. unfold get_market_details, market_query.
  destruct (str_truthy epic && list_truthy epics) eqn:Eb.
  { split; [reflexivity|discriminate]. }
  split; [discriminate|]. intros _.
  assert (Hreq : forall e p n,
            let r := bind (logs INFO n)
                       (fun _ => _request x "GET" e p None true false) c in
            fst r <> inl ValueError /\
            exists sent,
              requests (journal (snd r)) = requests (journal c) ++ sent /\
              Forall (authenticated "GET" e p None) sent).
  { intros e p n. unfold bind, logs.
    match goal with
    | |- context [_request x ?m ?e ?p ?d true false ?c1] =>
        destruct (request_spec x m e p d c1)
          as ((sent & Hj & _ & Hall & _) & _ & Hres & _);
        destruct (_request x m e p d true false c1) as [res c2]
    end.
    cbn [fst snd] in *. split.
    - destruct res as [e0|v];
        [destruct Hres as [[st ->]|(-> & _)]|]; discriminate.
    - exists sent. split; [|exact Hall].
      rewrite Hj. destruct c. cbn. rewrite requests_app. cbn.
      now rewrite app_nil_r. }
  unfold str_truthy in *.
  destruct epic as [e|].
  - destruct (negb (String.eqb e "")) eqn:Ee.
    + apply Hreq.
    + destruct epics as [[|e0 l]|]; cbn [list_truthy negb]; apply Hreq.
  - destruct epics as [[|e0 l]|]; cbn [list_truthy negb]; apply Hreq.
Qed.

End MethodFacts.

(** X26: the query of [get_historical_prices] always names the
    resolution and passes on the non-empty dates; [max] is the number
    of points when one is given, is left out when both dates are
    given, and is 100 in every other case. *)
Theorem historical_prices_window_defaults :
  forall resolution num_points start_date end_date,
    let p := fst (price_params resolution num_points start_date end_date) in
    PyDict.get "resolution" p = Some (JStr (resolution_value resolution)) /\
    PyDict.get "max" p =
      match num_points with
      | Some n => Some (JNum n)
      | None => if str_truthy start_date && str_truthy end_date then None
                else Some (JNum 100)
      end /\
    PyDict.get "from" p =
      (if str_truthy start_date then option_map JStr start_date else None) /\
    PyDict.get "to" p =
      (if str_truthy end_date then option_map JStr end_date else None).
Proof.
  intros resolution num_points start_date end_date.
  unfold price_params, set_if_truthy, str_truthy.
  destruct num_points as [n|], start_date as [a|], end_date as [b|]; cbn;
    try destruct (String.eqb a ""); try destruct (String.eqb b "");
    cbn; repeat split.
Qed.


(** * Further properties: what a query returns *)

Lemma error_status_401 st : is_error_status st = false -> (st =? 401) = false.
Proof.
  unfold is_error_status. intros H.
  destruct (st =? 401) eqn:E; [|reflexivity].
  apply Z.eqb_eq in E. subst st. discriminate.
Qed.

(** X27: what [get_transaction_history] makes of a successful reply
    with a decoded, truthy body: for an object it returns the value
    under [transactions], or an empty list when there is none; for any
    other value (a non-empty array, a string, a number) it raises
    [AttributeError], which is not a [CapitalComAPIError]. *)
Theorem transaction_history_expects_an_object :
  forall x transaction_type from_date to_date detailed last_period_seconds c
         st hc hx t v,
    tokens_missing (core c) = false ->
    x_reply x = Response st hc hx t (Some v) ->
    is_error_status st = false ->
    (st =? 204) = false ->
    String.eqb t "" = false ->
    truthy v = true ->
    fst (get_transaction_history x transaction_type from_date to_date detailed
           last_period_seconds c) =
    match v with
    | JObj o =>
        inr (match PyDict.get "transactions" o with
             | Some l => l
             | None => JArr []
             end)
    | _ => inl AttributeError
    end.
Proof.
  intros x transaction_type from_date to_date detailed last_period_seconds c
    st hc hx t v Ht Ex Herr H204 Htext Hv.
  unfold get_transaction_history, bind, logs.
  match goal with
  | |- context [_request x ?m ?e ?p ?d true false ?c1] =>
      pose proof (request_first_reply x m e p d c1 st hc hx t (Some v)) as Hr;
      destruct (_request x m e p d true false c1) as [res c2]
  end.
  cbn [fst] in Hr.
  rewrite Hr; [|now destruct c|exact Ex|now apply error_status_401].
  rewrite Herr. unfold value_of. rewrite H204, Htext.
  cbn [String.eqb Ascii.eqb Bool.eqb andb negb option_map].
  unfold list_under, result_truthy, result_get, bind, ret, raise.
  rewrite Hv. destruct v; reflexivity.
Qed.

Lemma transaction_history_expects_an_object_witness :
  fst (get_transaction_history
         (Exchange LoginRequestFails
            (Response 200 None None "[1]" (Some (JArr [JNum 1])))
            LoginRequestFails RequestFails)
         None None None false None (Client Scenario.logged_in [])) =
  inl AttributeError.
Proof.
  apply (transaction_history_expects_an_object
           (Exchange LoginRequestFails
              (Response 200 None None "[1]" (Some (JArr [JNum 1])))
              LoginRequestFails RequestFails)
           None None None false None (Client Scenario.logged_in [])
           200 None None "[1]" (JArr [JNum 1]));
    reflexivity.
Defined.

Lemma switch_account_confirms_before_switching_witness :
  let x_put :=
    Exchange LoginRequestFails (Response 200 None None "{}" (Some (JObj [])))
      LoginRequestFails RequestFails in
  let x_get :=
    Exchange LoginRequestFails
      (Response 200 None None "{...}" (Some (JObj [("accountId", JStr "A2")])))
      LoginRequestFails RequestFails in
  let r := switch_account x_put x_get "A2" (Client Scenario.subscribed []) in
  active_account_id (core (snd r)) = Some "A2" /\
  _ws_subscriptions (core (snd r)) = [] /\
  exists st hc hx t b o,
    deciding_reply x_get true = Response st hc hx t b /\
    is_error_status st = false /\
    value_of "session" st t b = Some (RJson (JObj o)) /\
    PyDict.get "accountId" o = Some (JStr "A2").
Proof.
  apply (switch_account_confirms_before_switching
           (Exchange LoginRequestFails
              (Response 200 None None "{}" (Some (JObj [])))
              LoginRequestFails RequestFails)
           (Exchange LoginRequestFails
              (Response 200 None None "{...}"
                 (Some (JObj [("accountId", JStr "A2")])))
              LoginRequestFails RequestFails)
           "A2" (Client Scenario.subscribed [])).
  vm_compute. reflexivity.
Defined.

(** X28: [get_closed_trades] always asks for detailed transactions of
    type [TRADE]: every request it sends is an authenticated [GET] of
    [history/transactions] whose query has [type] = [TRADE] and
    [detailed] = [True], whatever dates and period are given. *)
Theorem closed_trades_asks_for_detailed_trades :
  forall x from_date to_date last_period_seconds c,
    let r := get_closed_trades x from_date to_date last_period_seconds c in
    exists sent params,
      requests (journal (snd r)) = requests (journal c) ++ sent /\
      Forall (authenticated "GET" "history/transactions" (Some params) None)
        sent /\
      PyDict.get "type" params = Some (JStr "TRADE") /\
      PyDict.get "detailed" params = Some (JBool true).
Proof.
  intros x from_date to_date last_period_seconds c r. subst r.
  unfold get_closed_trades, get_transaction_history, bind, logs.
  match goal with
  | |- context [_request x ?m ?e (Some ?p) ?d true false ?c1] =>
      destruct (request_spec x m e (Some p) d c1)
        as ((sent & Hj & _ & Hall & _) & _ & _);
      destruct (_request x m e (Some p) d true false c1) as [res c2];
      exists sent, p
  end.
  cbn [fst snd] in *.
  split; [|split; [exact Hall|]].
  - destruct res as [e|v]; cbn [snd];
      [|destruct (list_under "transactions" v c2) as [r3 c3] eqn:E3;
        assert (c3 = c2)
          by (revert E3; unfold list_under, result_get, bind, ret, raise;
              destruct (result_truthy v); [destruct v as [?| |[|?|?|?|?|?]]|];
              cbn; congruence);
        subst c3; cbn [snd]];
      rewrite Hj; destruct c; cbn; rewrite !requests_app; cbn;
      now rewrite !app_nil_r.
  - unfold transaction_params, set_if_truthy.
    destruct from_date as [a|], to_date as [b|], last_period_seconds as [n|];
      cbn; try destruct (String.eqb a ""); try destruct (String.eqb b "");
      cbn; split; reflexivity.
Qed.

(** * Further properties: orders *)

Section OrderFacts.

Variable float : Type.
Variable str_of_float : float -> string.
Variable upper : string -> string.

#[local] Arguments _request : simpl never.

(** X29: [close_trade] with an order type other than [MARKET] and no
    level raises [ValueError] before anything is sent.  With the order
    type [MARKET] every request it sends is an authenticated [DELETE]
    of [positions] whose body names the deal and has no [orderType],
    [level] or [timeInForce]: a level given with a market order is
    dropped. *)
Theorem close_trade_checks_level_before_sending :
  forall x deal_id direction size order_type level time_in_force c,
    let r := close_trade float str_of_float upper x deal_id direction size
               order_type level time_in_force c in
    (upper order_type <> "MARKET" -> level = None ->
     r = (inl ValueError, record (Logged INFO (NoteClosingTrade deal_id)) c)) /\
    (upper order_type = "MARKET" ->
     exists sent payload,
       requests (journal (snd r)) = requests (journal c) ++ sent /\
       Forall (authenticated "DELETE" "positions" None (Some payload)) sent /\
       PyDict.get "dealId" payload = Some (JStr deal_id) /\
       PyDict.get "orderType" payload = None /\
       PyDict.get "level" payload = None /\
       PyDict.get "timeInForce" payload = None).
Proof.
  intros x deal_id direction size order_type level time_in_force c r.
  subst r. unfold close_trade, close_payload, bind, logs. split.
  - intros Hu ->. apply String.eqb_neq in Hu. rewrite Hu. reflexivity.
  - intros Hu. rewrite Hu. cbn [String.eqb Ascii.eqb Bool.eqb negb].
    match goal with
    | |- context [_request x ?m ?e ?p (Some ?d) true false ?c1] =>
        destruct (request_spec x m e p (Some d) c1)
          as ((sent & Hj & _ & Hall & _) & _ & _);
        destruct (_request x m e p (Some d) true false c1) as [res c2];
        exists sent, d
    end.
    cbn [fst snd] in *. split; [|split; [exact Hall|]].
    + rewrite Hj. destruct c. cbn. rewrite requests_app. cbn.
      now rewrite app_nil_r.
    + unfold set_if_given. destruct direction, size; cbn; repeat split.
Qed.

(** X30: every request [open_trade] sends is an authenticated [POST]
    of [positions] whose body always carries epic, direction, the size
    as a string and the three flags; the trailing stop distance is
    part of it only when [trailing_stop] is set: a distance given
    without the flag is dropped. *)
Theorem open_trade_sends_distance_only_with_trailing_stop :
  forall x epic direction size guaranteed_stop stop_level stop_distance
         profit_level profit_distance trailing_stop trailing_stop_distance
         force_open c,
    let r := open_trade float str_of_float x epic direction size
               guaranteed_stop stop_level stop_distance profit_level
               profit_distance trailing_stop trailing_stop_distance
               force_open c in
    exists sent payload,
      requests (journal (snd r)) = requests (journal c) ++ sent /\
      Forall (authenticated "POST" "positions" None (Some payload)) sent /\
      PyDict.get "epic" payload = Some (JStr epic) /\
      PyDict.get "direction" payload = Some (JStr (direction_value direction)) /\
      PyDict.get "size" payload = Some (JStr (str_of_float size)) /\
      PyDict.get "guaranteedStop" payload = Some (JBool guaranteed_stop) /\
      PyDict.get "trailingStop" payload = Some (JBool trailing_stop) /\
      PyDict.get "forceOpen" payload = Some (JBool force_open) /\
      PyDict.get "trailingStopDistance" payload =
        (if trailing_stop
         then option_map (fun d => JStr (str_of_float d)) trailing_stop_distance
         else None).
Proof.
  intros x epic direction size guaranteed_stop stop_level stop_distance
    profit_level profit_distance trailing_stop trailing_stop_distance
    force_open c r.
  subst r. unfold open_trade, bind, logs.
  match goal with
  | |- context [_request x ?m ?e ?p (Some ?d) true false ?c1] =>
      destruct (request_spec x m e p (Some d) c1)
        as ((sent & Hj & _ & Hall & _) & _ & _);
      destruct (_request x m e p (Some d) true false c1) as [res c2];
      exists sent, d
  end.
  cbn [fst snd] in *. split; [|split; [exact Hall|]].
  - rewrite Hj. destruct c. cbn. rewrite requests_app. cbn.
    now rewrite app_nil_r.
  - unfold open_payload, set_if_given.
    destruct stop_level, stop_distance, profit_level, profit_distance,
      trailing_stop, trailing_stop_distance; cbn; repeat split.
Qed.

End OrderFacts.
